(** * Pictensor: peer sampling, simulated transport and the validator cycle

    A shallow embedding of
      - [template/utils/uids.py]      ([check_uid_availability], [get_random_uids]),
      - [template/mock.py]            ([MockDendrite.forward]),
      - [template/validator/forward.py] ([forward]),
    followed by the properties established about them.

    Python integers are [Z]; finite float values (stakes, clock readings,
    timeouts) are rationals [Q]; Python exceptions are the [Raise] branch of
    [result]; code with effects is written in the state-and-exception monad
    [M St], whose state survives a raise, as the effects of a Python function
    performed before it raises do. *)

From Stdlib Require Import ZArith QArith Qround Lia.
From stdpp Require Import base option list gmap sets strings sorting.

Close Scope Q_scope.
Open Scope Z_scope.

(** ** Python values, exceptions and the effect monad *)

Module Py.

Inductive exn :=
  | ValueError (msg : string)
  | IndexError
  | AttributeError
  | NotImplementedError (msg : string)
  | RuntimeError (msg : string).

Inductive result (A : Type) :=
  | Ok (a : A)
  | Raise (e : exn).
Arguments Ok {A} a.
Arguments Raise {A} e.

Definition is_ok {A} (r : result A) : bool :=
  match r with Ok _ => true | Raise _ => false end.

(** A computation over a state [St]: the state is returned in both branches. *)
Definition M (St A : Type) : Type := St -> result A * St.

Definition ret {St A} (a : A) : M St A := fun st => (Ok a, st).

Definition raise {St A} (e : exn) : M St A := fun st => (Raise e, st).

Definition bind {St A B} (c : M St A) (k : A -> M St B) : M St B :=
  fun st =>
    match c st with
    | (Ok a, st') => k a st'
    | (Raise e, st') => (Raise e, st')
    end.

Definition lift {St A} (r : result A) : M St A := fun st => (r, st).

(** [try: body except Exception as e: handler e] *)
Definition try_except {St A} (body : M St A) (handler : exn -> M St A) : M St A :=
  fun st =>
    match body st with
    | (Ok a, st') => (Ok a, st')
    | (Raise e, st') => handler e st'
    end.

(** [len(l)] *)
Definition len {A} (l : list A) : Z := Z.of_nat (length l).

(** [l[i]] on a list or array: a negative index counts from the end, an index
    out of range raises [IndexError]. *)
Definition getitem {A} (l : list A) (i : Z) : result A :=
  let j := if i <? 0 then len l + i else i in
  if j <? 0 then Raise IndexError
  else match l !! Z.to_nat j with
       | Some x => Ok x
       | None => Raise IndexError
       end.

(** [range(n)] *)
Definition range (n : Z) : list Z := seqZ 0 n.

End Py.

Import Py.

Notation "'let!' x ':=' c 'in' k" := (bind c (fun x => k))
  (at level 10, x pattern, c at level 100, k at level 200).
Notation "c ';;;' k" := (bind c (fun _ => k))
  (at level 100, k at level 200, right associativity).

(** ** The registry snapshot ([bt.metagraph]) and the validator's configuration *)

Module bt.

Record AxonInfo := {
  is_serving : bool;
  ip : string;
  port : Z;
  hotkey : string
}.

(** The fields of [bt.metagraph] the sampler reads: [n], and the per-uid
    arrays [axons], [validator_permit] and [S] (stake). *)
Record metagraph := {
  n : Z;
  axons : list AxonInfo;
  validator_permit : list bool;
  S : list Q
}.

End bt.

(** [config.neuron] *)
Module neuron.

Record NeuronConfig := {
  vpermit_tao_limit : Z;
  sample_size : Z;
  timeout : Q
}.

End neuron.

Abbreviation NeuronConfig := neuron.NeuronConfig.

(** ** template/utils/uids.py *)

Definition check_uid_availability
    (metagraph : bt.metagraph) (uid : Z) (vpermit_tao_limit : Z) : result bool :=
  match getitem (bt.axons metagraph) uid with
  | Raise e => Raise e
  | Ok axon =>
      if negb (bt.is_serving axon) then Ok false
      else
        match getitem (bt.validator_permit metagraph) uid with
        | Raise e => Raise e
        | Ok permit =>
            if permit then
              match getitem (bt.S metagraph) uid with
              | Raise e => Raise e
              | Ok stake =>
                  (* [metagraph.S[uid] > vpermit_tao_limit] *)
                  if negb (Qle_bool stake (inject_Z vpermit_tao_limit))
                  then Ok false
                  else Ok true
              end
            else Ok true
        end
  end.

(** The state the sampler runs in: the tape of raw draws of the module-level
    generator of [random], and a ghost log of the uids whose registry entries
    have been read.  The tape holds the draws still to come; past its end the
    generator counts on from its last draw.  A run of the code that returns
    has read finitely many draws, and is the run of the model on a tape that
    holds them. *)
Record Sampler := {
  tape : list nat;
  reads : list Z
}.

(** One call of the generator's [_randbelow(n)]: the next draw, reduced
    below [n]. *)
Definition randbelow (n : nat) : M Sampler nat :=
  fun st =>
    match tape st with
    | [] => (Ok (0 mod n)%nat, {| tape := [1%nat]; reads := reads st |})
    | [x] => (Ok (x mod n)%nat, {| tape := [Datatypes.S x]; reads := reads st |})
    | x :: t => (Ok (x mod n)%nat, {| tape := t; reads := reads st |})
    end.

(** The selection loop of [random.sample] (CPython 3.11, [Lib/random.py]) in
    its pool form: [m] is the number of items not yet selected, which sit at
    [pool[0 : m]]; each round picks [pool[j]] with [j = randbelow(m)] and
    moves the last non-selected item into the vacancy. *)
Fixpoint sample_pool {A} (pool : list A) (m : nat) (k : nat) : M Sampler (list A) :=
  match k with
  | O => ret []
  | Datatypes.S k' =>
      let! j := randbelow m in
      match pool !! j, pool !! (m - 1)%nat with
      | Some x, Some y =>
          let! rest := sample_pool (<[j := y]> pool) (m - 1)%nat k' in
          ret (x :: rest)
      | _, _ => raise IndexError
      end
  end.

(** [j = randbelow(n); while j in selected: j = randbelow(n)]: the loop goes
    round at most [fuel] times.  With the fuel [sample_set] gives it the
    bound is never met while some index below [n] is not selected
    ([randbelow_fresh_spec]). *)
Fixpoint randbelow_fresh (fuel n : nat) (selected : gset nat) : M Sampler nat :=
  let! j := randbelow n in
  if decide (j ∈ selected) then
    match fuel with
    | O => ret j
    | Datatypes.S fuel' => randbelow_fresh fuel' n selected
    end
  else ret j.

(** The selection loop of [random.sample] in its set form: the indices
    already selected are tracked in [selected], and a draw that hits one of
    them is made again. *)
Fixpoint sample_set {A} (population : list A) (n : nat) (selected : gset nat)
    (k : nat) : M Sampler (list A) :=
  match k with
  | O => ret []
  | Datatypes.S k' =>
      let! j := fun st => randbelow_fresh (length (tape st) + n) n selected st in
      match population !! j with
      | Some x =>
          let! rest := sample_set population n ({[j]} ∪ selected) k' in
          ret (x :: rest)
      | None => raise IndexError
      end
  end.

(** [setsize = 21; if k > 5: setsize += 4 ** _ceil(_log(k * 3, 4))]: the
    exponent is the least [e] with [3 * k <= 4 ^ e] ([3 * k] is never a power
    of 4, so the rounding of the floating-point logarithm does not show). *)
Definition setsize (k : Z) : Z :=
  21 + (if 5 <? k then 4 ^ ((Z.log2_up (k * 3) + 1) / 2) else 0).

(** [random.sample(population, k)]: the pool form for a population of at
    most [setsize] items, the set form for a larger one. *)
Definition random_sample {A} (population : list A) (k : Z) : M Sampler (list A) :=
  if negb ((0 <=? k) && (k <=? len population))
  then raise (ValueError "Sample larger than population or is negative")
  else if len population <=? setsize k
       then sample_pool population (length population) (Z.to_nat k)
       else sample_set population (length population) ∅ (Z.to_nat k).

(** Ghost step: the registry entry of [uid] is read. *)
Definition log_read (uid : Z) : M Sampler unit :=
  fun st => (Ok tt, {| tape := tape st; reads := reads st ++ [uid] |}).

(** The single pass of [get_random_uids] over [range(n)], threading
    [(avail_uids, candidate_uids)]. *)
Fixpoint scan_uids (metagraph : bt.metagraph) (vpermit_limit : Z)
    (exclude_set : gset Z) (uids : list Z) (acc : list Z * list Z)
    : M Sampler (list Z * list Z) :=
  match uids with
  | [] => ret acc
  | uid :: rest =>
      log_read uid ;;;
      let! available := lift (check_uid_availability metagraph uid vpermit_limit) in
      if (available : bool) then
        let avail_uids := acc.1 ++ [uid] in
        let candidate_uids :=
          if decide (uid ∈ exclude_set) then acc.2 else acc.2 ++ [uid] in
        scan_uids metagraph vpermit_limit exclude_set rest (avail_uids, candidate_uids)
      else scan_uids metagraph vpermit_limit exclude_set rest acc
  end.

(** Lines 73-77: the last clamp of [k] and the final draw. *)
Definition draw_from_pool (candidate_uids : list Z) (k : Z) : M Sampler (list Z) :=
  let k := if len candidate_uids <? k then len candidate_uids else k in
  random_sample candidate_uids k.

(** Lines 65-71: backfill of the candidates from the excluded available uids. *)
Definition backfill (exclude_set : gset Z) (avail_uids candidate_uids : list Z) (k : Z)
    : M Sampler (list Z) :=
  if len candidate_uids <? k then
    let excluded_available := filter (fun uid => uid ∈ exclude_set) avail_uids in
    let needed := k - len candidate_uids in
    match excluded_available with
    | [] => ret candidate_uids
    | _ :: _ =>
        let! extra := random_sample excluded_available
                        (Z.min needed (len excluded_available)) in
        ret (candidate_uids ++ extra)
    end
  else ret candidate_uids.

Definition get_random_uids (metagraph : bt.metagraph) (config : NeuronConfig)
    (k : Z) (exclude : option (list Z)) : M Sampler (list Z) :=
  let exclude := match exclude with None => [] | Some l => l end in
  let exclude_set : gset Z := list_to_set exclude in
  let vpermit_limit := neuron.vpermit_tao_limit config in
  let! scanned := scan_uids metagraph vpermit_limit exclude_set
                    (range (bt.n metagraph)) ([], []) in
  let avail_uids := scanned.1 in
  let candidate_uids := scanned.2 in
  let k := Z.min k (len avail_uids) in
  if k =? 0 then ret []
  else
    let! candidate_uids := backfill exclude_set avail_uids candidate_uids k in
    draw_from_pool candidate_uids k.

(** A small registry for running the sampler: uid 0 and 2 serve, uid 1 does not,
    uid 3 serves but holds a permit with stake above the limit. *)
Definition axon_up : bt.AxonInfo :=
  {| bt.is_serving := true; bt.ip := "127.0.0.0"; bt.port := 8091; bt.hotkey := "hk" |}.
Definition axon_down : bt.AxonInfo :=
  {| bt.is_serving := false; bt.ip := "127.0.0.0"; bt.port := 8091; bt.hotkey := "hk" |}.
Definition metagraph4 : bt.metagraph :=
  {| bt.n := 4;
     bt.axons := [axon_up; axon_down; axon_up; axon_up];
     bt.validator_permit := [false; true; true; true];
     bt.S := [(5000 # 1)%Q; (10 # 1)%Q; (1024 # 1)%Q; (2000 # 1)%Q] |}.
Definition config0 : NeuronConfig :=
  {| neuron.vpermit_tao_limit := 1024; neuron.sample_size := 2;
     neuron.timeout := (12 # 1)%Q |}.
Definition sampler0 : Sampler := {| tape := [7; 3; 1; 4]%nat; reads := [] |}.

(** A registry of 30 serving peers without permit: large enough for
    [random.sample] to take its set form. *)
Definition metagraph30 : bt.metagraph :=
  {| bt.n := 30;
     bt.axons := replicate 30 axon_up;
     bt.validator_permit := replicate 30 false;
     bt.S := replicate 30 0%Q |}.

(** The registry is well formed when its arrays have one entry per uid. *)
Definition wf_metagraph (metagraph : bt.metagraph) : Prop :=
  len (bt.axons metagraph) = bt.n metagraph
  /\ len (bt.validator_permit metagraph) = bt.n metagraph
  /\ len (bt.S metagraph) = bt.n metagraph.

(** The availability predicate as a boolean: a raise counts as unavailable. *)
Definition available (metagraph : bt.metagraph) (limit : Z) (uid : Z) : bool :=
  match check_uid_availability metagraph uid limit with
  | Ok b => b
  | Raise _ => false
  end.

(** The eligible peers of a registry, and its candidates under an exclusion
    list, in uid order. *)
Definition eligible (metagraph : bt.metagraph) (limit : Z) : list Z :=
  filter (fun uid => available metagraph limit uid = true) (range (bt.n metagraph)).

Definition candidates (metagraph : bt.metagraph) (limit : Z) (exclude : list Z) : list Z :=
  filter (fun uid => uid ∉ exclude) (eligible metagraph limit).

Definition excluded_eligible (metagraph : bt.metagraph) (limit : Z) (exclude : list Z)
    : list Z :=
  filter (fun uid => uid ∈ exclude) (eligible metagraph limit).

(** The sampler rejects a request before any scan when it raises in the state
    it was called in: no registry entry read, no draw made. *)
Definition rejects_before_scan (metagraph : bt.metagraph) (config : NeuronConfig)
    (k : Z) (exclude : option (list Z)) (st : Sampler) : Prop :=
  exists e, get_random_uids metagraph config k exclude st = (Raise e, st).

(** ** template/mock.py *)

(** [bt.TerminalInfo]: the protocol metadata of one end of a request.  A field
    that has not been set is [None]. [process_time] holds the float whose
    [str] the code stores. *)
Module terminal.

Record TerminalInfo := {
  status_code : option Z;
  status_message : option string;
  process_time : option Q;
  ip : option string;
  port : option Z;
  hotkey : option string
}.

Definition blank : TerminalInfo :=
  {| status_code := None; status_message := None; process_time := None;
     ip := None; port := None; hotkey := None |}.

Definition set_status_code (v : Z) (t : TerminalInfo) : TerminalInfo :=
  {| status_code := Some v; status_message := status_message t;
     process_time := process_time t; ip := ip t; port := port t; hotkey := hotkey t |}.

Definition set_status_message (v : string) (t : TerminalInfo) : TerminalInfo :=
  {| status_code := status_code t; status_message := Some v;
     process_time := process_time t; ip := ip t; port := port t; hotkey := hotkey t |}.

Definition set_process_time (v : Q) (t : TerminalInfo) : TerminalInfo :=
  {| status_code := status_code t; status_message := status_message t;
     process_time := Some v; ip := ip t; port := port t; hotkey := hotkey t |}.

End terminal.

(** A message object ([bt.Synapse], or the stub protocol's [Dummy]).
    [dummy_input = None] stands for a message of the base class [bt.Synapse],
    which declares neither [dummy_input] ([hasattr(s, 'dummy_input')] is
    false) nor [dummy_output]; a [Dummy] declares both, and its [dummy_input]
    is required.  [dummy_output = None] is an output that is unset.
    [dendrite] and [axon] are references to [TerminalInfo] objects of the
    store: a copy of the message shares them. *)
Module synapse.

Record Synapse := {
  dummy_input : option Z;
  dummy_output : option Z;
  timeout : option Q;
  dendrite : positive;
  axon : positive
}.

Definition set_dummy_output (v : Z) (s : Synapse) : Synapse :=
  {| dummy_input := dummy_input s; dummy_output := Some v; timeout := timeout s;
     dendrite := dendrite s; axon := axon s |}.

End synapse.

Import terminal synapse.

(** What the transport runs in: the object store (message objects and
    [TerminalInfo] objects, by reference), the successive readings of
    [time.time()] and the successive draws of [random.random()]. *)
Record Net := {
  synapses : gmap positive Synapse;
  terminals : gmap positive TerminalInfo;
  clock : list Q;
  draws : list Q
}.

(** What a unit returns: the message object, or its deserialized value. *)
Inductive response :=
  | RSynapse (s : positive)
  | RValue (v : option Z).

Record MockDendrite := {
  min_time : Q;
  max_time : Q
}.

(** [time.time()]: the next reading of the clock (0 once the readings are
    used up). *)
Definition time_time : M Net Q :=
  fun w =>
    (Ok (hd 0%Q (clock w)),
     {| synapses := synapses w; terminals := terminals w;
        clock := tl (clock w); draws := draws w |}).

(** [random.uniform(a, b)], that is [a + (b - a) * random()] *)
Definition random_uniform (a b : Q) : M Net Q :=
  fun w =>
    (Ok (a + (b - a) * hd 0%Q (draws w))%Q,
     {| synapses := synapses w; terminals := terminals w;
        clock := clock w; draws := tl (draws w) |}).

Definition store_synapse (s : positive) (sy : Synapse) (w : Net) : Net :=
  {| synapses := <[s := sy]> (synapses w); terminals := terminals w;
     clock := clock w; draws := draws w |}.

Definition store_terminal (d : positive) (t : TerminalInfo) (w : Net) : Net :=
  {| synapses := synapses w; terminals := <[d := t]> (terminals w);
     clock := clock w; draws := draws w |}.

Definition read_synapse (s : positive) : M Net Synapse :=
  fun w =>
    match synapses w !! s with
    | Some sy => (Ok sy, w)
    | None => (Raise AttributeError, w)
    end.

Definition write_synapse (s : positive) (sy : Synapse) : M Net unit :=
  fun w => (Ok tt, store_synapse s sy w).

Definition read_terminal (d : positive) : M Net TerminalInfo :=
  fun w =>
    match terminals w !! d with
    | Some t => (Ok t, w)
    | None => (Raise AttributeError, w)
    end.

Definition write_terminal (d : positive) (t : TerminalInfo) : M Net unit :=
  fun w => (Ok tt, store_terminal d t w).

(** A new [TerminalInfo] object. *)
Definition new_terminal (t : TerminalInfo) : M Net positive :=
  fun w =>
    let d := fresh (dom (terminals w)) in
    (Ok d, store_terminal d t w).

(** [synapse.copy()]: a new message object with the same field values; the
    copy is shallow, so the [TerminalInfo] objects are shared with the
    original. *)
Definition synapse_copy (s : positive) : M Net positive :=
  let! sy := read_synapse s in
  fun w =>
    let s' := fresh (dom (synapses w)) in
    (Ok s', store_synapse s' sy w).

(** [s.dummy_output = v]: the messages are pydantic models, and the
    assignment to a field that the class of the message does not declare is
    refused with a [ValueError] (whose text names the class and the field in
    quotes). *)
Definition set_output (s : positive) (v : Z) : M Net unit :=
  let! sy := read_synapse s in
  match dummy_input sy with
  | Some _ => write_synapse s (set_dummy_output v sy)
  | None => raise (ValueError "Synapse object has no field dummy_output")
  end.

(** [s.dendrite.<field> = v] *)
Definition set_dendrite (s : positive) (upd : TerminalInfo -> TerminalInfo) : M Net unit :=
  let! sy := read_synapse s in
  let! t := read_terminal (dendrite sy) in
  write_terminal (dendrite sy) (upd t).

(** A unit of work suspended at its [await asyncio.sleep(process_time)]: its
    position in the input list and the locals it resumes with. *)
Record Task := {
  task_index : nat;
  task_s : positive;
  task_start_time : Q;
  task_process_time : Q
}.

(** [enumerate(axons)] *)
Fixpoint enumerate_from {A} (i : nat) (l : list A) : list (nat * A) :=
  match l with
  | [] => []
  | x :: rest => (i, x) :: enumerate_from (Datatypes.S i) rest
  end.

Definition enumerate {A} (l : list A) : list (nat * A) := enumerate_from 0 l.

(** The time at which the event loop wakes a unit up: its delay after it
    went to sleep. *)
Definition wake_time (t : Task) : Q := (task_start_time t + task_process_time t)%Q.

Definition wakes_before (t1 t2 : Task) : Prop :=
  Qle_bool (wake_time t1) (wake_time t2) = true.

#[global] Instance wakes_before_dec (t1 t2 : Task) : Decision (wakes_before t1 t2).
Proof. unfold wakes_before. apply _. Defined.

(** The order in which the suspended units complete: the event loop resumes
    them by wake-up time. *)
Definition completion_order (tasks : list Task) : list Task :=
  merge_sort wakes_before tasks.

Section MockDendrite.

(** [bt.dendrite.preprocess_synapse_for_request] and the message class's
    [deserialize] method are the library's and the protocol's. *)
Variable preprocess_synapse_for_request :
  bt.AxonInfo -> positive -> Q -> M Net positive.
Variable synapse_deserialize : positive -> Synapse -> response.

Variable self : MockDendrite.
Variable synapse : positive.
Variable timeout : Q.
Variable deserialize : bool.

(** [single_axon_response], up to its [await]. *)
Definition single_axon_response_begin (i : nat) (axon : bt.AxonInfo) : M Net Task :=
  let! start_time := time_time in
  let! s := synapse_copy synapse in
  let! s := preprocess_synapse_for_request axon s timeout in
  let! process_time := random_uniform (min_time self) (max_time self) in
  ret {| task_index := i; task_s := s;
         task_start_time := start_time; task_process_time := process_time |}.

(** [single_axon_response], from its [await] on. *)
Definition single_axon_response_resume (t : Task) : M Net response :=
  let s := task_s t in
  let! now := time_time in
  let actual_time := (now - task_start_time t)%Q in
  (if Qle_bool timeout actual_time then
     (let! sy := read_synapse s in
      set_output s (match dummy_input sy with Some x => x | None => 0 end)) ;;;
     set_dendrite s (set_status_code 408) ;;;
     set_dendrite s (set_status_message "Timeout") ;;;
     set_dendrite s (set_process_time actual_time)
   else
     (let! sy := read_synapse s in
      match dummy_input sy with
      | Some x => set_output s (x * 2)
      | None => ret tt
      end) ;;;
     set_dendrite s (set_status_code 200) ;;;
     set_dendrite s (set_status_message "OK") ;;;
     set_dendrite s (set_process_time actual_time)) ;;;
  if deserialize then
    let! sy := read_synapse s in
    ret (synapse_deserialize s sy)
  else ret (RSynapse s).

(** [asyncio.gather] over the units: each runs up to its [await] in input
    order ... *)
Fixpoint start_all (items : list (nat * bt.AxonInfo)) : M Net (list Task) :=
  match items with
  | [] => ret []
  | (i, axon) :: rest =>
      let! t := single_axon_response_begin i axon in
      let! ts := start_all rest in
      ret (t :: ts)
  end.

(** ... then they complete, each storing its result at its own position. *)
Fixpoint finish_all (order : list Task) (slots : list (option response))
    : M Net (list (option response)) :=
  match order with
  | [] => ret slots
  | t :: rest =>
      let! r := single_axon_response_resume t in
      finish_all rest (<[task_index t := Some r]> slots)
  end.

Fixpoint collect (slots : list (option response)) : option (list response) :=
  match slots with
  | [] => Some []
  | None :: _ => None
  | Some r :: rest =>
      match collect rest with
      | Some rs => Some (r :: rs)
      | None => None
      end
  end.

Definition query_all_axons (axons : list bt.AxonInfo) : M Net (list response) :=
  let! tasks := start_all (enumerate axons) in
  let! slots := finish_all (completion_order tasks)
                  (replicate (length axons) None) in
  match collect slots with
  | Some rs => ret rs
  | None => raise (RuntimeError "a unit never completed")
  end.

Definition forward (axons : list bt.AxonInfo) (run_async streaming : bool)
    : M Net (list response) :=
  if streaming then raise (NotImplementedError "Streaming not implemented yet.")
  else query_all_axons axons.

End MockDendrite.

(** [bt.dendrite.preprocess_synapse_for_request], as far as the transport
    depends on it: the timeout is recorded on the message it is passed, a new
    [dendrite] and a new [axon] [TerminalInfo], the latter with the target's
    address, are installed on it, and that same message is returned. *)
Definition dendrite_preprocess (axon : bt.AxonInfo) (s : positive) (timeout : Q)
    : M Net positive :=
  let! sy := read_synapse s in
  let! d := new_terminal terminal.blank in
  let! a := new_terminal
              {| status_code := None; status_message := None; process_time := None;
                 ip := Some (bt.ip axon); port := Some (bt.port axon);
                 hotkey := Some (bt.hotkey axon) |} in
  write_synapse s {| dummy_input := dummy_input sy; dummy_output := dummy_output sy;
                     synapse.timeout := Some timeout; dendrite := d; axon := a |} ;;;
  ret s.

(** [Dummy.deserialize]: the output field. *)
Definition dummy_deserialize (s : positive) (sy : Synapse) : response :=
  RValue (dummy_output sy).

(** What [preprocess_synapse_for_request] is relied on for: called on a live
    message [s], it returns [s], leaves its input field as it is, gives it a
    [dendrite] object that did not exist before, and changes no other object
    that existed before. *)
Definition preprocess_contract
    (preprocess : bt.AxonInfo -> positive -> Q -> M Net positive) : Prop :=
  forall axon s timeout w sy,
    synapses w !! s = Some sy ->
    exists w' sy',
      preprocess axon s timeout w = (Ok s, w')
      /\ synapses w' !! s = Some sy'
      /\ dummy_input sy' = dummy_input sy
      /\ (dendrite sy' ∉ dom (terminals w))
      /\ (dendrite sy' ∈ dom (terminals w'))
      /\ (forall l, l ∈ dom (synapses w) -> l <> s ->
            synapses w' !! l = synapses w !! l)
      /\ (forall l, l ∈ dom (terminals w) -> terminals w' !! l = terminals w !! l).

(** A store with the caller's message [Dummy(dummy_input=42)] at reference 1,
    its own [dendrite] and [axon] objects at 1 and 2. *)
Definition dummy42 : Synapse :=
  {| dummy_input := Some 42; dummy_output := None; synapse.timeout := None;
     dendrite := 1%positive; axon := 2%positive |}.

Definition net0 (clock draws : list Q) : Net :=
  {| synapses := {[ 1%positive := dummy42 ]};
     terminals := {[ 1%positive := terminal.blank; 2%positive := terminal.blank ]};
     clock := clock; draws := draws |}.

Definition mock01 : MockDendrite := {| min_time := 0%Q; max_time := 1%Q |}.

(** The objects that existed in [w0] are the same in [w]. *)
Definition orig_kept (w0 w : Net) : Prop :=
  (forall l, l ∈ dom (synapses w0) -> synapses w !! l = synapses w0 !! l)
  /\ (forall l, l ∈ dom (terminals w0) -> terminals w !! l = terminals w0 !! l).

(** The message of a unit is live in [w], with a live [dendrite] object, and
    neither existed in [w0]. *)
Definition task_live (w0 w : Net) (t : Task) : Prop :=
  exists sy,
    synapses w !! task_s t = Some sy
    /\ (task_s t ∉ dom (synapses w0))
    /\ (dendrite sy ∈ dom (terminals w))
    /\ (dendrite sy ∉ dom (terminals w0)).

(** The store once one unit has been started for [axon_up] on the caller's
    message of [net0]: the unit's copy at reference 2, with the [dendrite] and
    [axon] objects 3 and 4 that preprocessing gave it. *)
Definition dummy42_sent : Synapse :=
  {| dummy_input := Some 42; dummy_output := None;
     synapse.timeout := Some (1 # 10)%Q;
     dendrite := 3%positive; axon := 4%positive |}.

Definition net1 (clock draws : list Q) : Net :=
  {| synapses := {[ 1%positive := dummy42; 2%positive := dummy42_sent ]};
     terminals :=
       {[ 1%positive := terminal.blank; 2%positive := terminal.blank;
          3%positive := terminal.blank;
          4%positive := {| status_code := None; status_message := None;
                           process_time := None; ip := Some (bt.ip axon_up);
                           port := Some (bt.port axon_up);
                           hotkey := Some (bt.hotkey axon_up) |} ]};
     clock := clock; draws := draws |}.

Definition task1 : Task :=
  {| task_index := 0; task_s := 2%positive;
     task_start_time := 0%Q; task_process_time := (1 # 2)%Q |}.

(** ** template/validator/forward.py *)

(** An entry of a float array: NaN or a finite value. *)
Inductive np_float :=
  | NaN
  | Fin (q : Q).

Definition is_nan (x : np_float) : bool :=
  match x with NaN => true | Fin _ => false end.

(** What a cycle leaves behind it, in order: the records it hands to
    [bt.logging] and its calls of [self.update_scores]. *)
Inductive event :=
  | Log_warning (msg : string)
  | Log_debug_received (responses miners : Z)
  | Log_debug_scored (rewards : list np_float)
  | Log_error (e : exn)
  | Update_scores (rewards : list np_float) (uids : list Z).

Definition is_warning (e : event) : bool :=
  match e with Log_warning _ => true | _ => false end.

(** [result]'s [for x in l] *)
Fixpoint result_map {A B} (f : A -> result B) (l : list A) : result (list B) :=
  match l with
  | [] => Ok []
  | x :: rest =>
      match f x with
      | Raise e => Raise e
      | Ok y =>
          match result_map f rest with
          | Raise e => Raise e
          | Ok ys => Ok (y :: ys)
          end
      end
  end.

Module validator.

(** What a cycle reads of the validator ... *)
Record Neuron := {
  metagraph : bt.metagraph;
  config : NeuronConfig;
  step : Z
}.

(** ... and what it may change: the sampler's generator, the state [T] of the
    transport, the scores, and the trail of events. *)
Record State (T : Type) := {
  sampler : Sampler;
  net : T;
  scores : list np_float;
  events : list event
}.
Arguments sampler {T} _.
Arguments net {T} _.
Arguments scores {T} _.
Arguments events {T} _.

Section Forward.

Context {T R : Type}.

(** The collaborators of the cycle: [self.dendrite] called on the axons
    with [Dummy(dummy_input=...)], the [deserialize] flag and the timeout;
    [get_rewards]; [self.update_scores], which rewrites the scores. *)
Variable dendrite : list bt.AxonInfo -> Z -> bool -> Q -> M T (list R).
Variable get_rewards : Z -> list R -> result (list np_float).
Variable update_scores :
  list np_float -> list Z -> list np_float -> result (list np_float).

Definition on_sampler {A} (c : M Sampler A) : M (State T) A :=
  fun st =>
    let (r, smp) := c (sampler st) in
    (r, {| sampler := smp; net := net st; scores := scores st;
           events := events st |}).

Definition on_net {A} (c : M T A) : M (State T) A :=
  fun st =>
    let (r, w) := c (net st) in
    (r, {| sampler := sampler st; net := w; scores := scores st;
           events := events st |}).

Definition emit (e : event) : M (State T) unit :=
  fun st =>
    (Ok tt, {| sampler := sampler st; net := net st; scores := scores st;
               events := events st ++ [e] |}).

(** [self.update_scores(rewards, uids)] *)
Definition call_update_scores (rewards : list np_float) (uids : list Z)
    : M (State T) unit :=
  emit (Update_scores rewards uids) ;;;
  fun st =>
    match update_scores rewards uids (scores st) with
    | Ok sc =>
        (Ok tt, {| sampler := sampler st; net := net st; scores := sc;
                   events := events st |})
    | Raise e => (Raise e, st)
    end.

(** The body of the [try]. *)
Definition forward_body (self : Neuron) : M (State T) unit :=
  let! miner_uids :=
    on_sampler (get_random_uids (metagraph self) (config self)
                  (neuron.sample_size (config self)) None) in
  if len miner_uids =? 0 then
    emit (Log_warning "No available miners to query. Skipping forward pass.")
  else
    let! axons :=
      lift (result_map (getitem (bt.axons (metagraph self))) miner_uids) in
    let! responses :=
      on_net (dendrite axons (step self) true (neuron.timeout (config self))) in
    emit (Log_debug_received (len responses) (len miner_uids)) ;;;
    let! rewards := lift (get_rewards (step self) responses) in
    if 0 <? len rewards then
      emit (Log_debug_scored rewards) ;;;
      call_update_scores rewards miner_uids
    else
      emit (Log_warning "No valid rewards generated from responses.").

Definition forward (self : Neuron) : M (State T) unit :=
  try_except (forward_body self)
    (fun e => emit (Log_error e) ;;; raise e).

End Forward.

End validator.

(** [Dummy(dummy_input=x)]: a new message with its own [dendrite] and [axon]
    objects. *)
Definition new_dummy (x : Z) : M Net positive :=
  let! d := new_terminal terminal.blank in
  let! a := new_terminal terminal.blank in
  fun w =>
    let s := fresh (dom (synapses w)) in
    (Ok s,
     store_synapse s
       {| dummy_input := Some x; dummy_output := None; synapse.timeout := None;
          dendrite := d; axon := a |} w).

(** [self.dendrite(axons=..., synapse=Dummy(dummy_input=x), ...)] on the
    simulated transport, whose [__call__] delegates to [forward]. *)
Definition mock_dendrite (self : MockDendrite) (axons : list bt.AxonInfo)
    (x : Z) (deserialize : bool) (timeout : Q) : M Net (list response) :=
  let! s := new_dummy x in
  forward dendrite_preprocess dummy_deserialize self s timeout deserialize axons
    true false.

(** Modelled from the spec: [get_rewards] of [template/validator/reward.py],
    which is not among the sources; the spec has it return 1 for a response
    equal to twice the query and 0 for any other. *)
Definition get_rewards (query : Z) (responses : list response)
    : result (list np_float) :=
  Ok (map (fun r =>
             match r with
             | RValue (Some v) => if v =? query * 2 then Fin 1 else Fin 0
             | _ => Fin 0
             end) responses).

(** A reward callback whose first reward is NaN. *)
Definition nan_rewards (query : Z) (responses : list response)
    : result (list np_float) :=
  Ok (NaN :: map (fun _ => Fin 1) (tl responses)).

(** A reward callback that returns no reward. *)
Definition no_rewards (query : Z) (responses : list response)
    : result (list np_float) :=
  Ok [].

(** A score-update callback for running the cycle: each reward is stored at
    its uid. *)
Definition store_rewards (rewards : list np_float) (uids : list Z)
    (scores : list np_float) : result (list np_float) :=
  Ok (foldl (fun sc ur => <[Z.to_nat ur.1 := ur.2]> sc) scores (zip uids rewards)).

Definition neuron0 : validator.Neuron :=
  {| validator.metagraph := metagraph4; validator.config := config0;
     validator.step := 42 |}.

Definition empty_net (clock draws : list Q) : Net :=
  {| synapses := ∅; terminals := ∅; clock := clock; draws := draws |}.

Definition state0 : validator.State Net :=
  {| validator.sampler := sampler0;
     validator.net := empty_net [0; 0; (1 # 20); (1 # 10)]%Q [(1 # 20); (1 # 10)]%Q;
     validator.scores := [Fin 0; Fin 0; Fin 0; Fin 0];
     validator.events := [] |}.

(** A suspended unit is ready to resume on input [x]: its message is live,
    carries [dummy_input = x], and has a live [dendrite] object. *)
Definition task_ready (x : Z) (w : Net) (t : Task) : Prop :=
  exists sy ti,
    synapses w !! task_s t = Some sy
    /\ terminals w !! dendrite sy = Some ti
    /\ dummy_input sy = Some x.

(** Two units share neither their message nor its [dendrite] object. *)
Definition separated (w : Net) (t t' : Task) : Prop :=
  task_s t <> task_s t'
  /\ dendrite <$> synapses w !! task_s t <> dendrite <$> synapses w !! task_s t'.

Definition all_separated (w : Net) (ts : list Task) : Prop :=
  NoDup ts /\ forall t t', t ∈ ts -> t' ∈ ts -> t <> t' -> separated w t t'.

(** The message of a unit, as the store has it, is classified by the elapsed
    time [e] that its [dendrite] object records: a timeout with the input
    [x] echoed, or a success with twice the input. *)
Definition classified (timeout : Q) (x : Z) (w : Net) (t : Task) : Prop :=
  exists sy ti e,
    synapses w !! task_s t = Some sy
    /\ terminals w !! dendrite sy = Some ti
    /\ process_time ti = Some e
    /\ ((timeout <= e)%Q ->
          status_code ti = Some 408 /\ status_message ti = Some "Timeout"
          /\ dummy_output sy = Some x)
    /\ (~ (timeout <= e)%Q ->
          status_code ti = Some 200 /\ status_message ti = Some "OK"
          /\ dummy_output sy = Some (2 * x)).

(** ** Further definitions *)

(** What a completed unit returned, read off the store: its message, or the
    deserialized value of its message. *)
Definition unit_response (deser : positive -> Synapse -> response)
    (deserialize : bool) (w : Net) (t : Task) : response :=
  if deserialize then
    match synapses w !! task_s t with
    | Some sy => deser (task_s t) sy
    | None => RSynapse (task_s t)
    end
  else RSynapse (task_s t).

(** The number of [self.update_scores] calls in a trail of events. *)
Fixpoint count_updates (l : list event) : nat :=
  match l with
  | [] => 0
  | Update_scores _ _ :: rest => Datatypes.S (count_updates rest)
  | _ :: rest => count_updates rest
  end.

(** ** template/api/dummy.py *)

(** [DummyAPI.prepare_synapse] *)
Definition prepare_synapse (dummy_input : Z) : M Net positive :=
  new_dummy dummy_input.

(** [response.dendrite.status_code]: a value that is not a message has no
    [dendrite] attribute. *)
Definition response_status_code (r : response) : M Net (option Z) :=
  match r with
  | RSynapse s =>
      let! sy := read_synapse s in
      let! t := read_terminal (dendrite sy) in
      ret (status_code t)
  | RValue _ => raise AttributeError
  end.

(** [response.dummy_output], where [None] also stands for a response
    without that attribute. *)
Definition response_dummy_output (r : response) : M Net (option Z) :=
  match r with
  | RSynapse s =>
      let! sy := read_synapse s in
      ret (dummy_output sy)
  | RValue _ => ret None
  end.

(** The loop of [DummyAPI.process_responses] over [responses], threading
    [outputs]. *)
Fixpoint process_responses_from (responses : list response) (outputs : list Z)
    : M Net (list Z) :=
  match responses with
  | [] => ret outputs
  | response :: rest =>
      let! code := response_status_code response in
      if negb (bool_decide (code = Some 200)) then
        process_responses_from rest outputs
      else
        let! out := response_dummy_output response in
        match out with
        | Some v => process_responses_from rest (outputs ++ [v])
        | None => process_responses_from rest outputs
        end
  end.

Definition process_responses (responses : list response) : M Net (list Z) :=
  process_responses_from responses [].

(** ** template/api/get_query_axons.py *)

(** [bt.Synapse()]: a new message of the base class, with its own [dendrite]
    and [axon] objects and no [dummy_input]. *)
Definition new_synapse : M Net positive :=
  let! d := new_terminal terminal.blank in
  let! a := new_terminal terminal.blank in
  fun w =>
    let s := fresh (dom (synapses w)) in
    (Ok s,
     store_synapse s
       {| dummy_input := None; dummy_output := None; synapse.timeout := None;
          dendrite := d; axon := a |} w).

(** The records the helpers hand to [bt.logging]. *)
Inductive api_event :=
  | Ping_error (e : exn)
  | Ping_successful (uids : list Z)
  | Ping_failed (uids : list Z)
  | Fetching_nodes (netuid : Z)
  | Available_nodes (netuid : Z) (uids : list Z).

(** What the helpers run in: the transport's state, the generator of
    [random], the log. *)
Record Api := {
  api_net : Net;
  api_sampler : Sampler;
  api_log : list api_event
}.

Definition on_api_net {A} (c : M Net A) : M Api A :=
  fun st =>
    let (r, w) := c (api_net st) in
    (r, {| api_net := w; api_sampler := api_sampler st; api_log := api_log st |}).

Definition on_api_sampler {A} (c : M Sampler A) : M Api A :=
  fun st =>
    let (r, smp) := c (api_sampler st) in
    (r, {| api_net := api_net st; api_sampler := smp; api_log := api_log st |}).

Definition api_emit (e : api_event) : M Api unit :=
  fun st =>
    (Ok tt, {| api_net := api_net st; api_sampler := api_sampler st;
               api_log := api_log st ++ [e] |}).

(** [[uid for uid, response in pairs if keep(response.dendrite.status_code)]] *)
Fixpoint select_uids (keep : option Z -> bool) (pairs : list (Z * response))
    : M Net (list Z) :=
  match pairs with
  | [] => ret []
  | (uid, response) :: rest =>
      let! code := response_status_code response in
      let! selected := select_uids keep rest in
      ret (if keep code then uid :: selected else selected)
  end.

(** The further fields of [bt.metagraph] that [get_query_api_nodes] reads. *)
Module apimeta.

Record metagraph := {
  base : bt.metagraph;
  netuid : Z;
  uids : list Z;
  validator_trust : list Q
}.

End apimeta.

(** [list(s)] for a set [s]: its members, once each, in an order that the
    language leaves open and that [set_order] ranks here.  Every order of the
    members is the one of some ranking. *)
Definition listed_before (set_order : Z -> Z) (a b : Z) : Prop :=
  set_order a <= set_order b.

#[global] Instance listed_before_dec set_order a b :
  Decision (listed_before set_order a b).
Proof. unfold listed_before. apply _. Defined.

Definition list_of_set (set_order : Z -> Z) (s : gset Z) : list Z :=
  merge_sort (listed_before set_order) (elements s).

Section QueryAxons.

(** [self.dendrite(axons, synapse, deserialize=..., timeout=...)] *)
Variable dendrite : list bt.AxonInfo -> positive -> bool -> Q -> M Net (list response).

(** [np.quantile] *)
Variable np_quantile : list Q -> Q -> Q.

(** The order in which the interpreter lists a set. *)
Variable set_order : Z -> Z.

Definition ping_uids (metagraph : bt.metagraph) (uids : list Z) (timeout : Q)
    : M Api (list Z * list Z) :=
  let! axons := lift (result_map (getitem (bt.axons metagraph)) uids) in
  let! pinged :=
    try_except
      (let! responses :=
         on_api_net (let! s := new_synapse in dendrite axons s false timeout) in
       let! successful_uids :=
         on_api_net (select_uids (fun code => bool_decide (code = Some 200))
                       (zip uids responses)) in
       let! failed_uids :=
         on_api_net (select_uids (fun code => negb (bool_decide (code = Some 200)))
                       (zip uids responses)) in
       ret (successful_uids, failed_uids))
      (fun e => api_emit (Ping_error e) ;;; ret ([], uids)) in
  api_emit (Ping_successful pinged.1) ;;;
  api_emit (Ping_failed pinged.2) ;;;
  ret pinged.

(** [[uid.item() for uid in metagraph.uids if metagraph.validator_trust[uid] > 0]] *)
Fixpoint vtrust_uids_of (validator_trust : list Q) (uids : list Z) : result (list Z) :=
  match uids with
  | [] => Ok []
  | uid :: rest =>
      match getitem validator_trust uid with
      | Raise e => Raise e
      | Ok trust =>
          match vtrust_uids_of validator_trust rest with
          | Raise e => Raise e
          | Ok selected =>
              Ok (if negb (Qle_bool trust 0) then uid :: selected else selected)
          end
      end
  end.

(** [np.where(S > q)[0].tolist()] *)
Definition where_above (S : list Q) (q : Q) : list Z :=
  filter (fun i => match S !! Z.to_nat i with
                   | Some s => negb (Qle_bool s q)
                   | None => false
                   end = true) (range (len S)).

Definition get_query_api_nodes (metagraph : apimeta.metagraph) (n : Q) (timeout : Q)
    : M Api (list Z) :=
  api_emit (Fetching_nodes (apimeta.netuid metagraph)) ;;;
  let! vtrust_uids :=
    lift (vtrust_uids_of (apimeta.validator_trust metagraph)
            (apimeta.uids metagraph)) in
  let S := bt.S (apimeta.base metagraph) in
  let top_uids := where_above S (np_quantile S (1 - n)%Q) in
  let init_query_uids : gset Z := list_to_set top_uids ∩ list_to_set vtrust_uids in
  let! pinged := ping_uids (apimeta.base metagraph)
                   (list_of_set set_order init_query_uids)
                   timeout in
  let query_uids := pinged.1 in
  api_emit (Available_nodes (apimeta.netuid metagraph) query_uids) ;;;
  if 3 <? len query_uids
  then on_api_sampler (random_sample query_uids 3)
  else ret query_uids.

(** [get_query_api_axons]: [default_metagraph] stands for
    [bt.metagraph(netuid=1)]; [uids] is absent, one uid or a list. *)
Definition get_query_api_axons (default_metagraph : apimeta.metagraph)
    (metagraph : option apimeta.metagraph) (n timeout : Q)
    (uids : option (Z + list Z)) : M Api (list bt.AxonInfo) :=
  let metagraph := match metagraph with
                   | None => default_metagraph
                   | Some m => m
                   end in
  let! query_uids :=
    match uids with
    | Some (inl uid) => ret [uid]
    | Some (inr l) => ret l
    | None => get_query_api_nodes metagraph n timeout
    end in
  lift (result_map (getitem (bt.axons (apimeta.base metagraph))) query_uids).

End QueryAxons.

(** The status a response shows in a store, read without running anything. *)
Definition status_in (w : Net) (r : response) : result (option Z) :=
  (response_status_code r w).1.

(** A response shows status 200 in a store. *)
Definition answers_200 (w : Net) (r : response) : bool :=
  match status_in w r with
  | Ok code => bool_decide (code = Some 200)
  | Raise _ => false
  end.

(** A uid is outside the arrays of a registry. *)
Definition out_of_range {A} (l : list A) (uid : Z) : Prop :=
  uid < - len l \/ len l <= uid.

(** [MockDendrite.__call__]: delegates to [forward], asynchronous and not
    streaming unless told otherwise. *)
Definition mock_call (self : MockDendrite) (axons : list bt.AxonInfo)
    (synapse : positive) (deserialize : bool) (timeout : Q)
    : M Net (list response) :=
  forward dendrite_preprocess dummy_deserialize self synapse timeout deserialize
    axons true false.

(** [metagraph] unless it is [None], then the default. *)
Definition metagraph_or_default (default_metagraph : apimeta.metagraph)
    (metagraph : option apimeta.metagraph) : apimeta.metagraph :=
  match metagraph with
  | None => default_metagraph
  | Some m => m
  end.

Fixpoint insert_sorted (x : Q) (l : list Q) : list Q :=
  match l with
  | [] => [x]
  | y :: rest => if Qle_bool x y then x :: l else y :: insert_sorted x rest
  end.

(** [np.quantile(a, p)] with its default linear interpolation, for a
    non-empty [a] and [p] in [[0, 1]]: used to run the helpers. *)
Definition quantile_linear (a : list Q) (p : Q) : Q :=
  let sorted := foldr insert_sorted [] a in
  let h := (inject_Z (len a - 1) * p)%Q in
  let i := Qfloor h in
  let lo := nth (Z.to_nat i) sorted 0%Q in
  let hi := nth (Z.to_nat (i + 1)) sorted lo in
  (lo + (h - inject_Z i) * (hi - lo))%Q.

(** A transport that is down: every call raises. *)
Definition dendrite_down (axons : list bt.AxonInfo) (synapse : positive)
    (deserialize : bool) (timeout : Q) : M Net (list response) :=
  raise (RuntimeError "connection refused").

Definition apimeta4 : apimeta.metagraph :=
  {| apimeta.base := metagraph4; apimeta.netuid := 1;
     apimeta.uids := [0; 1; 2; 3];
     apimeta.validator_trust := [(1 # 2); 0; (3 # 4); (1 # 10)]%Q |}.

Definition api0 : Api :=
  {| api_net := empty_net [0; 0; (1 # 20); (1 # 2)]%Q [(1 # 20); (1 # 2)]%Q;
     api_sampler := sampler0; api_log := [] |}.

(** ** neurons/miner.py *)

(** [try: body except ValueError: handler] *)
Definition try_except_ValueError {St A} (body : M St A) (handler : M St A)
    : M St A :=
  fun st =>
    match body st with
    | (Raise (ValueError _), st') => handler st'
    | r => r
    end.

(** [l.index(x)]: the first position of [x]. *)
Fixpoint list_index (l : list string) (x : string) : result Z :=
  match l with
  | [] => Raise (ValueError "x is not in list")
  | y :: rest =>
      if decide (y = x) then Ok 0
      else match list_index rest x with
           | Ok i => Ok (i + 1)
           | Raise e => Raise e
           end
  end.

(** [metagraph.hotkeys]: the hotkeys of the axons, by uid. *)
Definition hotkeys (metagraph : bt.metagraph) : list string :=
  bt.hotkey <$> bt.axons metagraph.

(** The records the miner hands to [bt.logging]. *)
Inductive miner_event :=
  | Warning_missing
  | Trace_unregistered (hotkey : string)
  | Warning_non_validator (hotkey : string)
  | Trace_allowing (hotkey : string)
  | Trace_priority (hotkey : string) (p : Q).

Module miner.

Record Blacklist := {
  allow_non_registered : bool;
  force_validator_permit : bool
}.

Record Miner := {
  metagraph : bt.metagraph;
  blacklist_config : Blacklist
}.

Definition log (e : miner_event) : M (list miner_event) unit :=
  fun st => (Ok tt, st ++ [e]).

(** The hotkey of the caller: [None] when [synapse.dendrite] is [None] or
    its [hotkey] is. *)
Definition caller (dendrite : option TerminalInfo) : option string :=
  match dendrite with
  | None => None
  | Some t => terminal.hotkey t
  end.

(** [Miner.forward]: the message is changed in place and returned. *)
Definition forward (synapse : positive) : M Net positive :=
  let! sy := read_synapse synapse in
  match dummy_input sy with
  | None => raise AttributeError
  | Some x => set_output synapse (x * 2) ;;; ret synapse
  end.

(** [Miner.blacklist], on the [dendrite] attribute of the request. *)
Definition blacklist (self : Miner) (dendrite : option TerminalInfo)
    : M (list miner_event) (bool * string) :=
  match caller dendrite with
  | None => log Warning_missing ;;; ret (true, "Missing dendrite or hotkey")
  | Some hotkey =>
      if negb (allow_non_registered (blacklist_config self))
         && negb (bool_decide (hotkey ∈ hotkeys (metagraph self)))
      then log (Trace_unregistered hotkey) ;;; ret (true, "Unrecognized hotkey")
      else
        let! rejected :=
          if force_validator_permit (blacklist_config self) then
            try_except_ValueError
              (let! uid := lift (list_index (hotkeys (metagraph self)) hotkey) in
               let! permit :=
                 lift (getitem (bt.validator_permit (metagraph self)) uid) in
               if negb permit
               then log (Warning_non_validator hotkey) ;;;
                    ret (Some (true, "Non-validator hotkey"))
               else ret None)
              (ret (Some (true, "Unrecognized hotkey")))
          else ret None in
        match rejected with
        | Some verdict => ret verdict
        | None => log (Trace_allowing hotkey) ;;; ret (false, "Hotkey recognized!")
        end
  end.

(** [Miner.priority] *)
Definition priority (self : Miner) (dendrite : option TerminalInfo)
    : M (list miner_event) Q :=
  match caller dendrite with
  | None => ret 0%Q
  | Some hotkey =>
      try_except_ValueError
        (let! uid := lift (list_index (hotkeys (metagraph self)) hotkey) in
         let! p := lift (getitem (bt.S (metagraph self)) uid) in
         log (Trace_priority hotkey p) ;;;
         ret p)
        (ret 0%Q)
  end.

End miner.

(** [i] is the first position of [x] in [l]. *)
Definition first_at (l : list string) (x : string) (i : nat) : Prop :=
  l !! i = Some x /\ forall j, (j < i)%nat -> l !! j <> Some x.

(** A request as a registered validator sends it. *)
Definition caller_of (hotkey : string) : option TerminalInfo :=
  Some {| status_code := None; status_message := None; process_time := None;
          ip := None; port := None; hotkey := Some hotkey |}.

Definition axon_of (hotkey : string) : bt.AxonInfo :=
  {| bt.is_serving := true; bt.ip := "127.0.0.0"; bt.port := 8091;
     bt.hotkey := hotkey |}.

Definition metagraph3 : bt.metagraph :=
  {| bt.n := 3;
     bt.axons := [axon_of "alice"; axon_of "bob"; axon_of "carol"];
     bt.validator_permit := [false; true; true];
     bt.S := [(10 # 1)%Q; (2000 # 1)%Q; (5000 # 1)%Q] |}.

Definition miner3 : miner.Miner :=
  {| miner.metagraph := metagraph3;
     miner.blacklist_config :=
       {| miner.allow_non_registered := false;
          miner.force_validator_permit := true |} |}.

(** ** tests/helpers.py *)

Module helpers.

(** [CLOSE_IN_VALUE], on integers. *)
Record CLOSE_IN_VALUE := {
  value : Z;
  tolerance : Z
}.

Definition __eq__ (self : CLOSE_IN_VALUE) (other : Z) : bool :=
  ((value self - tolerance self <=? other)
   && (other <=? value self + tolerance self))
  || ((other - tolerance self <=? value self)
      && (value self <=? other + tolerance self)).

End helpers.

(** * Properties *)

(** ** The effect monad *)

Lemma bind_ok {St A B} (c : M St A) (k : A -> M St B) st a st' :
  c st = (Ok a, st') -> bind c k st = k a st'.
Proof. intros H. unfold bind. by rewrite H. Qed.

Lemma bind_raise {St A B} (c : M St A) (k : A -> M St B) st e st' :
  c st = (Raise e, st') -> bind c k st = (Raise e, st').
Proof. intros H. unfold bind. by rewrite H. Qed.

(** ** The sampler *)

Example run_sample :
  get_random_uids metagraph4 config0 2 None sampler0
  = (Ok [2; 0], {| tape := [1; 4]%nat; reads := [0; 1; 2; 3] |}).
Proof. vm_compute. reflexivity. Qed.

Example run_setsize : setsize 5 = 21 /\ setsize 6 = 85 /\ setsize 22 = 277.
Proof. vm_compute. repeat split. Qed.

(** On 30 eligible peers [random.sample] takes its set form: the second
    draw hits the index selected first and is made again. *)
Example run_sample_set :
  get_random_uids metagraph30 config0 2 None {| tape := [5; 5; 7; 9]%nat; reads := [] |}
  = (Ok [5; 7], {| tape := [9]%nat; reads := range 30 |}).
Proof. vm_compute. reflexivity. Qed.

Example run_sample_set_counting :
  (random_sample (range 30) 3 {| tape := [4; 4]%nat; reads := [] |}).1
  = Ok [4; 5; 6].
Proof. vm_compute. reflexivity. Qed.

Lemma randbelow_spec n st :
  (0 < n)%nat ->
  exists j st', randbelow n st = (Ok j, st') /\ (j < n)%nat /\ reads st' = reads st.
Proof.
  intros Hn. unfold randbelow. destruct (tape st) as [|x [|y t]];
    (eexists _, _; split; [done|]; split; [|done];
     apply Nat.mod_upper_bound; lia).
Qed.

(** Moving the last non-selected item into the vacancy leaves the
    non-selected items a permutation of what they were, less the pick. *)
Lemma swap_last_perm {A} (pool : list A) (m j : nat) x y :
  (j < m)%nat -> pool !! j = Some x -> pool !! (m - 1)%nat = Some y ->
  x :: take (m - 1) (<[j := y]> pool) ≡ₚ take m pool.
Proof.
  intros Hj Hx Hy.
  replace m with (Datatypes.S (m - 1)) at 2 by lia.
  rewrite (take_S_r _ _ y) by done.
  destruct (decide (j = (m - 1)%nat)) as [->|Hne].
  - rewrite list_insert_id by done.
    assert (x = y) by congruence. subst.
    apply Permutation_cons_append.
  - rewrite take_insert_lt by lia.
    assert (Hl : take (m - 1) pool !! j = Some x).
    { rewrite lookup_take_lt by lia. done. }
    rewrite insert_take_drop by (apply lookup_lt_Some in Hl; done).
    rewrite <- (take_drop_middle _ _ _ Hl) at 3.
    set (a := take j (take (m - 1) pool)).
    set (b := drop (Datatypes.S j) (take (m - 1) pool)).
    rewrite <- !Permutation_middle, app_nil_r.
    apply perm_swap.
Qed.

Lemma sample_pool_spec {A} (k : nat) : forall (pool : list A) (m : nat) st,
  (k <= m)%nat -> (m <= length pool)%nat ->
  exists res st', sample_pool pool m k st = (Ok res, st')
    /\ reads st' = reads st /\ length res = k /\ res ⊆+ take m pool.
Proof.
  induction k as [|k IH]; intros pool m st Hk Hm.
  - exists [], st. simpl. repeat split; try done. apply submseteq_nil_l.
  - simpl. destruct (randbelow_spec m st) as (j & st1 & Hr & Hj & Hreads); [lia|].
    rewrite (bind_ok _ _ _ _ _ Hr).
    destruct (lookup_lt_is_Some_2 pool j) as [x Hx]; [lia|].
    destruct (lookup_lt_is_Some_2 pool (m - 1)) as [y Hy]; [lia|].
    rewrite Hx, Hy.
    destruct (IH (<[j:=y]> pool) (m - 1)%nat st1)
      as (rest & st2 & Hrun & Hreads2 & Hlen & Hsub);
      [lia | rewrite length_insert; lia |].
    rewrite (bind_ok _ _ _ _ _ Hrun).
    exists (x :: rest), st2. unfold ret.
    repeat split; [congruence | simpl; lia |].
    rewrite <- (swap_last_perm pool m j x y) by done.
    by apply submseteq_skip.
Qed.

(** *** The set form of [random.sample] *)

(** Some index below [n] is not selected while fewer than [n] are. *)
Lemma fresh_index_exists (n : nat) (selected : gset nat) :
  (size selected < n)%nat -> exists r, (r < n)%nat /\ r ∉ selected.
Proof.
  intros Hsize.
  destruct (decide (Exists (fun r => r ∉ selected) (seq 0 n))) as [Hex|Hall].
  - apply Exists_exists in Hex as (r & Hr & Hfresh).
    apply elem_of_seq in Hr. exists r. split; [lia|done].
  - exfalso. apply not_Exists_Forall in Hall; [|intros r; apply _].
    rewrite Forall_forall in Hall.
    assert (Hsub : (set_seq 0 n : gset nat) ⊆ selected).
    { intros r Hr. apply elem_of_set_seq in Hr.
      destruct (decide (r ∈ selected)) as [|Hout]; [done|].
      exfalso. apply (Hall r); [apply elem_of_seq; lia|]. simpl. done. }
    apply subseteq_size in Hsub. rewrite size_set_seq in Hsub. lia.
Qed.

Lemma counter_reaches (n c r : nat) :
  (r < n)%nat -> exists d, (d < n)%nat /\ ((c + d) mod n = r)%nat.
Proof.
  intros Hr. exists ((r + (n - c mod n)) mod n)%nat.
  assert (Hc : (c mod n < n)%nat) by (apply Nat.mod_upper_bound; lia).
  split; [apply Nat.mod_upper_bound; lia|].
  rewrite Nat.Div0.add_mod_idemp_r.
  rewrite <- Nat.Div0.add_mod_idemp_l.
  replace (c mod n + (r + (n - c mod n)))%nat with (r + 1 * n)%nat by lia.
  rewrite Nat.Div0.mod_add. apply Nat.mod_small. done.
Qed.

(** Once the generator counts, the loop meets the free index [r] after at
    most [d] more rounds. *)
Lemma randbelow_fresh_counting (n r : nat) (selected : gset nat) :
  (0 < n)%nat -> r ∉ selected ->
  forall d c fuel st,
    tape st = [c] -> ((c + d) mod n = r)%nat -> (d <= fuel)%nat ->
    exists j st',
      randbelow_fresh fuel n selected st = (Ok j, st')
      /\ (j < n)%nat /\ (j ∉ selected) /\ reads st' = reads st.
Proof.
  intros Hn Hr. induction d as [|d IH]; intros c fuel st Htape Hd Hfuel.
  - rewrite Nat.add_0_r in Hd.
    assert (Hrn : (r < n)%nat) by (rewrite <- Hd; apply Nat.mod_upper_bound; lia).
    destruct fuel; simpl; unfold bind, randbelow; rewrite Htape, Hd;
      rewrite decide_False by done;
      (eexists _, _; split; [reflexivity|]; split; [lia|done]).
  - assert (Hj : (c mod n < n)%nat) by (apply Nat.mod_upper_bound; lia).
    destruct fuel as [|fuel]; [lia|].
    simpl. unfold bind at 1, randbelow at 1. rewrite Htape.
    destruct (decide ((c mod n)%nat ∈ selected)) as [Hin|Hout].
    + destruct (IH (Datatypes.S c) fuel
                  {| tape := [Datatypes.S c]; reads := reads st |})
        as (j & st' & Hrun & Hjn & Hfresh & Hreads); [done| |lia|].
      { rewrite <- Hd. f_equal. lia. }
      exists j, st'. done.
    + eexists _, _. split; [reflexivity|]. done.
Qed.

(** The rejection loop of the set form ends on an index that is not
    selected, whatever the tape. *)
Lemma randbelow_fresh_spec (n : nat) (selected : gset nat) :
  (size selected < n)%nat ->
  forall t fuel st,
    tape st = t -> (length t + n <= fuel)%nat ->
    exists j st',
      randbelow_fresh fuel n selected st = (Ok j, st')
      /\ (j < n)%nat /\ (j ∉ selected) /\ reads st' = reads st.
Proof.
  intros Hsize.
  assert (Hn : (0 < n)%nat) by lia.
  destruct (fresh_index_exists n selected Hsize) as (r & Hrn & Hr).
  induction t as [|x t IH]; intros fuel st Htape Hfuel.
  - destruct fuel as [|fuel]; [simpl in Hfuel; lia|].
    simpl. unfold bind at 1, randbelow at 1. rewrite Htape.
    destruct (decide ((0 mod n)%nat ∈ selected)) as [Hin|Hout].
    + destruct (counter_reaches n 1 r Hrn) as (d & Hd & Hreach).
      destruct (randbelow_fresh_counting n r selected Hn Hr d 1%nat fuel
                  {| tape := [1%nat]; reads := reads st |})
        as (j & st' & Hrun & Hjn & Hfresh & Hreads);
        [done|done|simpl in Hfuel; lia|].
      exists j, st'. done.
    + eexists _, _. split; [reflexivity|].
      split; [apply Nat.mod_upper_bound; lia|done].
  - destruct t as [|y t].
    + destruct (counter_reaches n x r Hrn) as (d & Hd & Hreach).
      apply (randbelow_fresh_counting n r selected Hn Hr d x fuel st);
        [done|done|simpl in Hfuel; lia].
    + destruct fuel as [|fuel]; [simpl in Hfuel; lia|].
      simpl. unfold bind at 1, randbelow at 1. rewrite Htape.
      destruct (decide ((x mod n)%nat ∈ selected)) as [Hin|Hout].
      * destruct (IH fuel {| tape := y :: t; reads := reads st |})
          as (j & st' & Hrun & Hj & Hfresh & Hreads);
          [done|simpl in *; lia|].
        exists j, st'. done.
      * eexists _, _. split; [reflexivity|].
        split; [apply Nat.mod_upper_bound; lia|done].
Qed.

(** The items found at distinct positions of a list are a sub-multiset of
    it. *)
Lemma lookups_submseteq {A} (l : list A) (js : list nat) (res : list A) :
  NoDup js -> Forall2 (fun j x => l !! j = Some x) js res -> res ⊆+ l.
Proof.
  intros Hnd Hat.
  destruct res as [|x0 res0]; [apply submseteq_nil_l|].
  set (res := x0 :: res0) in *.
  assert (Hres : Some <$> res = (l !!.) <$> js).
  { clearbody res. clear x0 res0. induction Hat as [|j x js res Hx _ IH]; [done|].
    apply NoDup_cons in Hnd as [_ Hnd]. rewrite !fmap_cons, Hx.
    f_equal. by apply IH. }
  assert (Hjs : js ⊆+ seq 0 (length l)).
  { apply NoDup_submseteq; [done|]. intros j Hj.
    apply list_elem_of_lookup in Hj as [i Hi].
    destruct (Forall2_lookup_l _ _ _ _ _ Hat Hi) as (x & _ & Hx).
    apply lookup_lt_Some in Hx. apply elem_of_seq. lia. }
  assert (Hall : (l !!.) <$> seq 0 (length l) = Some <$> l).
  { apply list_eq. intros i. rewrite !list_lookup_fmap.
    destruct (decide (i < length l)%nat) as [Hi|Hi].
    - rewrite lookup_seq_lt by done. simpl.
      destruct (lookup_lt_is_Some_2 l i Hi) as [x Hx]. by rewrite Hx.
    - rewrite lookup_seq_ge by lia.
      rewrite lookup_ge_None_2 by lia. done. }
  apply (fmap_submseteq (l !!.)) in Hjs. rewrite <- Hres, Hall in Hjs.
  apply (fmap_submseteq (from_option id x0)) in Hjs.
  assert (Hback : forall k : list A, from_option id x0 <$> (Some <$> k) = k).
  { intros k. induction k as [|y k IHk]; [done|]. rewrite !fmap_cons. simpl.
    by rewrite IHk. }
  by rewrite !Hback in Hjs.
Qed.

Lemma sample_set_spec {A} (population : list A) (k : nat) :
  forall (selected : gset nat) st,
    (size selected + k <= length population)%nat ->
    exists js res st',
      sample_set population (length population) selected k st = (Ok res, st')
      /\ reads st' = reads st /\ length res = k
      /\ NoDup js /\ (forall j, j ∈ js -> (j ∉ selected))
      /\ Forall2 (fun j x => population !! j = Some x) js res.
Proof.
  induction k as [|k IH]; intros selected st Hk.
  - exists [], [], st. simpl. unfold ret. repeat split; try done.
    + constructor.
    + intros j Hj. by apply elem_of_nil in Hj.
  - destruct (randbelow_fresh_spec (length population) selected ltac:(lia)
                (tape st) (length (tape st) + length population)%nat st eq_refl
                ltac:(lia))
      as (j & st1 & Hdraw & Hj & Hfresh & Hreads1).
    destruct (lookup_lt_is_Some_2 population j Hj) as [x Hx].
    destruct (IH ({[j]} ∪ selected) st1) as (js & rest & st2 & Hrun & Hreads2
                                             & Hlen & Hnd & Hout & Hat).
    { rewrite size_union by set_solver. rewrite size_singleton. lia. }
    exists (j :: js), (x :: rest), st2. cbn [sample_set].
    erewrite bind_ok by exact Hdraw. rewrite Hx.
    erewrite bind_ok by exact Hrun. unfold ret.
    split; [done|]. split; [congruence|]. split; [simpl; lia|].
    split; [|split].
    + apply NoDup_cons. split; [|done]. intros Hin. apply (Hout j Hin). set_solver.
    + intros j' Hj'. apply elem_of_cons in Hj' as [->|Hj']; [done|].
      specialize (Hout j' Hj'). set_solver.
    + by constructor.
Qed.

(** [random.sample] returns [k] items of the population, taken at distinct
    positions, whenever [0 <= k <= len(population)]... *)
Lemma random_sample_ok {A} (population : list A) (k : Z) st :
  0 <= k <= len population ->
  exists res st', random_sample population k st = (Ok res, st')
    /\ reads st' = reads st /\ len res = k /\ res ⊆+ population.
Proof.
  intros Hk. unfold random_sample.
  replace ((0 <=? k) && (k <=? len population)) with true
    by (symmetry; apply andb_true_iff; split; apply Z.leb_le; lia).
  simpl. unfold len in *.
  destruct (Z.of_nat (length population) <=? setsize k).
  - destruct (sample_pool_spec (Z.to_nat k) population (length population) st)
      as (res & st' & Hrun & Hreads & Hlen & Hsub); [lia | lia |].
    exists res, st'. rewrite firstn_all in Hsub.
    repeat split; try done. lia.
  - destruct (sample_set_spec population (Z.to_nat k) ∅ st)
      as (js & res & st' & Hrun & Hreads & Hlen & Hnd & _ & Hat).
    { rewrite size_empty. lia. }
    exists res, st'. split; [done|]. split; [done|]. split; [lia|].
    by eapply lookups_submseteq.
Qed.

(** ... and raises [ValueError] otherwise, drawing nothing. *)
Lemma random_sample_raise {A} (population : list A) (k : Z) st :
  k < 0 \/ len population < k ->
  random_sample population k st
  = (Raise (ValueError "Sample larger than population or is negative"), st).
Proof.
  intros Hk. unfold random_sample.
  replace ((0 <=? k) && (k <=? len population)) with false; [done|].
  symmetry. apply andb_false_iff.
  destruct Hk; [left; apply Z.leb_gt | right; apply Z.leb_gt]; lia.
Qed.

Lemma getitem_ok {A} (l : list A) (i : Z) :
  0 <= i < len l -> exists x, getitem l i = Ok x.
Proof.
  intros Hi. unfold getitem, len in *.
  replace (i <? 0) with false by (symmetry; apply Z.ltb_ge; lia).
  replace (i <? 0) with false by (symmetry; apply Z.ltb_ge; lia).
  destruct (lookup_lt_is_Some_2 l (Z.to_nat i)) as [x Hx]; [lia|].
  rewrite Hx. eauto.
Qed.

Lemma check_uid_availability_ok metagraph limit uid :
  wf_metagraph metagraph -> 0 <= uid < bt.n metagraph ->
  check_uid_availability metagraph uid limit = Ok (available metagraph limit uid).
Proof.
  intros (Ha & Hp & Hs) Hu. unfold available, check_uid_availability.
  destruct (getitem_ok (bt.axons metagraph) uid) as [a ->]; [lia|].
  destruct (getitem_ok (bt.validator_permit metagraph) uid) as [p ->]; [lia|].
  destruct (getitem_ok (bt.S metagraph) uid) as [s ->]; [lia|].
  destruct (negb (bt.is_serving a)); [done|].
  destruct p; [|done].
  by destruct (negb (Qle_bool s (inject_Z limit))).
Qed.

Lemma available_true metagraph limit uid :
  available metagraph limit uid = true <->
  check_uid_availability metagraph uid limit = Ok true.
Proof.
  unfold available. destruct (check_uid_availability metagraph uid limit) as [b|e].
  - split; congruence.
  - split; [done | congruence].
Qed.

Lemma scan_uids_spec metagraph limit (exclude_set : gset Z) :
  wf_metagraph metagraph ->
  forall uids acc st,
    (forall uid, uid ∈ uids -> 0 <= uid < bt.n metagraph) ->
    scan_uids metagraph limit exclude_set uids acc st
    = (Ok (acc.1 ++ filter (fun uid => available metagraph limit uid = true) uids,
           acc.2 ++ filter (fun uid => uid ∉ exclude_set)
                      (filter (fun uid => available metagraph limit uid = true) uids)),
       {| tape := tape st; reads := reads st ++ uids |}).
Proof.
  intros Hwf. induction uids as [|uid rest IH]; intros [av ca] st Hin.
  - simpl. unfold ret. rewrite !app_nil_r. by destruct st.
  - simpl scan_uids. unfold bind at 1. simpl.
    unfold bind at 1, lift.
    rewrite check_uid_availability_ok by (try done; apply Hin; left).
    rewrite filter_cons.
    assert (Hrest : forall u, u ∈ rest -> 0 <= u < bt.n metagraph).
    { intros u Hu. apply Hin. by right. }
    destruct (available metagraph limit uid) eqn:Hav.
    + rewrite (decide_True (P := true = true)) by done.
      rewrite IH by done. simpl. rewrite filter_cons.
      destruct (decide (uid ∈ exclude_set)) as [Hex|Hex].
      * rewrite decide_False by (intros Hn; by apply Hn).
        by rewrite <- !app_assoc.
      * rewrite decide_True by done. by rewrite <- !app_assoc.
    + rewrite (decide_False (P := false = true)) by done.
      rewrite IH by done. simpl. by rewrite <- !app_assoc.
Qed.

Lemma submseteq_NoDup_inv {A} (l k : list A) : l ⊆+ k -> NoDup k -> NoDup l.
Proof.
  intros Hsub Hk. destruct (submseteq_Permutation l k Hsub) as [r Hr].
  rewrite Hr in Hk. by apply NoDup_app in Hk as (? & _ & _).
Qed.

Lemma len_app {A} (l k : list A) : len (l ++ k) = len l + len k.
Proof. unfold len. rewrite length_app. lia. Qed.

Lemma NoDup_eligible metagraph limit : NoDup (eligible metagraph limit).
Proof. unfold eligible, range. apply NoDup_filter, NoDup_seqZ. Qed.

Lemma elem_of_eligible metagraph limit uid :
  wf_metagraph metagraph ->
  uid ∈ eligible metagraph limit <->
  0 <= uid < bt.n metagraph /\ check_uid_availability metagraph uid limit = Ok true.
Proof.
  intros Hwf. unfold eligible, range.
  rewrite list_elem_of_filter, elem_of_seqZ, available_true. intuition lia.
Qed.

(** Eligible peers split into the candidates and the excluded ones. *)
Lemma len_eligible_split metagraph limit exclude :
  len (candidates metagraph limit exclude)
  + len (excluded_eligible metagraph limit exclude)
  = len (eligible metagraph limit).
Proof.
  unfold candidates, excluded_eligible.
  rewrite <- len_app. unfold len. f_equal.
  rewrite (comm (++)).
  apply Permutation_length.
  apply (filter_app_complement (fun uid => uid ∈ exclude)).
Qed.

Lemma NoDup_pool metagraph limit exclude extra :
  extra ⊆+ excluded_eligible metagraph limit exclude ->
  NoDup (candidates metagraph limit exclude ++ extra).
Proof.
  intros Hsub. apply NoDup_app. split; [|split].
  - apply NoDup_filter, NoDup_eligible.
  - intros uid Hc He. apply (elem_of_submseteq _ _ _ He) in Hsub.
    unfold candidates, excluded_eligible in *.
    apply list_elem_of_filter in Hc as [Hc _].
    apply list_elem_of_filter in Hsub as [Hsub _]. done.
  - eapply submseteq_NoDup_inv; [done|]. apply NoDup_filter, NoDup_eligible.
Qed.

Lemma pool_eligible metagraph limit exclude extra uid :
  extra ⊆+ excluded_eligible metagraph limit exclude ->
  uid ∈ candidates metagraph limit exclude ++ extra ->
  uid ∈ eligible metagraph limit.
Proof.
  intros Hsub [Hc|He]%elem_of_app.
  - by apply list_elem_of_filter in Hc as [_ ?].
  - apply (elem_of_submseteq _ _ _ He) in Hsub.
    by apply list_elem_of_filter in Hsub as [_ ?].
Qed.

(** What [get_random_uids] returns for a non-negative [k]: a selection, at
    distinct positions, from the candidates extended by [extra], itself a
    selection from the excluded eligible peers of the size of the shortfall. *)
Lemma get_random_uids_spec metagraph config k exclude st :
  wf_metagraph metagraph -> 0 <= k ->
  let limit := neuron.vpermit_tao_limit config in
  let excl := match exclude with None => [] | Some l => l end in
  let k' := Z.min k (len (eligible metagraph limit)) in
  exists uids extra st',
    get_random_uids metagraph config k exclude st = (Ok uids, st')
    /\ reads st' = reads st ++ range (bt.n metagraph)
    /\ len uids = k'
    /\ uids ⊆+ candidates metagraph limit excl ++ extra
    /\ extra ⊆+ excluded_eligible metagraph limit excl
    /\ len extra = Z.max 0 (k' - len (candidates metagraph limit excl)).
Proof.
  intros Hwf Hk limit excl k'. unfold get_random_uids. fold excl. fold limit.
  erewrite bind_ok; last first.
  { apply scan_uids_spec; [done|]. intros uid Hu.
    unfold range in Hu. apply elem_of_seqZ in Hu. lia. }
  cbn [fst snd app].
  change (filter _ (range (bt.n metagraph))) with (eligible metagraph limit).
  assert (Hcand : filter (fun uid => uid ∉ (list_to_set excl : gset Z))
                    (eligible metagraph limit) = candidates metagraph limit excl).
  { apply list_filter_iff. intros uid. by rewrite elem_of_list_to_set. }
  rewrite Hcand. fold k'.
  pose proof (len_eligible_split metagraph limit excl) as Hsplit.
  assert (Hk' : 0 <= k' <= len (eligible metagraph limit)).
  { unfold k', len. lia. }
  destruct (k' =? 0) eqn:Hz.
  { apply Z.eqb_eq in Hz. exists [], [], (Build_Sampler (tape st) (reads st ++ range (bt.n metagraph))).
    unfold ret. rewrite Hz. repeat split; try done.
    - apply submseteq_nil_l.
    - apply submseteq_nil_l.
    - unfold len at 1. simpl. unfold len. lia. }
  apply Z.eqb_neq in Hz.
  unfold backfill.
  assert (Hexcl : filter (fun uid => uid ∈ (list_to_set excl : gset Z))
                    (eligible metagraph limit) = excluded_eligible metagraph limit excl).
  { apply list_filter_iff. intros uid. by rewrite elem_of_list_to_set. }
  rewrite Hexcl.
  destruct (len (candidates metagraph limit excl) <? k') eqn:Hshort.
  - apply Z.ltb_lt in Hshort.
    destruct (excluded_eligible metagraph limit excl) as [|e0 er] eqn:Hee.
    { unfold len in Hsplit at 2. simpl in Hsplit. lia. }
    rewrite <- Hee in *.
    set (st1 := Build_Sampler (tape st) (reads st ++ range (bt.n metagraph))).
    destruct (random_sample_ok (excluded_eligible metagraph limit excl)
                (Z.min (k' - len (candidates metagraph limit excl))
                   (len (excluded_eligible metagraph limit excl))) st1)
      as (extra & st2 & Hrun & Hreads & Hlen & Hsub); [lia|].
    unfold bind at 1. erewrite bind_ok by apply Hrun. unfold ret.
    unfold draw_from_pool.
    assert (Hpool : len (candidates metagraph limit excl ++ extra) = k').
    { rewrite len_app. lia. }
    replace (len (candidates metagraph limit excl ++ extra) <? k') with false
      by (symmetry; apply Z.ltb_ge; lia).
    destruct (random_sample_ok (candidates metagraph limit excl ++ extra) k' st2)
      as (uids & st3 & Hrun3 & Hreads3 & Hlen3 & Hsub3); [lia|].
    exists uids, extra, st3. repeat split; try done.
    + rewrite Hreads3, Hreads. done.
    + lia.
  - pose proof Hshort as Hb. apply Z.ltb_ge in Hshort.
    unfold bind at 1, ret. unfold draw_from_pool. rewrite Hb.
    set (st1 := Build_Sampler (tape st) (reads st ++ range (bt.n metagraph))).
    destruct (random_sample_ok (candidates metagraph limit excl) k' st1)
      as (uids & st3 & Hrun3 & Hreads3 & Hlen3 & Hsub3); [lia|].
    exists uids, [], st3. rewrite app_nil_r. repeat split; try done.
    + apply submseteq_nil_l.
    + unfold len at 1. simpl. lia.
Qed.

(** C1: for a well-formed registry and [k >= 0], sampling with no exclusion
    returns [min(k, number of eligible peers)] identifiers, pairwise distinct,
    each satisfying [check_uid_availability]. *)
Theorem get_random_uids_no_exclusion metagraph config k st :
  wf_metagraph metagraph -> 0 <= k ->
  exists uids st',
    get_random_uids metagraph config k None st = (Ok uids, st')
    /\ len uids = Z.min k (len (eligible metagraph (neuron.vpermit_tao_limit config)))
    /\ NoDup uids
    /\ (forall uid, uid ∈ uids ->
          check_uid_availability metagraph uid (neuron.vpermit_tao_limit config) = Ok true).
Proof.
  intros Hwf Hk.
  destruct (get_random_uids_spec metagraph config k None st Hwf Hk)
    as (uids & extra & st' & Hrun & _ & Hlen & Hsub & Hextra & _).
  exists uids, st'. split; [done|]. split; [done|]. split.
  - eapply submseteq_NoDup_inv; [done|]. by apply NoDup_pool.
  - intros uid Hu. apply (elem_of_submseteq _ _ _ Hu) in Hsub.
    apply pool_eligible in Hsub; [|done].
    by apply elem_of_eligible in Hsub as [_ ?].
Qed.

Lemma wf_metagraph4 : wf_metagraph metagraph4.
Proof. repeat split. Qed.

Lemma get_random_uids_no_exclusion_witness :
  exists uids st',
    get_random_uids metagraph4 config0 2 None sampler0 = (Ok uids, st')
    /\ len uids = Z.min 2 (len (eligible metagraph4 (neuron.vpermit_tao_limit config0)))
    /\ NoDup uids
    /\ (forall uid, uid ∈ uids ->
          check_uid_availability metagraph4 uid (neuron.vpermit_tao_limit config0) = Ok true).
Proof.
  apply (get_random_uids_no_exclusion metagraph4 config0 2 sampler0).
  - repeat split.
  - lia.
Defined.

(** C4: when [k] exceeds the number of candidates but not the number of
    eligible peers, the sample has exactly [k] identifiers, all eligible and
    pairwise distinct: it consists of every candidate and of [extra], drawn at
    distinct positions from the excluded eligible peers, exactly as many as
    the shortfall.  The last clamp brings [k] down to the pool size whenever
    the pool is shorter than [k]. *)
Theorem get_random_uids_backfill metagraph config k exclude st :
  wf_metagraph metagraph ->
  len (candidates metagraph (neuron.vpermit_tao_limit config) exclude) < k ->
  k <= len (eligible metagraph (neuron.vpermit_tao_limit config)) ->
  (exists uids extra st',
    get_random_uids metagraph config k (Some exclude) st = (Ok uids, st')
    /\ len uids = k
    /\ (forall uid, uid ∈ uids ->
          check_uid_availability metagraph uid (neuron.vpermit_tao_limit config) = Ok true)
    /\ NoDup uids
    /\ uids ≡ₚ candidates metagraph (neuron.vpermit_tao_limit config) exclude ++ extra
    /\ extra ⊆+ excluded_eligible metagraph (neuron.vpermit_tao_limit config) exclude
    /\ len extra = k - len (candidates metagraph (neuron.vpermit_tao_limit config) exclude))
  /\ (forall pool k0 st0, len pool < k0 ->
        exists uids st',
          draw_from_pool pool k0 st0 = (Ok uids, st') /\ len uids = len pool).
Proof.
  intros Hwf Hlo Hhi. split.
  - assert (Hk : 0 <= k) by (unfold len in Hlo; lia).
    destruct (get_random_uids_spec metagraph config k (Some exclude) st Hwf Hk)
      as (uids & extra & st' & Hrun & _ & Hlen & Hsub & Hextra & Hn).
    cbn zeta in *.
    rewrite Z.min_l in * by done.
    rewrite Z.max_r in Hn by lia.
    assert (Hperm : uids ≡ₚ candidates metagraph (neuron.vpermit_tao_limit config) exclude
                             ++ extra).
    { apply submseteq_length_Permutation; [done|].
      apply Nat2Z.inj_le. fold (len uids).
      fold (len (candidates metagraph (neuron.vpermit_tao_limit config) exclude ++ extra)).
      rewrite len_app. lia. }
    exists uids, extra, st'. repeat split; try done.
    + intros uid Hu. apply (elem_of_submseteq _ _ _ Hu) in Hsub.
      apply pool_eligible in Hsub; [|done].
      by apply elem_of_eligible in Hsub as [_ ?].
    + eapply submseteq_NoDup_inv; [done|]. by apply NoDup_pool.
  - intros pool k0 st0 Hshort. unfold draw_from_pool.
    replace (len pool <? k0) with true by (symmetry; apply Z.ltb_lt; lia).
    destruct (random_sample_ok pool (len pool) st0)
      as (uids & st' & Hrun & _ & Hlen & _); [unfold len; lia|].
    eauto.
Qed.

Lemma get_random_uids_backfill_witness :
  (exists uids extra st',
    get_random_uids metagraph4 config0 2 (Some [0; 3]) sampler0 = (Ok uids, st')
    /\ len uids = 2
    /\ (forall uid, uid ∈ uids ->
          check_uid_availability metagraph4 uid (neuron.vpermit_tao_limit config0)
          = Ok true)
    /\ NoDup uids
    /\ uids ≡ₚ candidates metagraph4 (neuron.vpermit_tao_limit config0) [0; 3]
               ++ extra
    /\ extra ⊆+ excluded_eligible metagraph4 (neuron.vpermit_tao_limit config0) [0; 3]
    /\ len extra
       = 2 - len (candidates metagraph4 (neuron.vpermit_tao_limit config0) [0; 3]))
  /\ (exists uids st',
        draw_from_pool [5; 6] 3 sampler0 = (Ok uids, st') /\ len uids = len [5; 6]).
Proof.
  destruct (get_random_uids_backfill metagraph4 config0 2 [0; 3] sampler0)
    as [Hsample Hclamp].
  - repeat split.
  - vm_compute. reflexivity.
  - vm_compute. discriminate.
  - split; [exact Hsample|]. apply Hclamp. vm_compute. reflexivity.
Defined.

Example run_backfill :
  get_random_uids metagraph4 config0 2 (Some [0; 3]) sampler0
  = (Ok [0; 2], {| tape := [4]%nat; reads := [0; 1; 2; 3] |}).
Proof. vm_compute. reflexivity. Qed.

(** C5, as the code has it: on a well-formed registry [get_random_uids] fails
    exactly when [k] is negative; the failure is the [ValueError] of the final
    [random.sample], raised once the whole registry has been scanned and
    before any draw. *)
Theorem get_random_uids_fails_iff_negative metagraph config k exclude st :
  wf_metagraph metagraph ->
  (is_ok (get_random_uids metagraph config k exclude st).1 = false <-> k < 0)
  /\ (k < 0 ->
      get_random_uids metagraph config k exclude st
      = (Raise (ValueError "Sample larger than population or is negative"),
         {| tape := tape st; reads := reads st ++ range (bt.n metagraph) |})).
Proof.
  intros Hwf.
  assert (Hneg : k < 0 ->
      get_random_uids metagraph config k exclude st
      = (Raise (ValueError "Sample larger than population or is negative"),
         {| tape := tape st; reads := reads st ++ range (bt.n metagraph) |})).
  { intros Hk. unfold get_random_uids.
    erewrite bind_ok; last first.
    { apply scan_uids_spec; [done|]. intros uid Hu.
      unfold range in Hu. apply elem_of_seqZ in Hu. lia. }
    cbn [fst snd app].
    match goal with |- context [Z.min k (len ?l)] =>
      pose proof (Nat2Z.is_nonneg (length l)) as Hl; fold (len l) in Hl;
      rewrite (Z.min_l k (len l)) by lia end.
    replace (k =? 0) with false by (symmetry; apply Z.eqb_neq; lia).
    unfold backfill.
    match goal with |- context [len ?l <? k] =>
      replace (len l <? k) with false
        by (symmetry; apply Z.ltb_ge; unfold len; lia) end.
    unfold bind, ret, draw_from_pool.
    match goal with |- context [len ?l <? k] =>
      replace (len l <? k) with false
        by (symmetry; apply Z.ltb_ge; unfold len; lia) end.
    apply random_sample_raise. by left. }
  split; [|done]. split.
  - intros Hfail. destruct (decide (k < 0)) as [|Hk]; [done|].
    destruct (get_random_uids_spec metagraph config k exclude st Hwf)
      as (uids & extra & st' & Hrun & _); [lia|].
    rewrite Hrun in Hfail. done.
  - intros Hk. by rewrite Hneg.
Qed.

Lemma get_random_uids_fails_iff_negative_witness :
  (is_ok (get_random_uids metagraph4 config0 (-1) None sampler0).1 = false <-> -1 < 0)
  /\ (-1 < 0 ->
      get_random_uids metagraph4 config0 (-1) None sampler0
      = (Raise (ValueError "Sample larger than population or is negative"),
         {| tape := tape sampler0;
            reads := reads sampler0 ++ range (bt.n metagraph4) |})).
Proof.
  apply (get_random_uids_fails_iff_negative metagraph4 config0 (-1) None sampler0).
  repeat split.
Defined.

(** C5, as stated, fails: a negative [k] is rejected only after the scan. On
    the four-peer registry, [k = -1] raises with all four entries read. *)
Lemma negative_k_rejected_after_scan :
  -1 < 0
  /\ ~ rejects_before_scan metagraph4 config0 (-1) None sampler0
  /\ get_random_uids metagraph4 config0 (-1) None sampler0
     = (Raise (ValueError "Sample larger than population or is negative"),
        {| tape := [7; 3; 1; 4]%nat; reads := [0; 1; 2; 3] |}).
Proof.
  split; [lia|]. split.
  - intros [e He]. vm_compute in He. discriminate.
  - vm_compute. reflexivity.
Qed.

(** ** The simulated transport *)

Example run_forward :
  (forward dendrite_preprocess dummy_deserialize mock01 1%positive (1 # 10)%Q true
     [axon_up; axon_up] true false
     (net0 [0; 0; (1 # 20); (1 # 2)]%Q [(1 # 2); (1 # 50)]%Q)).1
  = Ok [RValue (Some 42); RValue (Some 84)].
Proof. vm_compute. reflexivity. Qed.

Lemma set_output_run s v w sy :
  synapses w !! s = Some sy -> is_Some (dummy_input sy) ->
  set_output s v w = (Ok tt, store_synapse s (set_dummy_output v sy) w).
Proof.
  intros H [x Hx]. unfold set_output, bind, read_synapse. by rewrite H, Hx.
Qed.

Lemma set_output_refused s v w sy :
  synapses w !! s = Some sy -> dummy_input sy = None ->
  set_output s v w
  = (Raise (ValueError "Synapse object has no field dummy_output"), w).
Proof.
  intros H Hx. unfold set_output, bind, read_synapse. by rewrite H, Hx.
Qed.

Lemma set_dendrite_run s upd w sy ti :
  synapses w !! s = Some sy -> terminals w !! dendrite sy = Some ti ->
  set_dendrite s upd w = (Ok tt, store_terminal (dendrite sy) (upd ti) w).
Proof.
  intros H1 H2. unfold set_dendrite, bind, read_synapse, read_terminal.
  by rewrite H1, H2.
Qed.

(** The three writes through [s.dendrite] leave the message alone and amount
    to one update of the [dendrite] object. *)
Lemma set_status_run s code msg actual w sy ti :
  synapses w !! s = Some sy -> terminals w !! dendrite sy = Some ti ->
  (set_dendrite s (set_status_code code) ;;;
   set_dendrite s (set_status_message msg) ;;;
   set_dendrite s (set_process_time actual)) w
  = (Ok tt,
     store_terminal (dendrite sy)
       (set_process_time actual (set_status_message msg (set_status_code code ti))) w).
Proof.
  intros H1 H2.
  erewrite bind_ok by (by apply set_dendrite_run).
  erewrite bind_ok; last first.
  { apply set_dendrite_run; [done|]. simpl. apply lookup_insert_eq. }
  erewrite set_dendrite_run; [|done|simpl; apply lookup_insert_eq].
  unfold store_terminal. simpl. by rewrite !insert_insert_eq.
Qed.

(** What resuming a unit does to the store, given its message [sy] and the
    [dendrite] object [ti] of that message: one update of each, unless the
    unit is late and the message has no [dummy_output] to assign. *)
Lemma resume_run deser timeout deserialize t w sy ti :
  synapses w !! task_s t = Some sy ->
  terminals w !! dendrite sy = Some ti ->
  (Qle_bool timeout (hd 0%Q (clock w) - task_start_time t)%Q = true ->
   is_Some (dummy_input sy)) ->
  let actual := (hd 0%Q (clock w) - task_start_time t)%Q in
  let late := Qle_bool timeout actual in
  let sy' :=
    if late
    then set_dummy_output (match dummy_input sy with Some x => x | None => 0 end) sy
    else match dummy_input sy with
         | Some x => set_dummy_output (x * 2) sy
         | None => sy
         end in
  let ti' :=
    set_process_time actual
      (set_status_message (if late then "Timeout" else "OK")
         (set_status_code (if late then 408 else 200) ti)) in
  exists w',
    single_axon_response_resume deser timeout deserialize t w
    = (Ok (if deserialize then deser (task_s t) sy' else RSynapse (task_s t)), w')
    /\ synapses w' = <[task_s t := sy']> (synapses w)
    /\ terminals w' = <[dendrite sy := ti']> (terminals w)
    /\ clock w' = tl (clock w)
    /\ draws w' = draws w.
Proof.
  intros Hsy Hti Hfield actual late sy' ti'.
  unfold single_axon_response_resume.
  unfold bind at 1. unfold time_time at 1. cbv zeta.
  fold actual. fold late.
  set (w1 := {| synapses := synapses w; terminals := terminals w;
                clock := tl (clock w); draws := draws w |}).
  assert (Hsy1 : synapses w1 !! task_s t = Some sy) by done.
  assert (Hti1 : terminals w1 !! dendrite sy = Some ti) by done.
  assert (Hfin : forall w2,
    synapses w2 !! task_s t = Some sy' ->
    (if deserialize
     then let! sy0 := read_synapse (task_s t) in ret (deser (task_s t) sy0)
     else ret (RSynapse (task_s t))) w2
    = (Ok (if deserialize then deser (task_s t) sy' else RSynapse (task_s t)), w2)).
  { intros w2 H2. destruct deserialize; [|done].
    unfold bind, read_synapse, ret. by rewrite H2. }
  assert (Hd : dendrite sy' = dendrite sy).
  { unfold sy'. destruct late; [done|]. by destruct (dummy_input sy). }
  destruct late eqn:Hlate.
  - erewrite bind_ok; last first.
    { erewrite bind_ok; last first.
      { unfold bind at 1, read_synapse at 1. rewrite Hsy1.
        apply set_output_run; [done|]. by apply Hfield. }
      apply (set_status_run _ _ _ _ _ sy'); [apply lookup_insert_eq|].
      rewrite Hd. done. }
    rewrite Hfin by (simpl; apply lookup_insert_eq).
    eexists. split; [done|]. rewrite Hd. done.
  - erewrite bind_ok; last first.
    { erewrite bind_ok; last first.
      { unfold bind at 1, read_synapse at 1. rewrite Hsy1.
        instantiate (1 := store_synapse (task_s t) sy' w1).
        instantiate (1 := tt).
        unfold sy'. destruct (dummy_input sy) as [x|] eqn:Hx.
        - apply set_output_run; [done|]. by rewrite Hx.
        - unfold ret, store_synapse. simpl.
          rewrite insert_id by done. done. }
      apply (set_status_run _ _ _ _ _ sy'); [apply lookup_insert_eq|].
      rewrite Hd. done. }
    rewrite Hfin by (simpl; apply lookup_insert_eq).
    eexists. split; [done|]. rewrite Hd. done.
Qed.

(** A late unit whose message is of the base class fails at the assignment
    of [dummy_output]: nothing is written, the reading of the clock apart. *)
Lemma resume_refused deser timeout deserialize t w sy :
  synapses w !! task_s t = Some sy ->
  dummy_input sy = None ->
  Qle_bool timeout (hd 0%Q (clock w) - task_start_time t)%Q = true ->
  single_axon_response_resume deser timeout deserialize t w
  = (Raise (ValueError "Synapse object has no field dummy_output"),
     {| synapses := synapses w; terminals := terminals w;
        clock := tl (clock w); draws := draws w |}).
Proof.
  intros Hsy Hx Hlate.
  unfold single_axon_response_resume.
  unfold bind at 1. unfold time_time at 1. cbv zeta. rewrite Hlate.
  erewrite bind_raise; [reflexivity|].
  erewrite bind_raise; [reflexivity|].
  unfold bind at 1, read_synapse at 1. simpl. rewrite Hsy.
  by apply (set_output_refused _ _ _ sy).
Qed.

Example run_begin :
  single_axon_response_begin dendrite_preprocess mock01 1%positive (1 # 10)%Q
    0%nat axon_up (net0 [0; (1 # 2)]%Q [(1 # 2)]%Q)
  = (Ok {| task_index := 0; task_s := 2%positive; task_start_time := 0%Q;
           task_process_time := (0 + (1 - 0) * (1 # 2))%Q |},
     net1 [(1 # 2)%Q] []).
Proof. vm_compute. reflexivity. Qed.

(** C2: resuming a unit whose message carries a [dummy_input] classifies it
    by the measured elapsed time: at or beyond the timeout, status 408
    "Timeout"; below it, status 200 "OK" and output [2 * dummy_input].  An
    elapsed time equal to the timeout is a timeout. *)
Theorem single_axon_response_classifies deser timeout deserialize t w sy ti x :
  synapses w !! task_s t = Some sy ->
  terminals w !! dendrite sy = Some ti ->
  dummy_input sy = Some x ->
  exists r w' sy' ti',
    single_axon_response_resume deser timeout deserialize t w = (Ok r, w')
    /\ synapses w' !! task_s t = Some sy'
    /\ terminals w' !! dendrite sy' = Some ti'
    /\ ((timeout <= hd 0 (clock w) - task_start_time t)%Q ->
          status_code ti' = Some 408 /\ status_message ti' = Some "Timeout")
    /\ (~ (timeout <= hd 0 (clock w) - task_start_time t)%Q ->
          status_code ti' = Some 200 /\ status_message ti' = Some "OK"
          /\ dummy_output sy' = Some (2 * x))
    /\ ((hd 0 (clock w) - task_start_time t == timeout)%Q ->
          status_code ti' = Some 408 /\ status_message ti' = Some "Timeout").
Proof.
  intros Hsy Hti Hx.
  destruct (resume_run deser timeout deserialize t w sy ti Hsy Hti)
    as (w' & Hrun & Hs & Ht & _); [by rewrite Hx|].
  cbv zeta in *. rewrite Hx in *.
  set (late := Qle_bool timeout (hd 0%Q (clock w) - task_start_time t)) in *.
  assert (Hlate : late = true <-> (timeout <= hd 0 (clock w) - task_start_time t)%Q)
    by apply Qle_bool_iff.
  eexists _, w', _, _. split; [exact Hrun|].
  split; [rewrite Hs; apply lookup_insert_eq|].
  assert (Hd : forall b : bool,
    dendrite (if b then set_dummy_output x sy else set_dummy_output (x * 2) sy)
    = dendrite sy) by (by intros []).
  rewrite Hd, Ht. split; [apply lookup_insert_eq|].
  split; [|split].
  - intros Hle. apply Hlate in Hle. by rewrite Hle.
  - intros Hnle. destruct late eqn:Hl.
    + exfalso. apply Hnle, Hlate. done.
    + simpl. repeat split. f_equal. lia.
  - intros Heq. assert (late = true) as ->; [|done].
    apply Hlate. rewrite Heq. apply Qle_refl.
Qed.

Lemma single_axon_response_classifies_witness :
  (exists r w' sy' ti',
     single_axon_response_resume dummy_deserialize (1 # 10)%Q true task1
       (net1 [(1 # 10)%Q] []) = (Ok r, w')
     /\ synapses w' !! task_s task1 = Some sy'
     /\ terminals w' !! dendrite sy' = Some ti'
     /\ status_code ti' = Some 408 /\ status_message ti' = Some "Timeout")
  /\ (exists r w' sy' ti',
        single_axon_response_resume dummy_deserialize (1 # 10)%Q true task1
          (net1 [(1 # 20)%Q] []) = (Ok r, w')
        /\ synapses w' !! task_s task1 = Some sy'
        /\ terminals w' !! dendrite sy' = Some ti'
        /\ status_code ti' = Some 200 /\ status_message ti' = Some "OK"
        /\ dummy_output sy' = Some 84).
Proof.
  split.
  - destruct (single_axon_response_classifies dummy_deserialize (1 # 10)%Q true
                task1 (net1 [(1 # 10)%Q] []) dummy42_sent terminal.blank 42)
      as (r & w' & sy' & ti' & Hrun & Hs & Ht & _ & _ & Hboundary).
    + vm_compute. reflexivity.
    + vm_compute. reflexivity.
    + reflexivity.
    + exists r, w', sy', ti'. split; [exact Hrun|]. split; [exact Hs|].
      split; [exact Ht|]. apply Hboundary. vm_compute. reflexivity.
  - destruct (single_axon_response_classifies dummy_deserialize (1 # 10)%Q true
                task1 (net1 [(1 # 20)%Q] []) dummy42_sent terminal.blank 42)
      as (r & w' & sy' & ti' & Hrun & Hs & Ht & _ & Hok & _).
    + vm_compute. reflexivity.
    + vm_compute. reflexivity.
    + reflexivity.
    + exists r, w', sy', ti'. split; [exact Hrun|]. split; [exact Hs|].
      split; [exact Ht|]. apply Hok. vm_compute. intros H. apply H. reflexivity.
Defined.




(** *** Units touch only what they created *)

Lemma orig_kept_refl w : orig_kept w w.
Proof. by split. Qed.

Lemma orig_kept_dom_synapses w0 w l :
  orig_kept w0 w -> l ∈ dom (synapses w0) -> l ∈ dom (synapses w).
Proof.
  intros [H _] Hl. apply elem_of_dom. rewrite H by done. by apply elem_of_dom.
Qed.

Lemma orig_kept_dom_terminals w0 w l :
  orig_kept w0 w -> l ∈ dom (terminals w0) -> l ∈ dom (terminals w).
Proof.
  intros [_ H] Hl. apply elem_of_dom. rewrite H by done. by apply elem_of_dom.
Qed.

Lemma begin_spec pre self synapse timeout i axon w0 w :
  preprocess_contract pre ->
  orig_kept w0 w -> synapse ∈ dom (synapses w0) ->
  exists t w',
    single_axon_response_begin pre self synapse timeout i axon w = (Ok t, w')
    /\ task_index t = i
    /\ orig_kept w0 w'
    /\ task_live w0 w' t
    /\ (forall t', task_live w0 w t' -> task_live w0 w' t')
    /\ (forall sy0, synapses w0 !! synapse = Some sy0 ->
          exists sy, synapses w' !! task_s t = Some sy
            /\ dummy_input sy = dummy_input sy0).
Proof.
  intros Hpre Hkept Hin.
  pose proof (orig_kept_dom_synapses _ _ _ Hkept Hin) as Hin'.
  apply elem_of_dom in Hin' as [sy0 Hsy0].
  unfold single_axon_response_begin.
  unfold bind at 1, time_time at 1.
  set (w1 := {| synapses := synapses w; terminals := terminals w;
                clock := tl (clock w); draws := draws w |}).
  set (s := fresh (dom (synapses w))).
  assert (Hs : s ∉ dom (synapses w)) by apply is_fresh.
  assert (Hcopy : synapse_copy synapse w1 = (Ok s, store_synapse s sy0 w1)).
  { unfold synapse_copy, bind, read_synapse. simpl. by rewrite Hsy0. }
  erewrite bind_ok by exact Hcopy.
  destruct (Hpre axon s timeout (store_synapse s sy0 w1) sy0)
    as (w3 & sy3 & Hrun & Hsy3 & Hinput & Hdfresh & Hdlive & Hfs & Hft).
  { simpl. apply lookup_insert_eq. }
  simpl in Hdfresh, Hfs, Hft.
  erewrite bind_ok by exact Hrun.
  unfold bind, random_uniform, ret.
  eexists _, _. split; [reflexivity|]. simpl.
  split; [done|]. split; [|split; [|split]].
  - split; simpl.
    + intros l Hl.
      pose proof (orig_kept_dom_synapses _ _ _ Hkept Hl) as Hl'.
      assert (l <> s) by (intros ->; done).
      rewrite Hfs; [|set_solver|done].
      rewrite lookup_insert_ne by done. by apply Hkept.
    + intros l Hl.
      pose proof (orig_kept_dom_terminals _ _ _ Hkept Hl) as Hl'.
      rewrite Hft by done. by apply Hkept.
  - exists sy3. simpl. split; [done|]. split; [|split].
    + intros Hc. apply Hs. by eapply orig_kept_dom_synapses.
    + done.
    + intros Hc. apply Hdfresh. by eapply orig_kept_dom_terminals.
  - intros t' (sy' & Hl & Hn & Hd & Hdn). exists sy'. simpl.
    assert (task_s t' ∈ dom (synapses w)) by (apply elem_of_dom; eauto).
    assert (task_s t' <> s) by (intros Heq; rewrite Heq in *; done).
    split; [|split; [done|split; [|done]]].
    + rewrite Hfs; [|set_solver|done]. by rewrite lookup_insert_ne.
    + apply elem_of_dom. rewrite Hft by done. by apply elem_of_dom.
  - intros sy0' H0. exists sy3. split; [done|].
    destruct Hkept as [Hk _]. rewrite Hk in Hsy0 by done. congruence.
Qed.

Lemma resume_spec deser timeout deserialize w0 w t :
  orig_kept w0 w -> task_live w0 w t ->
  exists r w',
    single_axon_response_resume deser timeout deserialize t w = (r, w')
    /\ orig_kept w0 w'
    /\ (forall t', task_live w0 w t' -> task_live w0 w' t')
    /\ (deserialize = false -> forall v, r = Ok v -> v = RSynapse (task_s t)).
Proof.
  intros Hkept (sy & Hsy & Hsn & Hd & Hdn).
  apply elem_of_dom in Hd as [ti Hti].
  destruct (Qle_bool timeout (hd 0%Q (clock w) - task_start_time t)%Q) eqn:Hlate.
  2: assert (Hfield : Qle_bool timeout (hd 0%Q (clock w) - task_start_time t)%Q
                      = true -> is_Some (dummy_input sy)) by (by rewrite Hlate).
  1: destruct (dummy_input sy) as [x|] eqn:Hx.
  1: assert (Hfield : Qle_bool timeout (hd 0%Q (clock w) - task_start_time t)%Q
                      = true -> is_Some (dummy_input sy)) by (by rewrite Hx).
  2: { rewrite (resume_refused deser timeout deserialize t w sy Hsy Hx Hlate).
       eexists _, _. split; [reflexivity|]. split; [|split].
       - split; intros l Hl; simpl; by apply Hkept.
       - intros t' Ht'. exact Ht'.
       - intros _ v Hv. discriminate Hv. }
  all: destruct (resume_run deser timeout deserialize t w sy ti Hsy Hti Hfield)
         as (w' & Hrun & Hs & Ht & _);
       cbv zeta in *;
       match type of Hs with _ = <[_ := ?x]> _ => set (sy' := x) in * end;
       assert (Hdsy : dendrite sy' = dendrite sy)
         by (unfold sy'; destruct (Qle_bool _ _); [done|];
             by destruct (dummy_input sy));
       (eexists _, w'; split; [exact Hrun|]; split; [|split]);
       [ split;
         [ intros l Hl; rewrite Hs;
           rewrite lookup_insert_ne by (intros <-; done); by apply Hkept
         | intros l Hl; rewrite Ht;
           rewrite lookup_insert_ne by (intros <-; done); by apply Hkept ]
       | intros t' (sy1 & Hl & Hn & Hd1 & Hdn1);
         destruct (decide (task_s t' = task_s t)) as [Heq|Hne];
         [ exists sy'; rewrite Heq in *; rewrite Hs, Ht;
           assert (sy1 = sy) as -> by congruence;
           split; [apply lookup_insert_eq|]; split; [done|]; rewrite Hdsy;
           split; [set_solver|done]
         | exists sy1; rewrite Hs, Ht; rewrite lookup_insert_ne by done;
           split; [done|]; split; [done|]; split; [set_solver|done] ]
       | intros -> v [= <-]; done ].
Qed.

Lemma start_all_spec pre self synapse timeout w0 items : forall w,
  preprocess_contract pre ->
  orig_kept w0 w -> synapse ∈ dom (synapses w0) ->
  exists tasks w',
    start_all pre self synapse timeout items w = (Ok tasks, w')
    /\ task_index <$> tasks = items.*1
    /\ orig_kept w0 w'
    /\ Forall (task_live w0 w') tasks
    /\ (forall t', task_live w0 w t' -> task_live w0 w' t')
    /\ Forall2 (fun item t => exists wa wb,
          single_axon_response_begin pre self synapse timeout item.1 item.2 wa
          = (Ok t, wb)) items tasks.
Proof.
  induction items as [|[i axon] rest IH]; intros w Hpre Hkept Hin.
  - exists [], w. simpl. unfold ret. repeat split; try done. by apply Hkept. by apply Hkept.
  - destruct (begin_spec pre self synapse timeout i axon w0 w Hpre Hkept Hin)
      as (t & w1 & Hrun & Hidx & Hkept1 & Hlive & Hframe & _).
    destruct (IH w1 Hpre Hkept1 Hin)
      as (ts & w2 & Hrun2 & Hidx2 & Hkept2 & Hlive2 & Hframe2 & Hbegun).
    exists (t :: ts), w2. simpl.
    erewrite bind_ok by exact Hrun.
    erewrite bind_ok by exact Hrun2.
    unfold ret. split; [done|]. split; [f_equal; [done|exact Hidx2]|].
    split; [done|]. split; [|split].
    + constructor; [by apply Hframe2|done].
    + intros t' Ht'. by apply Hframe2, Hframe.
    + constructor; [|done]. simpl. eauto.
Qed.

Lemma finish_all_spec deser timeout deserialize w0 order : forall slots w,
  orig_kept w0 w -> Forall (task_live w0 w) order ->
  exists res w',
    finish_all deser timeout deserialize order slots w = (res, w')
    /\ orig_kept w0 w'
    /\ forall slots', res = Ok slots' ->
         length slots' = length slots
         /\ (forall i, i ∈ task_index <$> order -> (i < length slots)%nat ->
               exists t r, t ∈ order /\ task_index t = i
                 /\ (exists wc wd,
                       single_axon_response_resume deser timeout deserialize t wc
                       = (Ok r, wd))
                 /\ (deserialize = false -> r = RSynapse (task_s t))
                 /\ slots' !! i = Some (Some r))
         /\ (forall i, i ∉ task_index <$> order -> slots' !! i = slots !! i).
Proof.
  induction order as [|t rest IH]; intros slots w Hkept Hlive.
  - exists (Ok slots), w. simpl. unfold ret. split; [done|]. split; [done|].
    intros slots' [= <-]. repeat split; try done.
    intros i Hi. by apply elem_of_nil in Hi.
  - apply Forall_cons in Hlive as [Ht Hrest].
    destruct (resume_spec deser timeout deserialize w0 w t Hkept Ht)
      as (r & w1 & Hrun & Hkept1 & Hframe & Hr).
    destruct r as [r|e]; last first.
    { exists (Raise e), w1. cbn [finish_all]. erewrite bind_raise by exact Hrun.
      split; [done|]. split; [done|]. intros slots' Hs. discriminate Hs. }
    assert (Hrest1 : Forall (task_live w0 w1) rest).
    { eapply Forall_impl; [exact Hrest|]. done. }
    destruct (IH (<[task_index t := Some r]> slots) w1 Hkept1 Hrest1)
      as (res & w2 & Hrun2 & Hkept2 & Hcond).
    exists res, w2. cbn [finish_all]. erewrite bind_ok by exact Hrun.
    split; [done|]. split; [done|].
    intros slots' Hres.
    destruct (Hcond slots' Hres) as (Hlen & Hfilled & Hother).
    rewrite length_insert in Hlen, Hfilled.
    split; [done|]. split.
    + intros i Hi Hlt.
      destruct (decide (i ∈ task_index <$> rest)) as [Hin|Hnin].
      * destruct (Hfilled i Hin Hlt) as (t' & r' & Ht' & ?).
        exists t', r'. split; [by right|done].
      * rewrite fmap_cons in Hi. apply elem_of_cons in Hi as [->|Hi]; [|done].
        exists t, r. split; [by left|]. split; [done|]. split; [eauto|].
        split; [intros Hdes; by apply (Hr Hdes)|]. rewrite Hother by done.
        by apply list_lookup_insert_eq.
    + intros i Hi. rewrite fmap_cons in Hi. apply not_elem_of_cons in Hi as [Hne Hi].
      rewrite Hother by done. by apply list_lookup_insert_ne.
Qed.

Lemma collect_filled slots :
  (forall i, (i < length slots)%nat -> exists r, slots !! i = Some (Some r)) ->
  exists rs, collect slots = Some rs /\ slots = Some <$> rs.
Proof.
  induction slots as [|o rest IH]; intros Hall.
  - by exists [].
  - destruct (Hall 0%nat) as [r Hr]; [simpl; lia|]. simpl in Hr.
    injection Hr as ->.
    destruct IH as (rs & Hrs & Heq).
    { intros i Hi. apply (Hall (Datatypes.S i)). simpl. lia. }
    exists (r :: rs). simpl. rewrite Hrs. split; [done|]. by rewrite Heq.
Qed.

Lemma fst_enumerate_from {A} (l : list A) : forall k,
  (enumerate_from k l).*1 = seq k (length l).
Proof. induction l as [|x l IH]; intros k; simpl; [done|]. by rewrite IH. Qed.


(** [query_all_axons]: the units are started in input order and complete in
    wake-up order; the call returns when every unit does, and then the result
    holds at each position the return value of the unit started at that
    position. *)
Lemma query_all_axons_spec pre deser self synapse timeout deserialize axons w :
  preprocess_contract pre -> synapse ∈ dom (synapses w) ->
  exists tasks w1 res w',
    start_all pre self synapse timeout (enumerate axons) w = (Ok tasks, w1)
    /\ query_all_axons pre deser self synapse timeout deserialize axons w
       = (res, w')
    /\ orig_kept w w'
    /\ length tasks = length axons
    /\ Forall2 (fun item t => exists wa wb,
          single_axon_response_begin pre self synapse timeout item.1 item.2 wa
          = (Ok t, wb)) (enumerate axons) tasks
    /\ (forall slots w2,
          finish_all deser timeout deserialize (completion_order tasks)
            (replicate (length axons) None) w1 = (Ok slots, w2) ->
          exists rs, res = Ok rs /\ w' = w2)
    /\ (forall rs, res = Ok rs ->
          length rs = length axons
          /\ forall i t, tasks !! i = Some t ->
               task_index t = i
               /\ exists r, rs !! i = Some r
                    /\ (exists wc wd,
                          single_axon_response_resume deser timeout deserialize t wc
                          = (Ok r, wd))
                    /\ (deserialize = false -> r = RSynapse (task_s t))).
Proof.
  intros Hpre Hin.
  destruct (start_all_spec pre self synapse timeout w (enumerate axons) w Hpre
              (orig_kept_refl w) Hin)
    as (tasks & w1 & Hstart & Hidx & Hkept1 & Hlive & _ & Hbegun).
  unfold enumerate in Hidx. rewrite fst_enumerate_from in Hidx.
  assert (Hlen : length tasks = length axons).
  { rewrite <- (length_fmap task_index), Hidx. apply length_seq. }
  assert (Hperm : completion_order tasks ≡ₚ tasks)
    by apply merge_sort_Permutation.
  assert (Hlive' : Forall (task_live w w1) (completion_order tasks))
    by (by rewrite Hperm).
  destruct (finish_all_spec deser timeout deserialize w (completion_order tasks)
              (replicate (length axons) None) w1 Hkept1 Hlive')
    as (fres & w2 & Hfin & Hkept2 & Hcond).
  destruct fres as [slots|e]; last first.
  { exists tasks, w1, (Raise e), w2. split; [done|]. split.
    { unfold query_all_axons. erewrite bind_ok by exact Hstart.
      by erewrite bind_raise by exact Hfin. }
    split; [done|]. split; [done|]. split; [done|]. split.
    - intros slots w3 Hfin'. rewrite Hfin in Hfin'. discriminate Hfin'.
    - intros rs Hrs. discriminate Hrs. }
  destruct (Hcond slots eq_refl) as (Hslen & Hfilled & _).
  rewrite length_replicate in Hslen, Hfilled.
  assert (Hidx_at : forall i t, tasks !! i = Some t -> task_index t = i).
  { intros i t Ht.
    assert (H : (task_index <$> tasks) !! i = Some (task_index t))
      by (by rewrite list_lookup_fmap, Ht).
    rewrite Hidx in H. apply lookup_seq in H as [-> _]. done. }
  assert (Hall : forall i, (i < length axons)%nat ->
    exists t r, tasks !! i = Some t
      /\ (exists wc wd,
            single_axon_response_resume deser timeout deserialize t wc = (Ok r, wd))
      /\ (deserialize = false -> r = RSynapse (task_s t))
      /\ slots !! i = Some (Some r)).
  { intros i Hi.
    destruct (Hfilled i) as (t & r & Ht & Hti & Hres & Hr & Hslot); [|done|].
    { rewrite Hperm, Hidx. apply elem_of_seq. lia. }
    exists t, r. split; [|done].
    rewrite Hperm in Ht. apply list_elem_of_lookup in Ht as [j Hj].
    pose proof (Hidx_at j t Hj). congruence. }
  destruct (collect_filled slots) as (rs & Hcollect & Hslots).
  { intros i Hi. rewrite Hslen in Hi.
    destruct (Hall i Hi) as (t & r & _ & _ & _ & Hslot). eauto. }
  exists tasks, w1, (Ok rs), w2. split; [done|]. split.
  { unfold query_all_axons. erewrite bind_ok by exact Hstart.
    erewrite bind_ok by exact Hfin. by rewrite Hcollect. }
  split; [done|]. split; [done|]. split; [done|]. split.
  { intros slots' w3 Hfin'. rewrite Hfin in Hfin'. injection Hfin' as _ <-.
    by exists rs. }
  intros rs' [= <-].
  assert (Hrlen : length rs = length axons).
  { rewrite <- Hslen, Hslots. by rewrite length_fmap. }
  split; [done|].
  intros i t Ht. split; [by apply Hidx_at|].
  assert (Hi : (i < length axons)%nat).
  { rewrite <- Hlen. by eapply lookup_lt_Some. }
  destruct (Hall i Hi) as (t' & r & Ht' & Hres & Hr & Hslot).
  assert (t' = t) as -> by congruence.
  exists r. split; [|done].
  rewrite Hslots, list_lookup_fmap in Hslot.
  destruct (rs !! i); simpl in Hslot; congruence.
Qed.

Lemma dendrite_preprocess_contract : preprocess_contract dendrite_preprocess.
Proof.
  intros axon s timeout w sy Hsy.
  unfold dendrite_preprocess.
  unfold bind at 1, read_synapse at 1. rewrite Hsy.
  unfold bind at 1, new_terminal at 1. cbv zeta.
  set (d := fresh (dom (terminals w))).
  assert (Hd : d ∉ dom (terminals w)) by apply is_fresh.
  unfold bind at 1, new_terminal at 1. cbv zeta.
  set (w1 := store_terminal d terminal.blank w).
  set (a := fresh (dom (terminals w1))).
  assert (Ha : a ∉ dom (terminals w1)) by apply is_fresh.
  unfold bind, write_synapse, ret.
  eexists _, _. split; [reflexivity|]. simpl.
  split; [apply lookup_insert_eq|]. split; [done|].
  simpl in Ha. rewrite dom_insert_L in Ha.
  split; [done|]. split; [set_solver|]. split.
  - intros l _ Hne. by rewrite lookup_insert_ne.
  - intros l Hl. rewrite !lookup_insert_ne; [done| |]; intros <-; set_solver.
Qed.

(** C8: the transport leaves every object that existed before the call as it
    was: the caller's message, and the [dendrite] and [axon] objects it
    refers to. *)
Theorem forward_keeps_callers_message
    pre deser self synapse timeout deserialize axons run_async streaming w :
  preprocess_contract pre -> synapse ∈ dom (synapses w) ->
  exists r w',
    forward pre deser self synapse timeout deserialize axons run_async streaming w
    = (r, w')
    /\ orig_kept w w'
    /\ synapses w' !! synapse = synapses w !! synapse
    /\ (forall sy, synapses w !! synapse = Some sy ->
          (dendrite sy ∈ dom (terminals w) ->
             terminals w' !! dendrite sy = terminals w !! dendrite sy)
          /\ (axon sy ∈ dom (terminals w) ->
                terminals w' !! axon sy = terminals w !! axon sy)).
Proof.
  intros Hpre Hin.
  assert (Hkept : exists r w',
    forward pre deser self synapse timeout deserialize axons run_async streaming w
    = (r, w') /\ orig_kept w w').
  { destruct streaming.
    - eexists _, w. split; [reflexivity|]. apply orig_kept_refl.
    - destruct (query_all_axons_spec pre deser self synapse timeout deserialize
                  axons w Hpre Hin)
        as (tasks & w1 & res & w' & _ & Hrun & Hkept & _).
      exists res, w'. done. }
  destruct Hkept as (r & w' & Hrun & Hkept).
  exists r, w'. split; [done|]. split; [done|].
  split; [by apply Hkept|].
  intros sy Hsy. split; intros Hd; by apply Hkept.
Qed.

Lemma forward_keeps_callers_message_witness :
  exists r w',
    forward dendrite_preprocess dummy_deserialize mock01 1%positive (1 # 10)%Q
      true [axon_up; axon_down] true false
      (net0 [0; 0; (1 # 20); (1 # 2)]%Q [(1 # 2); (1 # 50)]%Q) = (r, w')
    /\ synapses w' !! 1%positive = Some dummy42
    /\ terminals w' !! 1%positive = Some terminal.blank
    /\ terminals w' !! 2%positive = Some terminal.blank.
Proof.
  destruct (forward_keeps_callers_message dendrite_preprocess dummy_deserialize
              mock01 1%positive (1 # 10)%Q true [axon_up; axon_down] true false
              (net0 [0; 0; (1 # 20); (1 # 2)]%Q [(1 # 2); (1 # 50)]%Q))
    as (r & w' & Hrun & _ & Hs & Hnested).
  - exact dendrite_preprocess_contract.
  - apply elem_of_dom. exists dummy42. vm_compute. reflexivity.
  - destruct (Hnested dummy42) as [Hd Ha]; [vm_compute; reflexivity|].
    exists r, w'. split; [exact Hrun|]. split; [exact Hs|]. split.
    + apply Hd. apply elem_of_dom. exists terminal.blank. vm_compute. reflexivity.
    + apply Ha. apply elem_of_dom. exists terminal.blank. vm_compute. reflexivity.
Defined.

(** The copy is shallow: were the message sent with the [dendrite] object of
    the original, the writes of the unit would land on the caller's. *)
Example shallow_copy_shares_dendrite :
  status_code
  <$> terminals
        (forward (fun _ s _ => ret s) dummy_deserialize mock01 1%positive
           (1 # 10)%Q true [axon_up] true false
           (net0 [0; (1 # 2)]%Q [(1 # 2)]%Q)).2 !! 1%positive
  = Some (Some 408).
Proof. vm_compute. reflexivity. Qed.

(** C9: with streaming requested the transport raises [NotImplementedError]
    at once: no unit is started, the store, the clock and the generator are
    as they were. *)
Theorem forward_streaming_not_implemented
    pre deser self synapse timeout deserialize axons run_async w :
  forward pre deser self synapse timeout deserialize axons run_async true w
  = (Raise (NotImplementedError "Streaming not implemented yet."), w).
Proof. reflexivity. Qed.

(** *** Every unit of a call is classified *)

Lemma orig_kept_trans w0 w1 w2 :
  orig_kept w0 w1 -> orig_kept w1 w2 -> orig_kept w0 w2.
Proof.
  intros H01 H12. split; intros l Hl.
  - destruct H12 as [H _]. rewrite H by (by eapply orig_kept_dom_synapses).
    by apply H01.
  - destruct H12 as [_ H]. rewrite H by (by eapply orig_kept_dom_terminals).
    by apply H01.
Qed.

Lemma start_all_ready pre self synapse timeout sy0 x items : forall w,
  preprocess_contract pre ->
  synapses w !! synapse = Some sy0 -> dummy_input sy0 = Some x ->
  exists tasks w',
    start_all pre self synapse timeout items w = (Ok tasks, w')
    /\ orig_kept w w'
    /\ Forall (task_live w w') tasks
    /\ Forall (task_ready x w') tasks
    /\ all_separated w' tasks.
Proof.
  induction items as [|[i axon] rest IH]; intros w Hpre Hsy0 Hx.
  - exists [], w. simpl. unfold ret. split; [done|].
    split; [apply orig_kept_refl|]. split; [done|]. split; [done|].
    split; [constructor|]. intros t t' Ht. by apply elem_of_nil in Ht.
  - assert (Hin : synapse ∈ dom (synapses w)) by (apply elem_of_dom; eauto).
    destruct (begin_spec pre self synapse timeout i axon w w Hpre
                (orig_kept_refl w) Hin)
      as (t & w1 & Hrun & _ & Hkept1 & Hlive & _ & Hinput).
    destruct (Hinput sy0 Hsy0) as (sy & Hsy & Hsyx).
    destruct Hlive as (sy_ & Hsy_ & Hsfresh & Hdlive & Hdfresh).
    assert (sy_ = sy) as -> by congruence.
    assert (Hsy0' : synapses w1 !! synapse = Some sy0).
    { destruct Hkept1 as [H _]. by rewrite H. }
    destruct (IH w1 Hpre Hsy0' Hx)
      as (ts & w2 & Hrun2 & Hkept2 & Hlive2 & Hready2 & Hsep2).
    assert (Hs2 : synapses w2 !! task_s t = Some sy).
    { destruct Hkept2 as [H _]. rewrite H; [done|]. apply elem_of_dom. eauto. }
    assert (Hnew : forall t', t' ∈ ts ->
      (task_s t' ∉ dom (synapses w1))
      /\ exists sy', synapses w2 !! task_s t' = Some sy'
           /\ (dendrite sy' ∉ dom (terminals w1))).
    { intros t' Ht'. rewrite Forall_forall in Hlive2.
      destruct (Hlive2 t' Ht') as (sy' & ? & ? & ? & ?). eauto. }
    assert (Hts : forall t', t' ∈ ts -> separated w2 t t').
    { intros t' Ht'. destruct (Hnew t' Ht') as (Hs' & sy' & Hsy' & Hd').
      split.
      - intros Heq. apply Hs'. rewrite <- Heq. apply elem_of_dom. eauto.
      - rewrite Hs2, Hsy'. simpl. intros [= Heq]. apply Hd'. by rewrite <- Heq. }
    exists (t :: ts), w2. cbn [start_all].
    erewrite bind_ok by exact Hrun. erewrite bind_ok by exact Hrun2.
    split; [done|]. split; [by eapply orig_kept_trans|]. split; [|split].
    + constructor.
      * exists sy. split; [done|]. split; [done|]. split; [|done].
        by eapply orig_kept_dom_terminals.
      * eapply Forall_impl; [exact Hlive2|].
        intros t' (sy' & ? & Hn1 & ? & Hn2). exists sy'.
        split; [done|]. split; [|split; [done|]].
        -- intros Hc. apply Hn1. by eapply orig_kept_dom_synapses.
        -- intros Hc. apply Hn2. by eapply orig_kept_dom_terminals.
    + constructor; [|done].
      apply elem_of_dom in Hdlive as [ti Hti].
      exists sy, ti. split; [done|]. split; [|congruence].
      destruct Hkept2 as [_ H]. rewrite H; [done|]. apply elem_of_dom. eauto.
    + destruct Hsep2 as [Hnd Hpairs]. unfold all_separated. split.
      * constructor; [|done]. intros Ht.
        destruct (Hts t Ht) as [Hne _]. done.
      * intros t1 t2 [->|H1]%elem_of_cons [->|H2]%elem_of_cons Hne.
        -- done.
        -- by apply Hts.
        -- destruct (Hts t1 H1) as [Ha Hb]. split; by apply not_eq_sym.
        -- by apply Hpairs.
Qed.

(** Resuming a ready unit classifies it, and changes neither the message of
    a unit separated from it, nor that message's [dendrite] object, nor which
    [dendrite] object any message refers to. *)
Lemma resume_classifies deser timeout deserialize x w t :
  task_ready x w t ->
  exists r w',
    single_axon_response_resume deser timeout deserialize t w = (Ok r, w')
    /\ classified timeout x w' t
    /\ (forall l, dendrite <$> synapses w' !! l = dendrite <$> synapses w !! l)
    /\ (forall t' sy', separated w t t' ->
          synapses w !! task_s t' = Some sy' ->
          synapses w' !! task_s t' = Some sy'
          /\ terminals w' !! dendrite sy' = terminals w !! dendrite sy').
Proof.
  intros (sy & ti & Hsy & Hti & Hx).
  destruct (resume_run deser timeout deserialize t w sy ti Hsy Hti)
    as (w' & Hrun & Hs & Ht & _); [by rewrite Hx|].
  cbv zeta in *. rewrite Hx in *.
  set (e := (hd 0%Q (clock w) - task_start_time t)%Q) in *.
  match type of Hs with _ = <[_ := ?v]> _ => set (sy' := v) in * end.
  assert (Hd : dendrite sy' = dendrite sy).
  { unfold sy'. by destruct (Qle_bool timeout e). }
  eexists _, w'. split; [exact Hrun|]. split; [|split].
  - eexists sy', _, e. rewrite Hs, Ht, Hd.
    split; [apply lookup_insert_eq|]. split; [apply lookup_insert_eq|].
    split; [done|].
    pose proof (Qle_bool_iff timeout e) as Hiff.
    unfold sy'. split.
    + intros Hle. apply Hiff in Hle. by rewrite Hle.
    + intros Hnle. destruct (Qle_bool timeout e).
      * exfalso. by apply Hnle, Hiff.
      * simpl. repeat split. f_equal. lia.
  - intros l. rewrite Hs. destruct (decide (l = task_s t)) as [->|Hne].
    + rewrite lookup_insert_eq, Hsy. simpl. by rewrite Hd.
    + by rewrite lookup_insert_ne.
  - intros t' sy1 [Hne Hdne] Hsy1. rewrite Hs, Ht.
    rewrite lookup_insert_ne by done. split; [done|].
    rewrite lookup_insert_ne; [done|].
    rewrite Hsy, Hsy1 in Hdne. simpl in Hdne. congruence.
Qed.

Lemma finish_all_classified deser timeout deserialize x order :
  forall finished slots w,
    all_separated w (finished ++ order) ->
    Forall (task_ready x w) order ->
    Forall (classified timeout x w) finished ->
    exists slots' w',
      finish_all deser timeout deserialize order slots w = (Ok slots', w')
      /\ Forall (classified timeout x w') (finished ++ order).
Proof.
  induction order as [|t rest IH]; intros finished slots w Hsep Hready Hdone.
  - exists slots, w. rewrite app_nil_r. done.
  - apply Forall_cons in Hready as [Ht Hrest].
    destruct (resume_classifies deser timeout deserialize x w t Ht)
      as (r & w1 & Hrun & Hclass & Hptr & Hframe).
    destruct Hsep as [Hnd Hpairs].
    assert (Hother : forall t', t' ∈ finished ++ rest -> separated w t t').
    { intros t' Ht'. apply Hpairs.
      - apply elem_of_app. right. by left.
      - apply elem_of_app in Ht' as [?|?]; apply elem_of_app; [by left|].
        right. by right.
      - intros <-. apply NoDup_app in Hnd as (_ & Hdisj & Hnd2).
        apply elem_of_app in Ht' as [Hf|Hr].
        + apply (Hdisj t Hf). by left.
        + by apply NoDup_cons in Hnd2 as [? _]. }
    destruct (IH (finished ++ [t]) (<[task_index t := Some r]> slots) w1)
      as (slots' & w2 & Hrun2 & Hall).
    + rewrite <- app_assoc. simpl. split; [done|].
      intros t1 t2 H1 H2 Hne. destruct (Hpairs t1 t2 H1 H2 Hne) as [Ha Hb].
      split; [done|]. by rewrite !Hptr.
    + rewrite Forall_forall in Hrest. apply Forall_forall. intros t' Ht'.
      destruct (Hrest t' Ht') as (sy' & ti' & Hsy' & Hti' & Hx').
      destruct (Hframe t' sy') as [H1 H2]; [|done|].
      { apply Hother. apply elem_of_app. by right. }
      exists sy', ti'. split; [done|]. split; [congruence|done].
    + apply Forall_app. split; [|by constructor].
      rewrite Forall_forall in Hdone. apply Forall_forall. intros t' Ht'.
      destruct (Hdone t' Ht') as (sy' & ti' & e' & Hsy' & Hti' & Hrest').
      destruct (Hframe t' sy') as [H1 H2]; [|done|].
      { apply Hother. apply elem_of_app. by left. }
      exists sy', ti', e'. split; [done|]. split; [congruence|done].
    + exists slots', w2. cbn [finish_all]. erewrite bind_ok by exact Hrun.
      split; [done|]. by rewrite <- app_assoc in Hall.
Qed.



(** The unit started second completes first, and comes second in the result. *)
Example run_forward_order :
  (forward dendrite_preprocess dummy_deserialize mock01 1%positive (1 # 10)%Q
     false [axon_up; axon_down] true false
     (net0 [0; 0; (1 # 20); (1 # 2)]%Q [(1 # 2); (1 # 50)]%Q)).1
  = Ok [RSynapse 2%positive; RSynapse 3%positive].
Proof. vm_compute. reflexivity. Qed.

(** On a message of the base class, a unit that reaches the timeout fails at
    the assignment of [dummy_output], and the call with it. *)
Example run_forward_base_message :
  let w := (new_synapse (empty_net [0; 0; (1 # 20); (1 # 2)]%Q
                           [(1 # 20); (1 # 2)]%Q)).2 in
  (forward dendrite_preprocess dummy_deserialize mock01 1%positive (1 # 10)%Q
     false [axon_up; axon_down] true false w).1
  = Raise (ValueError "Synapse object has no field dummy_output").
Proof. vm_compute. reflexivity. Qed.

(** X7: after a call on a message with [dummy_input = x], the message of
    every unit records its elapsed time and is classified by it, whatever the
    order in which the units completed: status 408 "Timeout" with the input
    echoed when the elapsed time reaches the timeout, status 200 "OK" with
    twice the input otherwise. *)
Theorem forward_classifies_every_unit
    pre deser self synapse timeout deserialize axons run_async w sy0 x :
  preprocess_contract pre ->
  synapses w !! synapse = Some sy0 -> dummy_input sy0 = Some x ->
  exists tasks w1 rs w',
    start_all pre self synapse timeout (enumerate axons) w = (Ok tasks, w1)
    /\ forward pre deser self synapse timeout deserialize axons run_async false w
       = (Ok rs, w')
    /\ length tasks = length axons
    /\ Forall (classified timeout x w') tasks.
Proof.
  intros Hpre Hsy0 Hx.
  assert (Hin : synapse ∈ dom (synapses w)) by (apply elem_of_dom; eauto).
  destruct (query_all_axons_spec pre deser self synapse timeout deserialize axons w
              Hpre Hin)
    as (tasks & w1 & res & w' & Hstart & Hrun & _ & Hlen & _ & Hret & _).
  destruct (start_all_ready pre self synapse timeout sy0 x (enumerate axons) w
              Hpre Hsy0 Hx)
    as (tasks' & w1' & Hstart' & _ & _ & Hready & Hsep).
  rewrite Hstart in Hstart'. injection Hstart' as <- <-.
  assert (Hperm : completion_order tasks ≡ₚ tasks)
    by apply merge_sort_Permutation.
  destruct (finish_all_classified deser timeout deserialize x
              (completion_order tasks) [] (replicate (length axons) None) w1)
    as (slots & w2 & Hfin & Hall).
  { simpl. destruct Hsep as [Hnd Hpairs]. split; [by rewrite Hperm|].
    intros t t' Ht Ht'. rewrite Hperm in Ht, Ht'. by apply Hpairs. }
  { by rewrite Hperm. }
  { constructor. }
  destruct (Hret slots w2 Hfin) as (rs & -> & ->).
  exists tasks, w1, rs, w2. split; [done|]. split; [done|]. split; [done|].
  simpl in Hall. by rewrite Hperm in Hall.
Qed.

(** ** The validator's cycle *)

Example run_cycle :
  let st := (validator.forward (mock_dendrite mock01) get_rewards store_rewards
               neuron0 state0).2 in
  validator.events st
  = [Log_debug_received 2 2; Log_debug_scored [Fin 1; Fin 1];
     Update_scores [Fin 1; Fin 1] [2; 0]]
  /\ validator.scores st = [Fin 1; Fin 0; Fin 1; Fin 0].
Proof. vm_compute. split; reflexivity. Qed.

Lemma len_zero_iff {A} (l : list A) : (len l =? 0) = true <-> l = [].
Proof. unfold len. by destruct l. Qed.

(** A cycle whose sampling and sending succeed reaches [get_rewards]. *)
Lemma forward_body_to_rewards {T R}
    (dendrite : list bt.AxonInfo -> Z -> bool -> Q -> M T (list R))
    get_rewards update_scores self st uids smp axons responses w :
  get_random_uids (validator.metagraph self) (validator.config self)
    (neuron.sample_size (validator.config self)) None (validator.sampler st)
  = (Ok uids, smp) ->
  uids <> [] ->
  result_map (getitem (bt.axons (validator.metagraph self))) uids = Ok axons ->
  dendrite axons (validator.step self) true
    (neuron.timeout (validator.config self)) (validator.net st)
  = (Ok responses, w) ->
  validator.forward_body dendrite get_rewards update_scores self st
  = (let! rewards := lift (get_rewards (validator.step self) responses) in
     if 0 <? len rewards then
       validator.emit (Log_debug_scored rewards) ;;;
       validator.call_update_scores update_scores rewards uids
     else
       validator.emit
         (Log_warning "No valid rewards generated from responses."))
      {| validator.sampler := smp; validator.net := w;
         validator.scores := validator.scores st;
         validator.events :=
           validator.events st
           ++ [Log_debug_received (len responses) (len uids)] |}.
Proof.
  intros Hsample Hne Haxons Hsend.
  unfold validator.forward_body.
  erewrite bind_ok; last first.
  { unfold validator.on_sampler. rewrite Hsample. reflexivity. }
  destruct (len uids =? 0) eqn:Hz.
  { apply len_zero_iff in Hz. done. }
  erewrite bind_ok; last first.
  { unfold lift. rewrite Haxons. reflexivity. }
  erewrite bind_ok; last first.
  { unfold validator.on_net. simpl. rewrite Hsend. reflexivity. }
  erewrite bind_ok by reflexivity.
  reflexivity.
Qed.

(** C10: when the reward computation returns no reward for a non-empty
    sample, the cycle completes without calling [update_scores]: the scores
    are as they were, and the cycle leaves, after the debug record of the
    responses received, one warning. *)
Theorem forward_skips_update_on_empty_rewards {T R}
    (dendrite : list bt.AxonInfo -> Z -> bool -> Q -> M T (list R))
    get_rewards update_scores self st uids smp axons responses w :
  get_random_uids (validator.metagraph self) (validator.config self)
    (neuron.sample_size (validator.config self)) None (validator.sampler st)
  = (Ok uids, smp) ->
  uids <> [] ->
  result_map (getitem (bt.axons (validator.metagraph self))) uids = Ok axons ->
  dendrite axons (validator.step self) true
    (neuron.timeout (validator.config self)) (validator.net st)
  = (Ok responses, w) ->
  get_rewards (validator.step self) responses = Ok [] ->
  validator.forward dendrite get_rewards update_scores self st
  = (Ok tt,
     {| validator.sampler := smp; validator.net := w;
        validator.scores := validator.scores st;
        validator.events :=
          validator.events st
          ++ [Log_debug_received (len responses) (len uids);
              Log_warning "No valid rewards generated from responses."] |}).
Proof.
  intros Hsample Hne Haxons Hsend Hrewards.
  unfold validator.forward, try_except.
  erewrite forward_body_to_rewards by done.
  unfold bind, lift. rewrite Hrewards. simpl.
  unfold validator.emit. simpl. by rewrite <- app_assoc.
Qed.

Lemma forward_skips_update_on_empty_rewards_witness :
  validator.forward (mock_dendrite mock01) no_rewards store_rewards neuron0 state0
  = (Ok tt,
     {| validator.sampler := {| tape := [1; 4]%nat; reads := [0; 1; 2; 3] |};
        validator.net :=
          (mock_dendrite mock01 [axon_up; axon_up] 42 true (12 # 1)%Q
             (validator.net state0)).2;
        validator.scores := validator.scores state0;
        validator.events :=
          validator.events state0
          ++ [Log_debug_received (len [RValue (Some 84); RValue (Some 84)])
                (len [2; 0]);
              Log_warning "No valid rewards generated from responses."] |}).
Proof.
  apply (forward_skips_update_on_empty_rewards (mock_dendrite mock01) no_rewards
           store_rewards neuron0 state0 [2; 0]
           {| tape := [1; 4]%nat; reads := [0; 1; 2; 3] |}
           [axon_up; axon_up] [RValue (Some 84); RValue (Some 84)]).
  - vm_compute. reflexivity.
  - discriminate.
  - vm_compute. reflexivity.
  - vm_compute. reflexivity.
  - reflexivity.
Defined.

(** C7, as the code has it: the cycle hands the reward array to
    [update_scores] as [get_rewards] returned it, whatever its entries,
    whenever it is not empty; it replaces no entry and logs no warning. *)
Theorem forward_passes_rewards_unchanged {T R}
    (dendrite : list bt.AxonInfo -> Z -> bool -> Q -> M T (list R))
    get_rewards update_scores self st uids smp axons responses w rewards sc :
  get_random_uids (validator.metagraph self) (validator.config self)
    (neuron.sample_size (validator.config self)) None (validator.sampler st)
  = (Ok uids, smp) ->
  uids <> [] ->
  result_map (getitem (bt.axons (validator.metagraph self))) uids = Ok axons ->
  dendrite axons (validator.step self) true
    (neuron.timeout (validator.config self)) (validator.net st)
  = (Ok responses, w) ->
  get_rewards (validator.step self) responses = Ok rewards ->
  rewards <> [] ->
  update_scores rewards uids (validator.scores st) = Ok sc ->
  validator.forward dendrite get_rewards update_scores self st
  = (Ok tt,
     {| validator.sampler := smp; validator.net := w;
        validator.scores := sc;
        validator.events :=
          validator.events st
          ++ [Log_debug_received (len responses) (len uids);
              Log_debug_scored rewards;
              Update_scores rewards uids] |}).
Proof.
  intros Hsample Hne Haxons Hsend Hrewards Hnonempty Hupdate.
  unfold validator.forward, try_except.
  erewrite forward_body_to_rewards by done.
  unfold bind at 1, lift. rewrite Hrewards.
  replace (0 <? len rewards) with true; last first.
  { symmetry. apply Z.ltb_lt. unfold len. destruct rewards; [done|simpl; lia]. }
  unfold validator.call_update_scores, bind, validator.emit. simpl.
  rewrite Hupdate. by rewrite <- !app_assoc.
Qed.

Lemma forward_passes_rewards_unchanged_witness :
  validator.forward (mock_dendrite mock01) nan_rewards store_rewards neuron0 state0
  = (Ok tt,
     {| validator.sampler := {| tape := [1; 4]%nat; reads := [0; 1; 2; 3] |};
        validator.net :=
          (mock_dendrite mock01 [axon_up; axon_up] 42 true (12 # 1)%Q
             (validator.net state0)).2;
        validator.scores := [Fin 1; Fin 0; NaN; Fin 0];
        validator.events :=
          validator.events state0
          ++ [Log_debug_received (len [RValue (Some 84); RValue (Some 84)])
                (len [2; 0]);
              Log_debug_scored [NaN; Fin 1];
              Update_scores [NaN; Fin 1] [2; 0]] |}).
Proof.
  apply (forward_passes_rewards_unchanged (mock_dendrite mock01) nan_rewards
           store_rewards neuron0 state0 [2; 0]
           {| tape := [1; 4]%nat; reads := [0; 1; 2; 3] |}
           [axon_up; axon_up] [RValue (Some 84); RValue (Some 84)]).
  - vm_compute. reflexivity.
  - discriminate.
  - vm_compute. reflexivity.
  - vm_compute. reflexivity.
  - reflexivity.
  - discriminate.
  - reflexivity.
Defined.

(** C7, as stated, fails: when the reward callback returns a NaN, the cycle
    calls [update_scores] with that NaN and logs no warning. *)
Lemma forward_passes_nan_to_update_scores :
  let st := (validator.forward (mock_dendrite mock01) nan_rewards store_rewards
               neuron0 state0).2 in
  validator.events st
  = [Log_debug_received 2 2; Log_debug_scored [NaN; Fin 1];
     Update_scores [NaN; Fin 1] [2; 0]]
  /\ existsb is_nan [NaN; Fin 1] = true
  /\ existsb is_warning (validator.events st) = false.
Proof. vm_compute. repeat split. Qed.

(** * Further properties *)

(** ** The sampler, beyond the claims *)

Lemma len_nil_inv {A} (l : list A) : len l = 0 -> l = [].
Proof. unfold len. destruct l; [done|]. simpl. lia. Qed.

Lemma pool_within_eligible metagraph limit exclude extra :
  extra ⊆+ excluded_eligible metagraph limit exclude ->
  candidates metagraph limit exclude ++ extra ⊆+ eligible metagraph limit.
Proof.
  intros Hsub.
  assert (Hsplit : candidates metagraph limit exclude
                   ++ excluded_eligible metagraph limit exclude
                   ≡ₚ eligible metagraph limit).
  { unfold candidates, excluded_eligible. rewrite (comm (++)).
    apply (filter_app_complement (fun uid => uid ∈ exclude)). }
  rewrite <- Hsplit. by apply submseteq_skips_l.
Qed.

(** X1: the exclusion is honoured whenever the candidates suffice: for
    [0 <= k <= len(candidates)] the sample has [k] distinct available uids,
    none of them excluded. *)
Theorem get_random_uids_respects_exclusion metagraph config k exclude st :
  wf_metagraph metagraph ->
  0 <= k ->
  k <= len (candidates metagraph (neuron.vpermit_tao_limit config) exclude) ->
  exists uids st',
    get_random_uids metagraph config k (Some exclude) st = (Ok uids, st')
    /\ len uids = k
    /\ NoDup uids
    /\ (forall uid, uid ∈ uids ->
          (uid ∉ exclude)
          /\ check_uid_availability metagraph uid (neuron.vpermit_tao_limit config)
             = Ok true).
Proof.
  intros Hwf Hk Hcand.
  pose proof (len_eligible_split metagraph (neuron.vpermit_tao_limit config) exclude)
    as Hsplit.
  assert (0 <= len (excluded_eligible metagraph (neuron.vpermit_tao_limit config)
                      exclude)) by (unfold len; lia).
  destruct (get_random_uids_spec metagraph config k (Some exclude) st Hwf Hk)
    as (uids & extra & st' & Hrun & _ & Hlen & Hsub & Hextra & Hn).
  cbv zeta in *.
  rewrite Z.min_l in * by lia.
  rewrite Z.max_l in Hn by lia.
  apply len_nil_inv in Hn. subst extra. rewrite app_nil_r in Hsub.
  exists uids, st'. split; [done|]. split; [done|]. split.
  - eapply submseteq_NoDup_inv; [done|]. apply NoDup_filter, NoDup_eligible.
  - intros uid Hu. apply (elem_of_submseteq _ _ _ Hu) in Hsub.
    apply list_elem_of_filter in Hsub as [Hex Hel].
    split; [done|]. by apply elem_of_eligible in Hel as [_ ?].
Qed.

Lemma get_random_uids_respects_exclusion_witness :
  exists uids st',
    get_random_uids metagraph4 config0 1 (Some [0; 3]) sampler0 = (Ok uids, st')
    /\ len uids = 1
    /\ NoDup uids
    /\ (forall uid, uid ∈ uids ->
          (uid ∉ [0; 3])
          /\ check_uid_availability metagraph4 uid (neuron.vpermit_tao_limit config0)
             = Ok true).
Proof.
  apply (get_random_uids_respects_exclusion metagraph4 config0 1 [0; 3] sampler0).
  - repeat split.
  - lia.
  - vm_compute. discriminate.
Defined.

(** X2: a request for at least as many uids as there are eligible peers
    returns every eligible peer exactly once, whatever is excluded. *)
Theorem get_random_uids_takes_all metagraph config k exclude st :
  wf_metagraph metagraph ->
  len (eligible metagraph (neuron.vpermit_tao_limit config)) <= k ->
  exists uids st',
    get_random_uids metagraph config k exclude st = (Ok uids, st')
    /\ uids ≡ₚ eligible metagraph (neuron.vpermit_tao_limit config).
Proof.
  intros Hwf Hk.
  assert (0 <= k).
  { pose proof (Nat2Z.is_nonneg
      (length (eligible metagraph (neuron.vpermit_tao_limit config)))).
    unfold len in Hk. lia. }
  destruct (get_random_uids_spec metagraph config k exclude st Hwf)
    as (uids & extra & st' & Hrun & _ & Hlen & Hsub & Hextra & _); [done|].
  cbv zeta in *. rewrite Z.min_r in Hlen by done.
  exists uids, st'. split; [done|].
  apply submseteq_length_Permutation.
  - etrans; [exact Hsub|]. by apply pool_within_eligible.
  - unfold len in Hlen. lia.
Qed.

Lemma get_random_uids_takes_all_witness :
  exists uids st',
    get_random_uids metagraph4 config0 5 (Some [0]) sampler0 = (Ok uids, st')
    /\ uids ≡ₚ eligible metagraph4 (neuron.vpermit_tao_limit config0).
Proof.
  apply (get_random_uids_takes_all metagraph4 config0 5 (Some [0]) sampler0).
  - repeat split.
  - vm_compute. discriminate.
Defined.

Lemma get_random_uids_zero metagraph config k exclude st :
  wf_metagraph metagraph -> 0 <= k ->
  k = 0 \/ eligible metagraph (neuron.vpermit_tao_limit config) = [] ->
  get_random_uids metagraph config k exclude st
  = (Ok [], {| tape := tape st; reads := reads st ++ range (bt.n metagraph) |}).
Proof.
  intros Hwf Hk Hz. unfold get_random_uids.
  erewrite bind_ok; last first.
  { apply scan_uids_spec; [done|]. intros uid Hu.
    unfold range in Hu. apply elem_of_seqZ in Hu. lia. }
  cbn [fst snd app].
  change (filter _ (range (bt.n metagraph)))
    with (eligible metagraph (neuron.vpermit_tao_limit config)).
  replace (Z.min k (len (eligible metagraph (neuron.vpermit_tao_limit config))))
    with 0; [done|].
  destruct Hz as [-> | ->]; unfold len; simpl; lia.
Qed.

Lemma get_random_uids_negative metagraph config k exclude st :
  wf_metagraph metagraph -> k < 0 ->
  get_random_uids metagraph config k exclude st
  = (Raise (ValueError "Sample larger than population or is negative"),
     {| tape := tape st; reads := reads st ++ range (bt.n metagraph) |}).
Proof.
  intros Hwf Hk. unfold get_random_uids.
  erewrite bind_ok; last first.
  { apply scan_uids_spec; [done|]. intros uid Hu.
    unfold range in Hu. apply elem_of_seqZ in Hu. lia. }
  cbn [fst snd app].
  match goal with |- context [Z.min k (len ?l)] =>
    pose proof (Nat2Z.is_nonneg (length l)) as Hl; fold (len l) in Hl;
    rewrite (Z.min_l k (len l)) by lia end.
  replace (k =? 0) with false by (symmetry; apply Z.eqb_neq; lia).
  unfold backfill.
  match goal with |- context [len ?l <? k] =>
    replace (len l <? k) with false
      by (symmetry; apply Z.ltb_ge; unfold len; lia) end.
  unfold bind, ret, draw_from_pool.
  match goal with |- context [len ?l <? k] =>
    replace (len l <? k) with false
      by (symmetry; apply Z.ltb_ge; unfold len; lia) end.
  apply random_sample_raise. by left.
Qed.

(** X3: for [k >= 0] the sample is empty exactly when [k] is 0 or no peer is
    eligible, and then the generator is not drawn from. *)
Theorem get_random_uids_empty metagraph config k exclude st :
  wf_metagraph metagraph -> 0 <= k ->
  ((exists st', get_random_uids metagraph config k exclude st = (Ok [], st'))
   <-> k = 0 \/ eligible metagraph (neuron.vpermit_tao_limit config) = [])
  /\ (k = 0 \/ eligible metagraph (neuron.vpermit_tao_limit config) = [] ->
      get_random_uids metagraph config k exclude st
      = (Ok [], {| tape := tape st;
                   reads := reads st ++ range (bt.n metagraph) |})).
Proof.
  intros Hwf Hk.
  split; [|by apply get_random_uids_zero]. split.
  - intros [st' Hrun].
    destruct (get_random_uids_spec metagraph config k exclude st Hwf Hk)
      as (uids & extra & st'' & Hrun' & _ & Hlen & _).
    cbv zeta in Hlen. rewrite Hrun in Hrun'. injection Hrun' as <- <-.
    unfold len in Hlen. simpl in Hlen.
    destruct (eligible metagraph (neuron.vpermit_tao_limit config)); [by right|].
    left. simpl in Hlen. lia.
  - intros Hz. eexists. by apply get_random_uids_zero.
Qed.

Lemma get_random_uids_empty_witness :
  ((exists st', get_random_uids metagraph4 config0 0 None sampler0 = (Ok [], st'))
   <-> 0 = 0 \/ eligible metagraph4 (neuron.vpermit_tao_limit config0) = [])
  /\ get_random_uids metagraph4 config0 0 None sampler0
     = (Ok [], {| tape := tape sampler0;
                  reads := reads sampler0 ++ range (bt.n metagraph4) |}).
Proof.
  destruct (get_random_uids_empty metagraph4 config0 0 None sampler0)
    as [Hiff Hrun].
  - repeat split.
  - lia.
  - split; [exact Hiff|]. apply Hrun. by left.
Defined.

Lemma getitem_in {A} (l : list A) (i : Z) :
  - len l <= i < len l -> exists x, getitem l i = Ok x.
Proof.
  intros Hi. unfold getitem, len in *.
  destruct (i <? 0) eqn:Hneg.
  - apply Z.ltb_lt in Hneg.
    replace (Z.of_nat (length l) + i <? 0) with false
      by (symmetry; apply Z.ltb_ge; lia).
    destruct (lookup_lt_is_Some_2 l (Z.to_nat (Z.of_nat (length l) + i)))
      as [x Hx]; [lia|].
    rewrite Hx. eauto.
  - rewrite Hneg. apply Z.ltb_ge in Hneg.
    destruct (lookup_lt_is_Some_2 l (Z.to_nat i)) as [x Hx]; [lia|].
    rewrite Hx. eauto.
Qed.

Lemma getitem_out {A} (l : list A) (i : Z) :
  i < - len l \/ len l <= i -> getitem l i = Raise IndexError.
Proof.
  intros Hi. unfold getitem, len in *.
  destruct (i <? 0) eqn:Hneg.
  - apply Z.ltb_lt in Hneg.
    replace (Z.of_nat (length l) + i <? 0) with true
      by (symmetry; apply Z.ltb_lt; lia).
    done.
  - rewrite Hneg. apply Z.ltb_ge in Hneg.
    rewrite (lookup_ge_None_2 l (Z.to_nat i)) by lia. done.
Qed.

(** X4: [check_uid_availability] answers for every uid from [-n] to [n - 1],
    a negative uid counting from the end of the arrays, and raises
    [IndexError] for any other. *)
Theorem check_uid_availability_bounds metagraph uid limit :
  wf_metagraph metagraph ->
  (- bt.n metagraph <= uid < bt.n metagraph ->
     exists b, check_uid_availability metagraph uid limit = Ok b)
  /\ (uid < - bt.n metagraph \/ bt.n metagraph <= uid ->
        check_uid_availability metagraph uid limit = Raise IndexError).
Proof.
  intros (Ha & Hp & Hs). unfold check_uid_availability. split.
  - intros Hu.
    destruct (getitem_in (bt.axons metagraph) uid) as [a ->]; [lia|].
    destruct (getitem_in (bt.validator_permit metagraph) uid) as [p ->]; [lia|].
    destruct (getitem_in (bt.S metagraph) uid) as [s ->]; [lia|].
    destruct (negb (bt.is_serving a)); [eauto|].
    destruct p; [|eauto].
    destruct (negb (Qle_bool s (inject_Z limit))); eauto.
  - intros Hu. rewrite getitem_out by lia. done.
Qed.

Lemma check_uid_availability_bounds_witness :
  (exists b, check_uid_availability metagraph4 (-1) 1024 = Ok b)
  /\ check_uid_availability metagraph4 4 1024 = Raise IndexError.
Proof.
  destruct (check_uid_availability_bounds metagraph4 (-1) 1024) as [Hin _].
  { repeat split. }
  destruct (check_uid_availability_bounds metagraph4 4 1024) as [_ Hout].
  { repeat split. }
  split.
  - apply Hin. simpl. lia.
  - apply Hout. right. simpl. lia.
Defined.

(** X5: raising the stake limit never makes a peer unavailable: a uid that
    is available under a limit is available under any larger one, so the
    eligible peers can only grow. *)
Theorem check_uid_availability_limit_mono metagraph limit limit' :
  limit <= limit' ->
  (forall uid,
     check_uid_availability metagraph uid limit = Ok true ->
     check_uid_availability metagraph uid limit' = Ok true)
  /\ (forall uid, uid ∈ eligible metagraph limit -> uid ∈ eligible metagraph limit').
Proof.
  intros Hle.
  assert (Hmono : forall uid,
     check_uid_availability metagraph uid limit = Ok true ->
     check_uid_availability metagraph uid limit' = Ok true).
  { intros uid. unfold check_uid_availability.
    destruct (getitem (bt.axons metagraph) uid) as [a|]; [|done].
    destruct (negb (bt.is_serving a)); [done|].
    destruct (getitem (bt.validator_permit metagraph) uid) as [p|]; [|done].
    destruct p; [|done].
    destruct (getitem (bt.S metagraph) uid) as [s|]; [|done].
    destruct (Qle_bool s (inject_Z limit)) eqn:Hs; [|done].
    intros _. apply Qle_bool_iff in Hs.
    assert (Hs' : Qle_bool s (inject_Z limit') = true).
    { apply Qle_bool_iff. eapply Qle_trans; [exact Hs|].
      rewrite <- Zle_Qle. done. }
    by rewrite Hs'. }
  split; [done|].
  intros uid. unfold eligible. rewrite !list_elem_of_filter, !available_true.
  intros [? ?]. split; [by apply Hmono|done].
Qed.

Lemma check_uid_availability_limit_mono_witness :
  check_uid_availability metagraph4 3 2000 = Ok true
  /\ (forall uid, uid ∈ eligible metagraph4 1024 -> uid ∈ eligible metagraph4 2000).
Proof.
  destruct (check_uid_availability_limit_mono metagraph4 2000 2000) as [Hcheck _].
  { lia. }
  destruct (check_uid_availability_limit_mono metagraph4 1024 2000) as [_ Hel].
  { lia. }
  split; [|exact Hel]. apply Hcheck. vm_compute. reflexivity.
Defined.

(** X6: the exclusion list counts as a set: two lists with the same elements,
    in whatever order and however often repeated, give the same sample. *)
Theorem get_random_uids_exclude_as_set metagraph config k exclude1 exclude2 st :
  (forall uid, uid ∈ exclude1 <-> uid ∈ exclude2) ->
  get_random_uids metagraph config k (Some exclude1) st
  = get_random_uids metagraph config k (Some exclude2) st.
Proof.
  intros Hsame.
  assert (Hset : (list_to_set exclude1 : gset Z) = list_to_set exclude2).
  { apply set_eq. intros uid. rewrite !elem_of_list_to_set. apply Hsame. }
  unfold get_random_uids. by rewrite Hset.
Qed.

Lemma get_random_uids_exclude_as_set_witness :
  get_random_uids metagraph4 config0 2 (Some [0; 3; 0]) sampler0
  = get_random_uids metagraph4 config0 2 (Some [3; 0]) sampler0.
Proof.
  apply (get_random_uids_exclude_as_set metagraph4 config0 2 [0; 3; 0] [3; 0]
           sampler0).
  intros uid. rewrite !elem_of_cons, !elem_of_nil. tauto.
Defined.

(** ** The simulated transport, beyond the claims *)

Lemma resume_returns deser timeout deserialize x w t r w' :
  task_ready x w t ->
  single_axon_response_resume deser timeout deserialize t w = (Ok r, w') ->
  r = unit_response deser deserialize w' t.
Proof.
  intros (sy & ti & Hsy & Hti & Hx) Hrun.
  destruct (resume_run deser timeout deserialize t w sy ti Hsy Hti)
    as (w'' & Hrun' & Hs & _); [by rewrite Hx|].
  cbv zeta in *. rewrite Hrun in Hrun'. injection Hrun' as -> <-.
  unfold unit_response. rewrite Hs, lookup_insert_eq. done.
Qed.

Lemma finish_all_full deser timeout deserialize x order :
  forall finished slots w,
    all_separated w (finished ++ order) ->
    NoDup (task_index <$> finished ++ order) ->
    Forall (task_ready x w) order ->
    Forall (fun t =>
      classified timeout x w t
      /\ ((task_index t < length slots)%nat ->
            slots !! task_index t
            = Some (Some (unit_response deser deserialize w t)))) finished ->
    exists slots' w',
      finish_all deser timeout deserialize order slots w = (Ok slots', w')
      /\ length slots' = length slots
      /\ Forall (fun t =>
           classified timeout x w' t
           /\ ((task_index t < length slots)%nat ->
                 slots' !! task_index t
                 = Some (Some (unit_response deser deserialize w' t))))
           (finished ++ order).
Proof.
  induction order as [|t rest IH]; intros finished slots w Hsep Hidx Hready Hdone.
  - exists slots, w. rewrite app_nil_r. done.
  - pose proof Hready as Hready0.
    apply Forall_cons in Hready as [Ht Hrest].
    destruct (resume_classifies deser timeout deserialize x w t Ht)
      as (r & w1 & Hrun & Hclass & Hptr & Hframe).
    pose proof (resume_returns _ _ _ _ _ _ _ _ Ht Hrun) as Hr.
    destruct Hsep as [Hnd Hpairs].
    assert (Hother : forall t', t' ∈ finished ++ rest ->
              separated w t t' /\ task_index t' <> task_index t).
    { intros t' Ht'.
      assert (Hne : t <> t').
      { intros <-. apply NoDup_app in Hnd as (_ & Hdisj & Hnd2).
        apply elem_of_app in Ht' as [Hf|Hr'].
        - apply (Hdisj t Hf). by left.
        - by apply NoDup_cons in Hnd2 as [? _]. }
      assert (Hin : t' ∈ finished ++ t :: rest).
      { apply elem_of_app in Ht' as [?|?]; apply elem_of_app; [by left|].
        right. by right. }
      assert (Hint : t ∈ finished ++ t :: rest).
      { apply elem_of_app. right. by left. }
      split; [by apply Hpairs|].
      intros Heq. apply Hne.
      apply list_elem_of_lookup in Hin as [i Hi].
      apply list_elem_of_lookup in Hint as [j Hj].
      assert (i = j); [|congruence].
      apply (NoDup_lookup _ i j (task_index t) Hidx).
      - rewrite list_lookup_fmap, Hi. simpl. by rewrite Heq.
      - by rewrite list_lookup_fmap, Hj. }
    assert (Hkeep : forall t', t' ∈ finished ++ rest ->
              unit_response deser deserialize w1 t'
              = unit_response deser deserialize w t'
              /\ (classified timeout x w t' -> classified timeout x w1 t')
              /\ (task_ready x w t' -> task_ready x w1 t')).
    { intros t' Ht'. destruct (Hother t' Ht') as [Hsept _].
      split; [|split].
      - unfold unit_response. destruct deserialize; [|done].
        destruct (synapses w !! task_s t') as [sy'|] eqn:Hsy'.
        + destruct (Hframe t' sy' Hsept Hsy') as [-> _]. done.
        + destruct (synapses w1 !! task_s t') as [sy1|] eqn:Hsy1; [|done].
          pose proof (Hptr (task_s t')) as Hp. rewrite Hsy', Hsy1 in Hp. done.
      - intros (sy' & ti' & e' & Hsy' & Hti' & Hrest').
        destruct (Hframe t' sy' Hsept Hsy') as [H1 H2].
        exists sy', ti', e'. split; [done|]. split; [congruence|done].
      - intros (sy' & ti' & Hsy' & Hti' & Hx').
        destruct (Hframe t' sy' Hsept Hsy') as [H1 H2].
        exists sy', ti'. split; [done|]. split; [congruence|done]. }
    destruct (IH (finished ++ [t]) (<[task_index t := Some r]> slots) w1)
      as (slots' & w2 & Hrun2 & Hlen & Hall).
    + rewrite <- app_assoc. simpl. split; [done|].
      intros t1 t2 H1 H2 Hne. destruct (Hpairs t1 t2 H1 H2 Hne) as [Ha Hb].
      split; [done|]. by rewrite !Hptr.
    + by rewrite <- app_assoc.
    + rewrite Forall_forall in Hrest. apply Forall_forall. intros t' Ht'.
      apply Hkeep; [|by apply Hrest]. apply elem_of_app. by right.
    + apply Forall_app. split.
      * rewrite Forall_forall in Hdone. apply Forall_forall. intros t' Ht'.
        destruct (Hdone t' Ht') as [Hc Hslot].
        assert (Hin : t' ∈ finished ++ rest) by (apply elem_of_app; by left).
        destruct (Hkeep t' Hin) as (Hresp & Hkc & _).
        destruct (Hother t' Hin) as [_ Hne].
        split; [by apply Hkc|]. rewrite length_insert. intros Hlt.
        rewrite list_lookup_insert_ne by done. rewrite Hresp. by apply Hslot.
      * constructor; [|done]. split; [done|].
        rewrite length_insert. intros Hlt.
        rewrite list_lookup_insert_eq by done. by rewrite Hr.
    + rewrite length_insert in Hlen, Hall.
      exists slots', w2. cbn [finish_all]. erewrite bind_ok by exact Hrun.
      split; [done|]. split; [done|]. by rewrite <- app_assoc in Hall.
Qed.

(** What a call of the transport on a message with [dummy_input = x] comes
    to: one unit per peer, every unit classified, each response the one of
    the unit at its position, and nothing that existed before changed. *)
Lemma query_all_axons_classified
    pre deser self synapse timeout deserialize axons w sy0 x :
  preprocess_contract pre ->
  synapses w !! synapse = Some sy0 -> dummy_input sy0 = Some x ->
  exists tasks w1 rs w',
    start_all pre self synapse timeout (enumerate axons) w = (Ok tasks, w1)
    /\ query_all_axons pre deser self synapse timeout deserialize axons w
       = (Ok rs, w')
    /\ length tasks = length axons
    /\ rs = unit_response deser deserialize w' <$> tasks
    /\ Forall (classified timeout x w') tasks
    /\ orig_kept w w'.
Proof.
  intros Hpre Hsy0 Hx.
  assert (Hin : synapse ∈ dom (synapses w)) by (apply elem_of_dom; eauto).
  destruct (start_all_spec pre self synapse timeout w (enumerate axons) w Hpre
              (orig_kept_refl w) Hin)
    as (tasks & w1 & Hstart & Hidx & _).
  unfold enumerate in Hidx. rewrite fst_enumerate_from in Hidx.
  assert (Hlen : length tasks = length axons).
  { rewrite <- (length_fmap task_index), Hidx. apply length_seq. }
  destruct (query_all_axons_spec pre deser self synapse timeout deserialize axons w
              Hpre Hin)
    as (tasks_ & w1_ & res & w' & Hstart_ & Hrun & Hkept & _ & _ & Hret & _).
  rewrite Hstart in Hstart_. injection Hstart_ as <- <-.
  destruct (start_all_ready pre self synapse timeout sy0 x (enumerate axons) w
              Hpre Hsy0 Hx)
    as (tasks' & w1' & Hstart' & _ & _ & Hready & Hsep).
  rewrite Hstart in Hstart'. injection Hstart' as <- <-.
  assert (Hperm : completion_order tasks ≡ₚ tasks)
    by apply merge_sort_Permutation.
  destruct (finish_all_full deser timeout deserialize x (completion_order tasks)
              [] (replicate (length axons) None) w1)
    as (slots & w2 & Hfin & Hslen & Hall).
  { simpl. destruct Hsep as [Hnd Hpairs]. split; [by rewrite Hperm|].
    intros t t' Ht Ht'. rewrite Hperm in Ht, Ht'. by apply Hpairs. }
  { simpl. rewrite Hperm, Hidx. apply NoDup_seq. }
  { by rewrite Hperm. }
  { constructor. }
  destruct (Hret slots w2 Hfin) as (rs & -> & ->).
  rewrite length_replicate in Hslen, Hall. simpl in Hall.
  rewrite Hperm in Hall. rewrite Forall_forall in Hall.
  unfold query_all_axons in Hrun.
  erewrite bind_ok in Hrun by exact Hstart.
  erewrite bind_ok in Hrun by exact Hfin.
  destruct (collect_filled slots) as (rs' & Hcollect & Hslots).
  { intros i Hi. rewrite Hslen in Hi.
    destruct (lookup_lt_is_Some_2 tasks i) as [t Ht]; [lia|].
    assert (Hti : task_index t = i).
    { assert (H : (task_index <$> tasks) !! i = Some (task_index t))
        by (by rewrite list_lookup_fmap, Ht).
      rewrite Hidx in H. apply lookup_seq in H as [-> _]. done. }
    destruct (Hall t) as [_ Hslot]; [by eapply list_elem_of_lookup_2|].
    rewrite Hti in Hslot. eexists. apply Hslot. lia. }
  rewrite Hcollect in Hrun. unfold ret in Hrun. injection Hrun as <-.
  exists tasks, w1, rs', w2. split; [done|]. split.
  { unfold query_all_axons. erewrite bind_ok by exact Hstart.
    erewrite bind_ok by exact Hfin. by rewrite Hcollect. }
  split; [done|]. split; [|split; [|done]].
  - apply list_eq. intros i. rewrite list_lookup_fmap.
    destruct (tasks !! i) as [t|] eqn:Ht; simpl.
    + assert (Hti : task_index t = i).
      { assert (H : (task_index <$> tasks) !! i = Some (task_index t))
          by (by rewrite list_lookup_fmap, Ht).
        rewrite Hidx in H. apply lookup_seq in H as [-> _]. done. }
      destruct (Hall t) as [_ Hslot]; [by eapply list_elem_of_lookup_2|].
      rewrite Hti in Hslot.
      assert (Hi : (i < length axons)%nat).
      { rewrite <- Hlen. by eapply lookup_lt_Some. }
      specialize (Hslot Hi). rewrite Hslots, list_lookup_fmap in Hslot.
      destruct (rs' !! i); simpl in Hslot; congruence.
    + apply lookup_ge_None. apply lookup_ge_None in Ht.
      assert (length rs' = length slots) by (by rewrite Hslots, length_fmap).
      lia.
  - apply Forall_forall. intros t Ht. by apply Hall.
Qed.

Lemma forward_classifies_every_unit_witness :
  exists tasks w1 rs w',
    start_all dendrite_preprocess mock01 1%positive (1 # 10)%Q
      (enumerate [axon_up; axon_down])
      (net0 [0; 0; (1 # 20); (1 # 2)]%Q [(1 # 2); (1 # 50)]%Q) = (Ok tasks, w1)
    /\ forward dendrite_preprocess dummy_deserialize mock01 1%positive (1 # 10)%Q
         true [axon_up; axon_down] true false
         (net0 [0; 0; (1 # 20); (1 # 2)]%Q [(1 # 2); (1 # 50)]%Q) = (Ok rs, w')
    /\ length tasks = length [axon_up; axon_down]
    /\ Forall (classified (1 # 10)%Q 42 w') tasks.
Proof.
  apply (forward_classifies_every_unit dendrite_preprocess dummy_deserialize mock01
           1%positive (1 # 10)%Q true [axon_up; axon_down] true
           (net0 [0; 0; (1 # 20); (1 # 2)]%Q [(1 # 2); (1 # 50)]%Q) dummy42 42).
  - exact dendrite_preprocess_contract.
  - vm_compute. reflexivity.
  - reflexivity.
Defined.

(** X8: called with [deserialize=True] on a [Dummy] message of input [x], the
    transport returns one value per peer, each either twice the input (a
    success) or the input itself (a timeout). *)
Theorem forward_deserialized_responses
    pre self synapse timeout axons run_async w sy0 x :
  preprocess_contract pre ->
  synapses w !! synapse = Some sy0 -> dummy_input sy0 = Some x ->
  exists rs w',
    forward pre dummy_deserialize self synapse timeout true axons run_async false w
    = (Ok rs, w')
    /\ length rs = length axons
    /\ Forall (fun r => r = RValue (Some (2 * x)) \/ r = RValue (Some x)) rs.
Proof.
  intros Hpre Hsy0 Hx.
  destruct (query_all_axons_classified pre dummy_deserialize self synapse timeout
              true axons w sy0 x Hpre Hsy0 Hx)
    as (tasks & w1 & rs & w' & _ & Hrun & Hlen & Hrs & Hclass & _).
  exists rs, w'. split; [exact Hrun|]. subst rs.
  split; [by rewrite length_fmap|].
  apply Forall_fmap. eapply Forall_impl; [exact Hclass|].
  intros t (sy & ti & e & Hsy & _ & _ & Hlate & Hok). simpl.
  unfold unit_response, dummy_deserialize. rewrite Hsy.
  destruct (Qle_bool timeout e) eqn:Hle.
  - right. apply Qle_bool_iff in Hle. destruct (Hlate Hle) as (_ & _ & ->). done.
  - left. destruct Hok as (_ & _ & ->); [|done].
    intros Hc. apply Qle_bool_iff in Hc. congruence.
Qed.

Lemma forward_deserialized_responses_witness :
  exists rs w',
    forward dendrite_preprocess dummy_deserialize mock01 1%positive (1 # 10)%Q
      true [axon_up; axon_down] true false
      (net0 [0; 0; (1 # 20); (1 # 2)]%Q [(1 # 2); (1 # 50)]%Q) = (Ok rs, w')
    /\ length rs = length [axon_up; axon_down]
    /\ Forall (fun r => r = RValue (Some (2 * 42)) \/ r = RValue (Some 42)) rs.
Proof.
  apply (forward_deserialized_responses dendrite_preprocess mock01 1%positive
           (1 # 10)%Q [axon_up; axon_down] true
           (net0 [0; 0; (1 # 20); (1 # 2)]%Q [(1 # 2); (1 # 50)]%Q) dummy42 42).
  - exact dendrite_preprocess_contract.
  - vm_compute. reflexivity.
  - reflexivity.
Defined.

(** X9: called on no peer, the transport returns the empty list at once: no
    copy of the message is made, no clock reading and no draw consumed. *)
Theorem forward_no_axons pre deser self synapse timeout deserialize run_async w :
  forward pre deser self synapse timeout deserialize [] run_async false w
  = (Ok [], w).
Proof. reflexivity. Qed.

(** ** The validator's cycle, beyond the claims *)

(** X10: when the sample size is 0 or no peer is eligible, the cycle logs one
    warning and returns: the transport is not called, the scores are not
    touched, the generator is not drawn from. *)
Theorem forward_skips_without_miners {T R}
    (dendrite : list bt.AxonInfo -> Z -> bool -> Q -> M T (list R))
    get_rewards update_scores self st :
  wf_metagraph (validator.metagraph self) ->
  0 <= neuron.sample_size (validator.config self) ->
  neuron.sample_size (validator.config self) = 0
  \/ eligible (validator.metagraph self)
       (neuron.vpermit_tao_limit (validator.config self)) = [] ->
  validator.forward dendrite get_rewards update_scores self st
  = (Ok tt,
     {| validator.sampler :=
          {| tape := tape (validator.sampler st);
             reads := reads (validator.sampler st)
                      ++ range (bt.n (validator.metagraph self)) |};
        validator.net := validator.net st;
        validator.scores := validator.scores st;
        validator.events :=
          validator.events st
          ++ [Log_warning "No available miners to query. Skipping forward pass."] |}).
Proof.
  intros Hwf Hk Hz.
  unfold validator.forward, try_except, validator.forward_body.
  erewrite bind_ok; last first.
  { unfold validator.on_sampler.
    rewrite (get_random_uids_zero _ _ _ None _ Hwf Hk Hz). reflexivity. }
  reflexivity.
Qed.

Lemma forward_skips_without_miners_witness :
  validator.forward (mock_dendrite mock01) get_rewards store_rewards
    {| validator.metagraph := metagraph4;
       validator.config :=
         {| neuron.vpermit_tao_limit := 1024; neuron.sample_size := 0;
            neuron.timeout := (12 # 1)%Q |};
       validator.step := 42 |} state0
  = (Ok tt,
     {| validator.sampler :=
          {| tape := tape (validator.sampler state0);
             reads := reads (validator.sampler state0) ++ range (bt.n metagraph4) |};
        validator.net := validator.net state0;
        validator.scores := validator.scores state0;
        validator.events :=
          validator.events state0
          ++ [Log_warning "No available miners to query. Skipping forward pass."] |}).
Proof.
  apply (forward_skips_without_miners (mock_dendrite mock01) get_rewards
           store_rewards).
  - repeat split.
  - simpl. lia.
  - by left.
Defined.

(** X11: a failure of the transport is not swallowed: the cycle logs it once
    as an error and raises it again, without calling [update_scores] and with
    the scores as they were. *)
Theorem forward_reraises_transport_failure {T R}
    (dendrite : list bt.AxonInfo -> Z -> bool -> Q -> M T (list R))
    get_rewards update_scores self st uids smp axons e w :
  get_random_uids (validator.metagraph self) (validator.config self)
    (neuron.sample_size (validator.config self)) None (validator.sampler st)
  = (Ok uids, smp) ->
  uids <> [] ->
  result_map (getitem (bt.axons (validator.metagraph self))) uids = Ok axons ->
  dendrite axons (validator.step self) true
    (neuron.timeout (validator.config self)) (validator.net st)
  = (Raise e, w) ->
  validator.forward dendrite get_rewards update_scores self st
  = (Raise e,
     {| validator.sampler := smp; validator.net := w;
        validator.scores := validator.scores st;
        validator.events := validator.events st ++ [Log_error e] |}).
Proof.
  intros Hsample Hne Haxons Hsend.
  unfold validator.forward, try_except, validator.forward_body.
  erewrite bind_ok; last first.
  { unfold validator.on_sampler. rewrite Hsample. reflexivity. }
  destruct (len uids =? 0) eqn:Hz.
  { apply len_zero_iff in Hz. done. }
  erewrite bind_ok; last first.
  { unfold lift. rewrite Haxons. reflexivity. }
  erewrite bind_raise; last first.
  { unfold validator.on_net. simpl. rewrite Hsend. reflexivity. }
  reflexivity.
Qed.

Lemma forward_reraises_transport_failure_witness :
  validator.forward
    (fun (_ : list bt.AxonInfo) (_ : Z) (_ : bool) (_ : Q) =>
       (raise (RuntimeError "connection refused") : M Net (list response)))
    get_rewards store_rewards neuron0 state0
  = (Raise (RuntimeError "connection refused"),
     {| validator.sampler := {| tape := [1; 4]%nat; reads := [0; 1; 2; 3] |};
        validator.net := validator.net state0;
        validator.scores := validator.scores state0;
        validator.events :=
          validator.events state0
          ++ [Log_error (RuntimeError "connection refused")] |}).
Proof.
  apply (forward_reraises_transport_failure
           (fun (_ : list bt.AxonInfo) (_ : Z) (_ : bool) (_ : Q) =>
              (raise (RuntimeError "connection refused") : M Net (list response)))
           get_rewards store_rewards neuron0 state0 [2; 0]
           {| tape := [1; 4]%nat; reads := [0; 1; 2; 3] |} [axon_up; axon_up]).
  - vm_compute. reflexivity.
  - discriminate.
  - vm_compute. reflexivity.
  - reflexivity.
Defined.

(** X12: a negative [sample_size] makes the cycle fail with the sampler's
    [ValueError], logged once as an error and raised again, before the
    transport is called. *)
Theorem forward_rejects_negative_sample_size {T R}
    (dendrite : list bt.AxonInfo -> Z -> bool -> Q -> M T (list R))
    get_rewards update_scores self st :
  wf_metagraph (validator.metagraph self) ->
  neuron.sample_size (validator.config self) < 0 ->
  validator.forward dendrite get_rewards update_scores self st
  = (Raise (ValueError "Sample larger than population or is negative"),
     {| validator.sampler :=
          {| tape := tape (validator.sampler st);
             reads := reads (validator.sampler st)
                      ++ range (bt.n (validator.metagraph self)) |};
        validator.net := validator.net st;
        validator.scores := validator.scores st;
        validator.events :=
          validator.events st
          ++ [Log_error
                (ValueError "Sample larger than population or is negative")] |}).
Proof.
  intros Hwf Hk.
  unfold validator.forward, try_except, validator.forward_body.
  erewrite bind_raise; last first.
  { unfold validator.on_sampler.
    rewrite (get_random_uids_negative _ _ _ None _ Hwf Hk). reflexivity. }
  reflexivity.
Qed.

Lemma forward_rejects_negative_sample_size_witness :
  validator.forward (mock_dendrite mock01) get_rewards store_rewards
    {| validator.metagraph := metagraph4;
       validator.config :=
         {| neuron.vpermit_tao_limit := 1024; neuron.sample_size := -1;
            neuron.timeout := (12 # 1)%Q |};
       validator.step := 42 |} state0
  = (Raise (ValueError "Sample larger than population or is negative"),
     {| validator.sampler :=
          {| tape := tape (validator.sampler state0);
             reads := reads (validator.sampler state0) ++ range (bt.n metagraph4) |};
        validator.net := validator.net state0;
        validator.scores := validator.scores state0;
        validator.events :=
          validator.events state0
          ++ [Log_error
                (ValueError "Sample larger than population or is negative")] |}).
Proof.
  apply (forward_rejects_negative_sample_size (mock_dendrite mock01) get_rewards
           store_rewards).
  - repeat split.
  - simpl. lia.
Defined.

Lemma count_updates_app l1 l2 :
  count_updates (l1 ++ l2) = (count_updates l1 + count_updates l2)%nat.
Proof.
  induction l1 as [|e l1 IH]; [done|]. destruct e; simpl; by rewrite ?IH.
Qed.

(** X13: whatever the collaborators do, a cycle only adds to the trail of
    events, calls [update_scores] at most once, and leaves the scores as they
    were unless it called it. *)
Theorem forward_updates_at_most_once {T R}
    (dendrite : list bt.AxonInfo -> Z -> bool -> Q -> M T (list R))
    get_rewards update_scores self st :
  exists new,
    validator.events
      (validator.forward dendrite get_rewards update_scores self st).2
    = validator.events st ++ new
    /\ (count_updates new <= 1)%nat
    /\ (count_updates new = 0%nat ->
        validator.scores
          (validator.forward dendrite get_rewards update_scores self st).2
        = validator.scores st).
Proof.
  remember (validator.forward dendrite get_rewards update_scores self st)
    as res eqn:Hres.
  unfold validator.forward, try_except, validator.forward_body in Hres.
  cbv beta iota zeta delta
    [bind lift ret raise validator.on_sampler validator.on_net validator.emit
     validator.call_update_scores] in Hres.
  destruct (get_random_uids _ _ _ _ _) as [[uids|e] smp];
    cbv beta iota in Hres.
  2: { subst res. exists [Log_error e]. simpl.
       repeat split; first [reflexivity | lia]. }
  destruct (len uids =? 0); cbv beta iota in Hres.
  { subst res. eexists [_]. simpl. repeat split; first [reflexivity | lia]. }
  destruct (result_map _ uids) as [axons|e]; cbv beta iota in Hres.
  2: { subst res. exists [Log_error e]. simpl.
       repeat split; first [reflexivity | lia]. }
  simpl in Hres.
  destruct (dendrite _ _ _ _ _) as [[responses|e] w]; simpl in Hres.
  2: { subst res. exists [Log_error e]. simpl.
       repeat split; first [reflexivity | lia]. }
  destruct (get_rewards _ _) as [rewards|e]; simpl in Hres.
  2: { subst res. eexists [_; Log_error e]. simpl. rewrite <- app_assoc.
       repeat split; first [reflexivity | lia]. }
  destruct (0 <? len rewards); simpl in Hres.
  - destruct (update_scores _ _ _) as [sc|e]; simpl in Hres; subst res; simpl.
    + eexists [_; _; Update_scores rewards uids]. rewrite <- !app_assoc. simpl.
      repeat split; first [reflexivity | lia].
    + eexists [_; _; Update_scores rewards uids; Log_error e].
      rewrite <- !app_assoc. simpl.
      repeat split; first [reflexivity | lia].
  - subst res. simpl. eexists [_; _]. rewrite <- app_assoc. simpl.
    repeat split; first [reflexivity | lia].
Qed.

(** ** The API client of the stub protocol *)

Lemma response_status_code_run s w sy ti :
  synapses w !! s = Some sy -> terminals w !! dendrite sy = Some ti ->
  response_status_code (RSynapse s) w = (Ok (status_code ti), w).
Proof.
  intros Hsy Hti. unfold response_status_code, bind, read_synapse, read_terminal.
  by rewrite Hsy, Hti.
Qed.

Lemma process_classified timeout x w tasks :
  Forall (classified timeout x w) tasks ->
  forall outputs,
    exists outs,
      process_responses_from ((fun t => RSynapse (task_s t)) <$> tasks) outputs w
      = (Ok (outputs ++ outs), w)
      /\ Forall (fun v => v = 2 * x) outs
      /\ (length outs <= length tasks)%nat.
Proof.
  induction 1 as [|t tasks Ht _ IH]; intros outputs.
  - exists []. simpl. rewrite app_nil_r. done.
  - destruct Ht as (sy & ti & e & Hsy & Hti & _ & Hlate & Hok).
    rewrite fmap_cons. cbn [process_responses_from].
    erewrite bind_ok by (by eapply response_status_code_run).
    destruct (Qle_bool timeout e) eqn:Hle.
    + apply Qle_bool_iff in Hle. destruct (Hlate Hle) as (-> & _).
      simpl. destruct (IH outputs) as (outs & Hrun & Hall & Hlen).
      exists outs. split; [done|]. split; [done|]. simpl. lia.
    + destruct Hok as (-> & _ & Hout).
      { intros Hc. apply Qle_bool_iff in Hc. congruence. }
      simpl. unfold bind at 1, response_dummy_output, bind, read_synapse, ret.
      rewrite Hsy, Hout.
      destruct (IH (outputs ++ [2 * x])) as (outs & Hrun & Hall & Hlen).
      exists (2 * x :: outs). rewrite Hrun. rewrite <- app_assoc.
      split; [done|]. split; [by constructor|]. simpl. lia.
Qed.

(** X14: what the API client extracts from the answers of the transport to a
    [Dummy] message of input [x] are values all equal to twice the input, at
    most one per peer: the echo of a unit that timed out is never returned. *)
Theorem process_responses_after_forward
    pre deser self synapse timeout axons run_async w sy0 x :
  preprocess_contract pre ->
  synapses w !! synapse = Some sy0 -> dummy_input sy0 = Some x ->
  exists rs w' outs,
    forward pre deser self synapse timeout false axons run_async false w
    = (Ok rs, w')
    /\ process_responses rs w' = (Ok outs, w')
    /\ Forall (fun v => v = 2 * x) outs
    /\ (length outs <= length axons)%nat.
Proof.
  intros Hpre Hsy0 Hx.
  destruct (query_all_axons_classified pre deser self synapse timeout
              false axons w sy0 x Hpre Hsy0 Hx)
    as (tasks & w1 & rs & w' & _ & Hrun & Hlen & Hrs & Hclass & _).
  destruct (process_classified timeout x w' tasks Hclass []) as (outs & Hp & Hall & Hl).
  exists rs, w', outs. split; [exact Hrun|]. subst rs.
  split; [exact Hp|]. split; [done|]. lia.
Qed.

Lemma process_responses_after_forward_witness :
  exists rs w' outs,
    forward dendrite_preprocess dummy_deserialize mock01 1%positive (1 # 10)%Q
      false [axon_up; axon_down] true false
      (net0 [0; 0; (1 # 20); (1 # 2)]%Q [(1 # 2); (1 # 50)]%Q) = (Ok rs, w')
    /\ process_responses rs w' = (Ok outs, w')
    /\ Forall (fun v => v = 2 * 42) outs
    /\ (length outs <= length [axon_up; axon_down])%nat.
Proof.
  apply (process_responses_after_forward dendrite_preprocess dummy_deserialize
           mock01 1%positive (1 # 10)%Q [axon_up; axon_down] true
           (net0 [0; 0; (1 # 20); (1 # 2)]%Q [(1 # 2); (1 # 50)]%Q) dummy42 42).
  - exact dendrite_preprocess_contract.
  - vm_compute. reflexivity.
  - reflexivity.
Defined.

Example run_process_responses :
  let run := forward dendrite_preprocess dummy_deserialize mock01 1%positive
               (1 # 10)%Q false [axon_up; axon_down] true false
               (net0 [0; 0; (1 # 20); (1 # 2)]%Q [(1 # 2); (1 # 50)]%Q) in
  match run.1 with
  | Ok rs => (process_responses rs run.2).1 = Ok [84]
  | Raise _ => False
  end.
Proof. vm_compute. reflexivity. Qed.

(** ** Pinging and choosing the nodes to query *)

Lemma response_status_code_pure r w :
  response_status_code r w = (status_in w r, w).
Proof.
  unfold status_in. destruct r as [s|v]; [|done].
  unfold response_status_code, bind, read_synapse, read_terminal, ret.
  destruct (synapses w !! s) as [sy|]; [|done].
  by destruct (terminals w !! dendrite sy).
Qed.

Lemma select_uids_run keep w pairs :
  Forall (fun p : Z * response => is_ok (status_in w p.2) = true) pairs ->
  select_uids keep pairs w
  = (Ok (filter (fun p => match status_in w p.2 with
                          | Ok code => keep code
                          | Raise _ => false
                          end = true) pairs).*1, w).
Proof.
  induction 1 as [|[uid r] pairs Hr _ IH]; [done|].
  cbn [select_uids]. unfold bind at 1. rewrite response_status_code_pure.
  simpl in Hr. rewrite filter_cons. simpl.
  destruct (status_in w r) as [code|]; [|done].
  unfold bind. rewrite IH. unfold ret.
  by destruct (keep code).
Qed.

Lemma select_uids_sublist keep pairs : forall w l w',
  select_uids keep pairs w = (Ok l, w') -> l `sublist_of` pairs.*1.
Proof.
  induction pairs as [|[uid r] pairs IH]; intros w l w' Hrun.
  - injection Hrun as <- _. done.
  - cbn [select_uids] in Hrun. unfold bind at 1 in Hrun.
    rewrite response_status_code_pure in Hrun.
    destruct (status_in w r) as [code|]; [|done].
    unfold bind in Hrun.
    destruct (select_uids keep pairs w) as [[l0|] w0] eqn:Hrest; [|done].
    unfold ret in Hrun. injection Hrun as <- _.
    apply IH in Hrest. rewrite fmap_cons. simpl.
    destruct (keep code); [by apply sublist_skip|by apply sublist_cons].
Qed.

Lemma filter_ext_Forall {A} (P1 P2 : A -> Prop)
    `{!forall x, Decision (P1 x)} `{!forall x, Decision (P2 x)} (l : list A) :
  Forall (fun x => P1 x <-> P2 x) l -> filter P1 l = filter P2 l.
Proof.
  induction 1 as [|x l Hx _ IH]; [done|].
  rewrite !filter_cons, IH.
  destruct (decide (P1 x)), (decide (P2 x)); tauto.
Qed.

Lemma fst_zip_take {A B} (l : list A) (k : list B) :
  (zip l k).*1 = take (length k) l.
Proof.
  revert k. induction l as [|x l IH]; intros [|y k]; simpl; try done.
  by rewrite IH.
Qed.

Lemma result_map_getitem_ok {A} (l : list A) (uids : list Z) :
  Forall (fun uid => ~ out_of_range l uid) uids ->
  exists xs, result_map (getitem l) uids = Ok xs /\ length xs = length uids.
Proof.
  induction 1 as [|uid uids Hu _ (xs & Hxs & Hlen)]; [by exists []|].
  destruct (getitem_in l uid) as [x Hx].
  { unfold out_of_range in Hu. lia. }
  exists (x :: xs). simpl. rewrite Hx, Hxs. split; [done|]. simpl. lia.
Qed.

Lemma result_map_getitem_raise {A} (l : list A) (uids : list Z) :
  Exists (out_of_range l) uids ->
  result_map (getitem l) uids = Raise IndexError.
Proof.
  induction uids as [|uid uids IH]; intros Hex.
  - by apply Exists_nil in Hex.
  - simpl. destruct (decide (- len l <= uid < len l)) as [Hin|Hout].
    + destruct (getitem_in l uid Hin) as [x ->].
      apply Exists_cons in Hex as [Hu|Hrest].
      * unfold out_of_range in Hu. lia.
      * by rewrite IH.
    + rewrite getitem_out; [done|lia].
Qed.

(** A failure of the transport is caught and logged. *)
Lemma ping_uids_caught dendrite metagraph uids timeout st axons e w :
  result_map (getitem (bt.axons metagraph)) uids = Ok axons ->
  (let! s := new_synapse in dendrite axons s false timeout) (api_net st)
  = (Raise e, w) ->
  ping_uids dendrite metagraph uids timeout st
  = (Ok ([], uids),
     {| api_net := w; api_sampler := api_sampler st;
        api_log := api_log st
                   ++ [Ping_error e; Ping_successful []; Ping_failed uids] |}).
Proof.
  intros Haxons Hsend. unfold ping_uids.
  erewrite bind_ok by (unfold lift; rewrite Haxons; reflexivity).
  erewrite bind_ok; last first.
  { unfold try_except. erewrite bind_raise; last first.
    { unfold on_api_net. rewrite Hsend. reflexivity. }
    reflexivity. }
  unfold bind, api_emit, ret. simpl. by rewrite <- !app_assoc.
Qed.

(** X15: a failure of the transport does not escape [ping_uids]: it is
    logged, and every uid is reported as failed, none as successful. *)
Theorem ping_uids_transport_failure dendrite metagraph uids timeout st axons e w :
  result_map (getitem (bt.axons metagraph)) uids = Ok axons ->
  (let! s := new_synapse in dendrite axons s false timeout) (api_net st)
  = (Raise e, w) ->
  ping_uids dendrite metagraph uids timeout st
  = (Ok ([], uids),
     {| api_net := w; api_sampler := api_sampler st;
        api_log := api_log st
                   ++ [Ping_error e; Ping_successful []; Ping_failed uids] |}).
Proof. apply ping_uids_caught. Qed.

Lemma ping_uids_transport_failure_witness :
  ping_uids
    (fun (_ : list bt.AxonInfo) (_ : positive) (_ : bool) (_ : Q) =>
       (raise (RuntimeError "connection refused") : M Net (list response)))
    metagraph4 [0; 2] (3 # 1)%Q
    {| api_net := empty_net [] []; api_sampler := sampler0; api_log := [] |}
  = (Ok ([], [0; 2]),
     {| api_net := (new_synapse (empty_net [] [])).2;
        api_sampler := sampler0;
        api_log :=
          [] ++ [Ping_error (RuntimeError "connection refused");
                 Ping_successful []; Ping_failed [0; 2]] |}).
Proof.
  destruct (result_map (getitem (bt.axons metagraph4)) [0; 2]) as [axons|e] eqn:Haxons;
    [|discriminate Haxons].
  apply (ping_uids_transport_failure
           (fun (_ : list bt.AxonInfo) (_ : positive) (_ : bool) (_ : Q) =>
              (raise (RuntimeError "connection refused") : M Net (list response)))
           metagraph4 [0; 2] (3 # 1)%Q
           {| api_net := empty_net [] []; api_sampler := sampler0; api_log := [] |}
           axons).
  - exact Haxons.
  - reflexivity.
Defined.

(** X16: when the transport answers, [ping_uids] splits the uids that got a
    response, in order, into those whose response shows status 200 and the
    others; a uid beyond the last response is in neither list. *)
Theorem ping_uids_partitions dendrite metagraph uids timeout st axons responses w :
  result_map (getitem (bt.axons metagraph)) uids = Ok axons ->
  (let! s := new_synapse in dendrite axons s false timeout) (api_net st)
  = (Ok responses, w) ->
  Forall (fun r => is_ok (status_in w r) = true) responses ->
  exists successful failed st',
    ping_uids dendrite metagraph uids timeout st = (Ok (successful, failed), st')
    /\ api_net st' = w
    /\ successful
       = (filter (fun p => answers_200 w p.2 = true) (zip uids responses)).*1
    /\ failed
       = (filter (fun p => ~ answers_200 w p.2 = true) (zip uids responses)).*1
    /\ successful ++ failed ≡ₚ take (length responses) uids.
Proof.
  intros Haxons Hsend Hread.
  assert (Hpairs : Forall (fun p : Z * response => is_ok (status_in w p.2) = true)
                     (zip uids responses)).
  { apply Forall_forall. intros [uid r] Hp. simpl.
    rewrite Forall_forall in Hread. apply Hread.
    apply list_elem_of_lookup in Hp as [i Hi].
    apply lookup_zip_with_Some in Hi as (u & r' & [= -> ->] & _ & Hr).
    by eapply list_elem_of_lookup_2. }
  set (successful :=
    (filter (fun p => answers_200 w p.2 = true) (zip uids responses)).*1).
  set (failed :=
    (filter (fun p => ~ answers_200 w p.2 = true) (zip uids responses)).*1).
  assert (Hs : (filter (fun p : Z * response =>
                  match status_in w p.2 with
                  | Ok code => bool_decide (code = Some 200)
                  | Raise _ => false
                  end = true) (zip uids responses)).*1 = successful) by done.
  assert (Hf : (filter (fun p : Z * response =>
                  match status_in w p.2 with
                  | Ok code => negb (bool_decide (code = Some 200))
                  | Raise _ => false
                  end = true) (zip uids responses)).*1 = failed).
  { unfold failed. f_equal. apply filter_ext_Forall.
    eapply Forall_impl; [exact Hpairs|]. intros [uid r] Hok. simpl in *.
    unfold answers_200. destruct (status_in w r) as [code|]; [|done].
    destruct (bool_decide (code = Some 200)); simpl; split; congruence. }
  exists successful, failed. eexists.
  split; [|split; [|split; [done|split; [done|]]]].
  - unfold ping_uids.
    erewrite bind_ok by (unfold lift; rewrite Haxons; reflexivity).
    erewrite bind_ok; last first.
    { unfold try_except. erewrite bind_ok; last first.
      { unfold on_api_net. rewrite Hsend. reflexivity. }
      erewrite bind_ok; last first.
      { unfold on_api_net. simpl. rewrite select_uids_run by done.
        rewrite Hs. reflexivity. }
      erewrite bind_ok; last first.
      { unfold on_api_net. simpl. rewrite select_uids_run by done.
        rewrite Hf. reflexivity. }
      unfold ret. reflexivity. }
    unfold bind, api_emit, ret. simpl. reflexivity.
  - reflexivity.
  - unfold successful, failed. rewrite <- fmap_app.
    rewrite (filter_app_complement (fun p : Z * response => answers_200 w p.2 = true)).
    by rewrite fst_zip_take.
Qed.

Lemma ping_uids_partitions_witness :
  exists responses w,
    (let! s := new_synapse in
     mock_call mock01 [axon_up; axon_down; axon_up] s false (3 # 1)%Q)
      (empty_net [0; 0; 0; (1 # 20); (1 # 2); (3 # 4)]%Q
         [(1 # 20); (1 # 2); (3 # 4)]%Q)
    = (Ok responses, w)
    /\ exists successful failed st',
         ping_uids (mock_call mock01) metagraph4 [0; 1; 2] (3 # 1)%Q
           {| api_net := empty_net [0; 0; 0; (1 # 20); (1 # 2); (3 # 4)]%Q
                           [(1 # 20); (1 # 2); (3 # 4)]%Q;
              api_sampler := sampler0; api_log := [] |}
         = (Ok (successful, failed), st')
         /\ api_net st' = w
         /\ successful
            = (filter (fun p => answers_200 w p.2 = true)
                 (zip [0; 1; 2] responses)).*1
         /\ failed
            = (filter (fun p => ~ answers_200 w p.2 = true)
                 (zip [0; 1; 2] responses)).*1
         /\ successful ++ failed ≡ₚ take (length responses) [0; 1; 2].
Proof.
  eexists. eexists. split; [vm_compute; reflexivity|].
  apply (ping_uids_partitions (mock_call mock01) metagraph4 [0; 1; 2] (3 # 1)%Q
           {| api_net := empty_net [0; 0; 0; (1 # 20); (1 # 2); (3 # 4)]%Q
                           [(1 # 20); (1 # 2); (3 # 4)]%Q;
              api_sampler := sampler0; api_log := [] |}
           [axon_up; axon_down; axon_up]).
  - reflexivity.
  - vm_compute. reflexivity.
  - repeat constructor.
Defined.

(** X17: the peers are looked up before the [try]: a uid outside the
    registry makes [ping_uids] raise [IndexError] to its caller, with nothing
    sent and nothing logged. *)
Theorem ping_uids_index_error dendrite metagraph uids timeout st :
  Exists (out_of_range (bt.axons metagraph)) uids ->
  ping_uids dendrite metagraph uids timeout st = (Raise IndexError, st).
Proof.
  intros Hex. unfold ping_uids.
  erewrite bind_raise; [reflexivity|].
  unfold lift. by rewrite result_map_getitem_raise.
Qed.

Lemma ping_uids_index_error_witness :
  ping_uids (mock_call mock01) metagraph4 [0; 4] (3 # 1)%Q
    {| api_net := empty_net [] []; api_sampler := sampler0; api_log := [] |}
  = (Raise IndexError,
     {| api_net := empty_net [] []; api_sampler := sampler0; api_log := [] |}).
Proof.
  apply (ping_uids_index_error (mock_call mock01) metagraph4 [0; 4] (3 # 1)%Q).
  apply Exists_cons_tl, Exists_cons_hd. unfold out_of_range. vm_compute.
  right. discriminate.
Defined.

(** Whatever the transport does, a ping of registered uids comes back. *)
Lemma ping_uids_runs dendrite metagraph uids timeout st axons :
  result_map (getitem (bt.axons metagraph)) uids = Ok axons ->
  exists successful failed st',
    ping_uids dendrite metagraph uids timeout st = (Ok (successful, failed), st')
    /\ successful `sublist_of` uids
    /\ failed `sublist_of` uids
    /\ api_sampler st' = api_sampler st.
Proof.
  intros Haxons. unfold ping_uids.
  erewrite bind_ok by (unfold lift; rewrite Haxons; reflexivity).
  generalize (let! s := new_synapse in dendrite axons s false timeout).
  intros send.
  match goal with
  | |- context [try_except ?b ?h] =>
      assert (Htry : exists successful failed st1,
                try_except b h st = (Ok (successful, failed), st1)
                /\ successful `sublist_of` uids
                /\ failed `sublist_of` uids
                /\ api_sampler st1 = api_sampler st)
  end.
  { assert (Hzip : forall responses : list response,
              (zip uids responses).*1 `sublist_of` uids).
    { intros responses. rewrite fst_zip_take. apply sublist_take. }
    unfold try_except, bind, on_api_net, api_emit, ret.
    destruct (send (api_net st)) as [[responses|e] w1]; simpl;
      [|by exists [], uids; eexists; split; [reflexivity|];
           split; [apply sublist_nil_l|]].
    destruct (select_uids _ (zip uids responses) w1) as [[s|e] w2] eqn:Hs; simpl;
      [|by exists [], uids; eexists; split; [reflexivity|];
           split; [apply sublist_nil_l|]].
    destruct (select_uids _ (zip uids responses) w2) as [[f|e] w3] eqn:Hf; simpl;
      [|by exists [], uids; eexists; split; [reflexivity|];
           split; [apply sublist_nil_l|]].
    exists s, f. eexists. split; [reflexivity|].
    apply select_uids_sublist in Hs, Hf.
    split; [by etrans|]. split; [by etrans|done]. }
  destruct Htry as (successful & failed & st1 & Htry & Hs & Hf & Hsmp).
  exists successful, failed. eexists. split; [|split; [exact Hs|split; [exact Hf|]]].
  - erewrite bind_ok by exact Htry. unfold bind, api_emit, ret. simpl. reflexivity.
  - simpl. exact Hsmp.
Qed.



Example run_ping_uids :
  (ping_uids (mock_call mock01) metagraph4 [0; 1; 2] (3 # 1)%Q
     {| api_net := empty_net [0; 0; 0; (1 # 20); (1 # 2); (3 # 4)]%Q
                     [(1 # 20); (1 # 2); (3 # 4)]%Q;
        api_sampler := sampler0; api_log := [] |}).1
  = Ok ([0; 1; 2], []).
Proof. vm_compute. reflexivity. Qed.

(** Under a timeout of a tenth the second unit is late: the transport fails
    on the base-class message that [ping_uids] sends, and every uid is
    reported as failed. *)
Example run_ping_uids_late :
  let run := ping_uids (mock_call mock01) metagraph4 [0; 1; 2] (1 # 10)%Q
               {| api_net := empty_net [0; 0; 0; (1 # 20); (1 # 2); (3 # 4)]%Q
                               [(1 # 20); (1 # 2); (3 # 4)]%Q;
                  api_sampler := sampler0; api_log := [] |} in
  run.1 = Ok ([], [0; 1; 2])
  /\ api_log run.2
     = [Ping_error (ValueError "Synapse object has no field dummy_output");
        Ping_successful []; Ping_failed [0; 1; 2]].
Proof. vm_compute. split; reflexivity. Qed.

Lemma vtrust_uids_of_spec validator_trust uids :
  Forall (fun uid => ~ out_of_range validator_trust uid) uids ->
  exists selected,
    vtrust_uids_of validator_trust uids = Ok selected
    /\ forall uid, uid ∈ selected ->
         uid ∈ uids
         /\ exists trust, getitem validator_trust uid = Ok trust /\ (0 < trust)%Q.
Proof.
  induction 1 as [|uid uids Hu _ (selected & Hsel & Hprop)].
  - exists []. split; [done|]. intros uid Huid. by apply elem_of_nil in Huid.
  - destruct (getitem_in validator_trust uid) as [trust Htrust].
    { unfold out_of_range in Hu. lia. }
    simpl. rewrite Htrust, Hsel.
    eexists. split; [reflexivity|]. intros uid' Huid'.
    destruct (Qle_bool trust 0) eqn:Hle; simpl in Huid'.
    + destruct (Hprop uid' Huid') as [Hin Ht]. split; [by right|exact Ht].
    + apply elem_of_cons in Huid' as [-> | Huid'].
      * split; [by left|]. exists trust. split; [done|].
        apply Qnot_le_lt. intros Hq. apply Qle_bool_iff in Hq. congruence.
      * destruct (Hprop uid' Huid') as [Hin Ht]. split; [by right|exact Ht].
Qed.

Lemma where_above_range S q uid :
  uid ∈ where_above S q -> 0 <= uid < len S.
Proof.
  unfold where_above, range. intros Hin.
  apply list_elem_of_filter in Hin as [_ Hin].
  apply elem_of_seqZ in Hin. lia.
Qed.

Lemma list_of_set_perm set_order (s : gset Z) :
  list_of_set set_order s ≡ₚ elements s.
Proof. apply merge_sort_Permutation. Qed.

Lemma elem_of_list_of_set set_order (s : gset Z) uid :
  uid ∈ list_of_set set_order s <-> uid ∈ s.
Proof. by rewrite list_of_set_perm, elem_of_elements. Qed.

Lemma NoDup_list_of_set set_order (s : gset Z) : NoDup (list_of_set set_order s).
Proof. rewrite list_of_set_perm. apply NoDup_elements. Qed.

Lemma get_query_api_nodes_spec dendrite np_quantile set_order metagraph n timeout st :
  Forall (fun uid => ~ out_of_range (apimeta.validator_trust metagraph) uid)
    (apimeta.uids metagraph) ->
  len (bt.S (apimeta.base metagraph)) <= len (bt.axons (apimeta.base metagraph)) ->
  exists query_uids st',
    get_query_api_nodes dendrite np_quantile set_order metagraph n timeout st
    = (Ok query_uids, st')
    /\ (length query_uids <= 3)%nat
    /\ NoDup query_uids
    /\ forall uid, uid ∈ query_uids ->
         uid ∈ where_above (bt.S (apimeta.base metagraph))
                 (np_quantile (bt.S (apimeta.base metagraph)) (1 - n)%Q)
         /\ uid ∈ apimeta.uids metagraph
         /\ exists trust,
              getitem (apimeta.validator_trust metagraph) uid = Ok trust
              /\ (0 < trust)%Q.
Proof.
  intros Htrust Hlen.
  destruct (vtrust_uids_of_spec _ _ Htrust) as (vtrust_uids & Hsel & Hvt).
  unfold get_query_api_nodes.
  erewrite bind_ok by (unfold api_emit; reflexivity).
  erewrite bind_ok by (unfold lift; rewrite Hsel; reflexivity).
  cbv zeta.
  set (S := bt.S (apimeta.base metagraph)) in *.
  set (top_uids := where_above S (np_quantile S (1 - n)%Q)).
  set (init := list_of_set set_order
                 (list_to_set top_uids ∩ list_to_set vtrust_uids : gset Z)).
  assert (Hinit : forall uid, uid ∈ init -> uid ∈ top_uids /\ uid ∈ vtrust_uids).
  { intros uid Huid. apply elem_of_list_of_set, elem_of_intersection in Huid.
    by rewrite !elem_of_list_to_set in Huid. }
  assert (Hreg : Forall (fun uid => ~ out_of_range (bt.axons (apimeta.base metagraph)) uid)
                   init).
  { apply Forall_forall. intros uid Huid.
    apply Hinit in Huid as [Htop _]. apply where_above_range in Htop.
    unfold out_of_range. fold S in Hlen. lia. }
  destruct (result_map_getitem_ok _ _ Hreg) as (axons & Haxons & _).
  destruct (ping_uids_runs dendrite (apimeta.base metagraph) init timeout
              {| api_net := api_net st; api_sampler := api_sampler st;
                 api_log := api_log st ++ [Fetching_nodes (apimeta.netuid metagraph)] |}
              axons Haxons)
    as (successful & failed & st1 & Hping & Hs & _ & _).
  erewrite bind_ok by exact Hping.
  erewrite bind_ok by (unfold api_emit; reflexivity).
  simpl.
  assert (Hnd : NoDup successful).
  { eapply sublist_NoDup; [|exact Hs]. apply NoDup_list_of_set. }
  assert (Hmem : forall uid, uid ∈ successful ->
            uid ∈ top_uids
            /\ uid ∈ apimeta.uids metagraph
            /\ exists trust,
                 getitem (apimeta.validator_trust metagraph) uid = Ok trust
                 /\ (0 < trust)%Q).
  { intros uid Huid. eapply elem_of_sublist in Huid; [|exact Hs].
    apply Hinit in Huid as [Htop Hv]. split; [exact Htop|]. by apply Hvt. }
  destruct (3 <? len successful) eqn:Hmany.
  - apply Z.ltb_lt in Hmany.
    match goal with
    | |- context [on_api_sampler _ ?s] =>
        destruct (random_sample_ok successful 3 (api_sampler s))
          as (res & smp & Hrun & _ & Hres & Hsub); [lia|]
    end.
    exists res. eexists. split.
    { unfold on_api_sampler. rewrite Hrun. reflexivity. }
    split; [unfold len in Hres; lia|].
    split; [by eapply submseteq_NoDup_inv|].
    intros uid Huid. apply Hmem. by eapply elem_of_submseteq.
  - apply Z.ltb_ge in Hmany.
    exists successful. eexists. split; [reflexivity|].
    split; [unfold len in Hmany; lia|]. split; [exact Hnd|exact Hmem].
Qed.

(** X19: [get_query_api_nodes] returns at most three uids, all different;
    each of them has a stake above the quantile, is listed in
    [metagraph.uids] and has a positive validator trust. It returns
    whatever the transport does and in whatever order the set of uids is
    listed, provided the arrays of the registry cover the uids and
    [np.quantile] is defined ([S] not empty, [n] in [[0, 1]]). *)
Theorem get_query_api_nodes_selects
    dendrite np_quantile set_order metagraph n timeout st :
  Forall (fun uid => ~ out_of_range (apimeta.validator_trust metagraph) uid)
    (apimeta.uids metagraph) ->
  len (bt.S (apimeta.base metagraph)) <= len (bt.axons (apimeta.base metagraph)) ->
  bt.S (apimeta.base metagraph) <> [] ->
  (0 <= n)%Q /\ (n <= 1)%Q ->
  exists query_uids st',
    get_query_api_nodes dendrite np_quantile set_order metagraph n timeout st
    = (Ok query_uids, st')
    /\ (length query_uids <= 3)%nat
    /\ NoDup query_uids
    /\ forall uid, uid ∈ query_uids ->
         uid ∈ where_above (bt.S (apimeta.base metagraph))
                 (np_quantile (bt.S (apimeta.base metagraph)) (1 - n)%Q)
         /\ uid ∈ apimeta.uids metagraph
         /\ exists trust,
              getitem (apimeta.validator_trust metagraph) uid = Ok trust
              /\ (0 < trust)%Q.
Proof.
  intros Htrust Hlen _ _. by apply get_query_api_nodes_spec.
Qed.

Lemma get_query_api_nodes_selects_witness :
  exists query_uids st',
    get_query_api_nodes (mock_call mock01) quantile_linear id apimeta4 (1 # 2)%Q
      (3 # 1)%Q api0
    = (Ok query_uids, st')
    /\ (length query_uids <= 3)%nat
    /\ NoDup query_uids
    /\ forall uid, uid ∈ query_uids ->
         uid ∈ where_above (bt.S (apimeta.base apimeta4))
                 (quantile_linear (bt.S (apimeta.base apimeta4)) (1 - (1 # 2))%Q)
         /\ uid ∈ apimeta.uids apimeta4
         /\ exists trust,
              getitem (apimeta.validator_trust apimeta4) uid = Ok trust
              /\ (0 < trust)%Q.
Proof.
  apply (get_query_api_nodes_selects (mock_call mock01) quantile_linear id apimeta4
           (1 # 2)%Q (3 # 1)%Q api0).
  - repeat apply Forall_cons_2; [..|apply Forall_nil_2];
      unfold out_of_range, len; simpl; lia.
  - unfold len. simpl. lia.
  - discriminate.
  - split; discriminate.
Defined.

(** The set listed in increasing order, as CPython lists a small set of
    small integers. *)
Example run_get_query_api_nodes :
  let run := get_query_api_nodes (mock_call mock01) quantile_linear id apimeta4
               (1 # 2)%Q (3 # 1)%Q api0 in
  run.1 = Ok [0; 3]
  /\ api_log run.2
     = [Fetching_nodes 1; Ping_successful [0; 3]; Ping_failed [];
        Available_nodes 1 [0; 3]].
Proof. vm_compute. split; reflexivity. Qed.

Lemma result_map_Forall2 {A B} (f : A -> result B) (l : list A) : forall ys,
  result_map f l = Ok ys -> Forall2 (fun x y => f x = Ok y) l ys.
Proof.
  induction l as [|x l IH]; intros ys Hrun; simpl in Hrun.
  - injection Hrun as <-. constructor.
  - destruct (f x) as [y|] eqn:Hy; [|done].
    destruct (result_map f l) as [ys'|]; [|done].
    injection Hrun as <-. constructor; [done|by apply IH].
Qed.

(** X20: called without uids, [get_query_api_axons] returns at most three
    axons, those the registry ([metagraph], or the default one when it is
    [None]) holds for different uids chosen among the peers with a stake
    above the quantile and a positive validator trust; the final lookup
    cannot fail. *)
Theorem get_query_api_axons_by_stake
    dendrite np_quantile set_order default_metagraph metagraph n timeout st :
  Forall (fun uid =>
            ~ out_of_range
                (apimeta.validator_trust
                   (metagraph_or_default default_metagraph metagraph)) uid)
    (apimeta.uids (metagraph_or_default default_metagraph metagraph)) ->
  len (bt.S (apimeta.base (metagraph_or_default default_metagraph metagraph)))
  <= len (bt.axons (apimeta.base (metagraph_or_default default_metagraph metagraph))) ->
  bt.S (apimeta.base (metagraph_or_default default_metagraph metagraph)) <> [] ->
  (0 <= n)%Q /\ (n <= 1)%Q ->
  exists query_uids axons st',
    get_query_api_axons dendrite np_quantile set_order default_metagraph metagraph n
      timeout
      None st
    = (Ok axons, st')
    /\ (length axons <= 3)%nat
    /\ NoDup query_uids
    /\ Forall2 (fun uid axon =>
         getitem
           (bt.axons (apimeta.base (metagraph_or_default default_metagraph metagraph)))
           uid = Ok axon
         /\ uid ∈ where_above
                    (bt.S (apimeta.base
                             (metagraph_or_default default_metagraph metagraph)))
                    (np_quantile
                       (bt.S (apimeta.base
                                (metagraph_or_default default_metagraph metagraph)))
                       (1 - n)%Q)
         /\ exists trust,
              getitem (apimeta.validator_trust
                         (metagraph_or_default default_metagraph metagraph)) uid
              = Ok trust
              /\ (0 < trust)%Q) query_uids axons.
Proof.
  set (m := metagraph_or_default default_metagraph metagraph).
  intros Htrust Hlen _ _.
  destruct (get_query_api_nodes_spec dendrite np_quantile set_order m n timeout st
              Htrust Hlen)
    as (query_uids & st1 & Hrun & Hthree & Hnd & Hmem).
  assert (Hreg : Forall (fun uid => ~ out_of_range (bt.axons (apimeta.base m)) uid)
                   query_uids).
  { apply Forall_forall. intros uid Huid.
    apply Hmem in Huid as [Htop _]. apply where_above_range in Htop.
    unfold out_of_range. lia. }
  destruct (result_map_getitem_ok _ _ Hreg) as (axons & Haxons & Hsame).
  exists query_uids, axons, st1. split; [|split; [lia|split; [exact Hnd|]]].
  - unfold get_query_api_axons. fold (metagraph_or_default default_metagraph metagraph).
    fold m. erewrite bind_ok by exact Hrun.
    unfold lift. by rewrite Haxons.
  - apply result_map_Forall2 in Haxons.
    apply Forall2_same_length_lookup. split; [by eapply Forall2_length|].
    intros i uid axon Hu Ha.
    pose proof (Forall2_lookup_lr _ _ _ _ _ _ Haxons Hu Ha) as Hget.
    split; [exact Hget|].
    destruct (Hmem uid) as (Htop & _ & Ht); [by eapply list_elem_of_lookup_2|].
    split; [exact Htop|exact Ht].
Qed.

Lemma get_query_api_axons_by_stake_witness :
  exists query_uids axons st',
    get_query_api_axons (mock_call mock01) quantile_linear id apimeta4 None (1 # 2)%Q
      (3 # 1)%Q None api0
    = (Ok axons, st')
    /\ (length axons <= 3)%nat
    /\ NoDup query_uids
    /\ Forall2 (fun uid axon =>
         getitem (bt.axons (apimeta.base (metagraph_or_default apimeta4 None))) uid
         = Ok axon
         /\ uid ∈ where_above
                    (bt.S (apimeta.base (metagraph_or_default apimeta4 None)))
                    (quantile_linear
                       (bt.S (apimeta.base (metagraph_or_default apimeta4 None)))
                       (1 - (1 # 2))%Q)
         /\ exists trust,
              getitem (apimeta.validator_trust (metagraph_or_default apimeta4 None))
                uid
              = Ok trust
              /\ (0 < trust)%Q) query_uids axons.
Proof.
  apply (get_query_api_axons_by_stake (mock_call mock01) quantile_linear id apimeta4
           None (1 # 2)%Q (3 # 1)%Q api0).
  - repeat apply Forall_cons_2; [..|apply Forall_nil_2];
      unfold out_of_range, len; simpl; lia.
  - unfold len. simpl. lia.
  - discriminate.
  - split; discriminate.
Defined.

Lemma new_synapse_ok w : exists s w', new_synapse w = (Ok s, w').
Proof.
  unfold new_synapse, bind, new_terminal. simpl. by eexists _, _.
Qed.

(** X21: when the transport is down and no uids are given,
    [get_query_api_axons] raises nothing and returns no axon; the generator
    of [random] is not drawn from. *)
Theorem get_query_api_axons_transport_down
    dendrite np_quantile set_order default_metagraph metagraph n timeout st :
  (forall axons s w, exists e w', dendrite axons s false timeout w = (Raise e, w')) ->
  Forall (fun uid =>
            ~ out_of_range
                (apimeta.validator_trust
                   (metagraph_or_default default_metagraph metagraph)) uid)
    (apimeta.uids (metagraph_or_default default_metagraph metagraph)) ->
  len (bt.S (apimeta.base (metagraph_or_default default_metagraph metagraph)))
  <= len (bt.axons (apimeta.base (metagraph_or_default default_metagraph metagraph))) ->
  bt.S (apimeta.base (metagraph_or_default default_metagraph metagraph)) <> [] ->
  (0 <= n)%Q /\ (n <= 1)%Q ->
  exists st',
    get_query_api_axons dendrite np_quantile set_order default_metagraph metagraph n
      timeout
      None st
    = (Ok [], st')
    /\ api_sampler st' = api_sampler st.
Proof.
  set (m := metagraph_or_default default_metagraph metagraph).
  intros Hdown Htrust Hlen _ _.
  destruct (vtrust_uids_of_spec _ _ Htrust) as (vtrust_uids & Hsel & _).
  unfold get_query_api_axons. fold (metagraph_or_default default_metagraph metagraph).
  fold m. unfold get_query_api_nodes.
  set (S := bt.S (apimeta.base m)) in *.
  set (top_uids := where_above S (np_quantile S (1 - n)%Q)).
  set (init := list_of_set set_order
                 (list_to_set top_uids ∩ list_to_set vtrust_uids : gset Z)).
  assert (Hreg : Forall (fun uid => ~ out_of_range (bt.axons (apimeta.base m)) uid)
                   init).
  { apply Forall_forall. intros uid Huid.
    apply elem_of_list_of_set, elem_of_intersection in Huid as [Htop _].
    apply elem_of_list_to_set, where_above_range in Htop.
    unfold out_of_range. lia. }
  destruct (result_map_getitem_ok _ _ Hreg) as (axons & Haxons & _).
  set (st0 := {| api_net := api_net st; api_sampler := api_sampler st;
                 api_log := api_log st ++ [Fetching_nodes (apimeta.netuid m)] |}).
  destruct (new_synapse_ok (api_net st0)) as (s & w1 & Hnew).
  destruct (Hdown axons s w1) as (e & w2 & Hraise).
  assert (Hsend : (let! s := new_synapse in dendrite axons s false timeout)
                    (api_net st0) = (Raise e, w2)).
  { unfold bind. rewrite Hnew. exact Hraise. }
  pose proof (ping_uids_caught dendrite (apimeta.base m) init timeout st0 axons e w2
                Haxons Hsend) as Hping.
  eexists. split.
  - erewrite bind_ok; last first.
    { erewrite bind_ok by (unfold api_emit; reflexivity).
      erewrite bind_ok by (unfold lift; rewrite Hsel; reflexivity).
      cbv zeta. fold S. fold top_uids. fold init. fold st0.
      erewrite bind_ok by exact Hping.
      erewrite bind_ok by (unfold api_emit; reflexivity).
      reflexivity. }
    reflexivity.
  - reflexivity.
Qed.

Lemma get_query_api_axons_transport_down_witness :
  exists st',
    get_query_api_axons dendrite_down quantile_linear id apimeta4 None (1 # 2)%Q
      (3 # 1)%Q None api0
    = (Ok [], st')
    /\ api_sampler st' = api_sampler api0.
Proof.
  apply (get_query_api_axons_transport_down dendrite_down quantile_linear id apimeta4
           None (1 # 2)%Q (3 # 1)%Q api0).
  - intros axons s w. by eexists _, _.
  - repeat apply Forall_cons_2; [..|apply Forall_nil_2];
      unfold out_of_range, len; simpl; lia.
  - unfold len. simpl. lia.
  - discriminate.
  - split; discriminate.
Defined.

(** ** The miner *)

Lemma getitem_nat {A} (l : list A) (i : nat) x :
  l !! i = Some x -> getitem l (Z.of_nat i) = Ok x.
Proof.
  intros Hx. unfold getitem.
  replace (Z.of_nat i <? 0) with false by (symmetry; apply Z.ltb_ge; lia).
  cbv zeta.
  replace (Z.of_nat i <? 0) with false by (symmetry; apply Z.ltb_ge; lia).
  by rewrite Nat2Z.id, Hx.
Qed.

Lemma list_index_in l x :
  x ∈ l -> exists i, list_index l x = Ok (Z.of_nat i) /\ first_at l x i.
Proof.
  induction l as [|y l IH]; intros Hin; [by apply elem_of_nil in Hin|].
  simpl. destruct (decide (y = x)) as [->|Hne].
  - exists 0%nat. split; [done|]. split; [done|]. intros j Hj. lia.
  - apply elem_of_cons in Hin as [->|Hin]; [done|].
    destruct (IH Hin) as (i & -> & Hi & Hfirst).
    exists (Datatypes.S i). split; [f_equal; lia|]. split; [exact Hi|].
    intros [|j] Hj; simpl; [congruence|]. apply Hfirst. lia.
Qed.

Lemma list_index_out l x :
  x ∉ l -> list_index l x = Raise (ValueError "x is not in list").
Proof.
  induction l as [|y l IH]; intros Hout; [done|].
  simpl. apply not_elem_of_cons in Hout as [Hne Hout].
  rewrite decide_False by done. by rewrite IH.
Qed.

Lemma first_at_unique l x i j : first_at l x i -> first_at l x j -> i = j.
Proof.
  intros [Hi Hbi] [Hj Hbj].
  destruct (Nat.lt_trichotomy i j) as [Hlt|[->|Hlt]]; [|done|].
  - by destruct (Hbj i Hlt).
  - by destruct (Hbi j Hlt).
Qed.

(** X22: the miner admits a request exactly when it names its caller, the
    caller's hotkey is registered unless [allow_non_registered] is set, and,
    when [force_validator_permit] is set, the first uid registered with that
    hotkey holds a validator permit; a request without [dendrite] or hotkey
    is never admitted. *)
Theorem blacklist_admits_iff self dendrite st :
  len (bt.validator_permit (miner.metagraph self))
  = len (bt.axons (miner.metagraph self)) ->
  exists verdict reason st',
    miner.blacklist self dendrite st = (Ok (verdict, reason), st')
    /\ (verdict = false <->
        exists hotkey,
          miner.caller dendrite = Some hotkey
          /\ (miner.allow_non_registered (miner.blacklist_config self) = true
              \/ hotkey ∈ hotkeys (miner.metagraph self))
          /\ (miner.force_validator_permit (miner.blacklist_config self) = true ->
              exists uid,
                first_at (hotkeys (miner.metagraph self)) hotkey uid
                /\ bt.validator_permit (miner.metagraph self) !! uid = Some true)).
Proof.
  intros Hlen. unfold miner.blacklist.
  destruct (miner.caller dendrite) as [hotkey|]; last first.
  { eexists true, _, _. split; [reflexivity|]. split; [done|].
    by intros (h & Hh & _). }
  set (hks := hotkeys (miner.metagraph self)).
  set (allow := miner.allow_non_registered (miner.blacklist_config self)).
  set (force := miner.force_validator_permit (miner.blacklist_config self)).
  destruct (decide (hotkey ∈ hks)) as [Hreg|Hreg].
  - rewrite (bool_decide_eq_true_2 _ Hreg), andb_false_r.
    destruct (list_index_in hks hotkey Hreg) as (uid & Hidx & Hfirst).
    assert (Hp : exists permit,
              bt.validator_permit (miner.metagraph self) !! uid = Some permit).
    { apply lookup_lt_is_Some.
      destruct Hfirst as [Hu _]. apply lookup_lt_Some in Hu.
      unfold hks, hotkeys in Hu. rewrite length_fmap in Hu. unfold len in Hlen. lia. }
    destruct Hp as [permit Hp].
    destruct force.
    + unfold bind, try_except_ValueError, lift. rewrite Hidx.
      rewrite (getitem_nat _ _ _ Hp).
      destruct permit; simpl.
      * eexists false, _, _. split; [reflexivity|]. split; [|done].
        intros _. exists hotkey. split; [done|]. split; [by right|].
        intros _. by exists uid.
      * eexists true, _, _. split; [reflexivity|]. split; [done|].
        intros (h & [= <-] & _ & Hforce).
        destruct (Hforce eq_refl) as (uid' & Hfirst' & Hp').
        assert (uid' = uid) as -> by by eapply first_at_unique.
        congruence.
    + eexists false, _, _. split; [reflexivity|]. split; [|done].
      intros _. exists hotkey. split; [done|]. split; [by right|]. done.
  - rewrite (bool_decide_eq_false_2 _ Hreg), andb_true_r.
    destruct allow; simpl.
    + destruct force.
      * unfold bind, try_except_ValueError, lift.
        rewrite (list_index_out _ _ Hreg). simpl.
        eexists true, _, _. split; [reflexivity|]. split; [done|].
        intros (h & [= <-] & _ & Hforce).
        destruct (Hforce eq_refl) as (uid & [Hu _] & _).
        destruct Hreg. by eapply list_elem_of_lookup_2.
      * eexists false, _, _. split; [reflexivity|]. split; [|done].
        intros _. exists hotkey. split; [done|]. split; [by left|]. done.
    + eexists true, _, _. split; [reflexivity|]. split; [done|].
      intros (h & [= <-] & [Ha|Hin] & _); [done|]. by destruct Hreg.
Qed.

Lemma blacklist_admits_iff_witness :
  exists verdict reason st',
    miner.blacklist miner3 (caller_of "bob") [] = (Ok (verdict, reason), st')
    /\ (verdict = false <->
        exists hotkey,
          miner.caller (caller_of "bob") = Some hotkey
          /\ (miner.allow_non_registered (miner.blacklist_config miner3) = true
              \/ hotkey ∈ hotkeys (miner.metagraph miner3))
          /\ (miner.force_validator_permit (miner.blacklist_config miner3) = true ->
              exists uid,
                first_at (hotkeys (miner.metagraph miner3)) hotkey uid
                /\ bt.validator_permit (miner.metagraph miner3) !! uid = Some true)).
Proof.
  apply (blacklist_admits_iff miner3 (caller_of "bob") []). reflexivity.
Defined.

Example run_blacklist :
  (miner.blacklist miner3 (caller_of "bob") []).1 = Ok (false, "Hotkey recognized!")
  /\ (miner.blacklist miner3 (caller_of "alice") []).1
     = Ok (true, "Non-validator hotkey")
  /\ (miner.blacklist miner3 (caller_of "dave") []).1
     = Ok (true, "Unrecognized hotkey")
  /\ (miner.blacklist miner3 None []).1 = Ok (true, "Missing dendrite or hotkey").
Proof. vm_compute. repeat split. Qed.

(** X23: the priority of a request is the stake at the first uid registered
    with the caller's hotkey, and 0 for a caller that is not registered or
    not named; [priority] never raises on a registry whose stakes cover the
    uids. *)
Theorem priority_is_first_stake self dendrite st :
  len (bt.S (miner.metagraph self)) = len (bt.axons (miner.metagraph self)) ->
  exists p st',
    miner.priority self dendrite st = (Ok p, st')
    /\ (forall hotkey uid,
          miner.caller dendrite = Some hotkey ->
          first_at (hotkeys (miner.metagraph self)) hotkey uid ->
          bt.S (miner.metagraph self) !! uid = Some p)
    /\ ((forall hotkey,
           miner.caller dendrite = Some hotkey ->
           hotkey ∉ hotkeys (miner.metagraph self)) ->
        p = 0%Q).
Proof.
  intros Hlen. unfold miner.priority.
  destruct (miner.caller dendrite) as [hotkey|]; last first.
  { eexists 0%Q, _. split; [reflexivity|]. split; [|done]. by intros h uid Hh. }
  set (hks := hotkeys (miner.metagraph self)).
  destruct (decide (hotkey ∈ hks)) as [Hreg|Hreg].
  - destruct (list_index_in hks hotkey Hreg) as (uid & Hidx & Hfirst).
    assert (Hp : exists p, bt.S (miner.metagraph self) !! uid = Some p).
    { apply lookup_lt_is_Some.
      destruct Hfirst as [Hu _]. apply lookup_lt_Some in Hu.
      unfold hks, hotkeys in Hu. rewrite length_fmap in Hu. unfold len in Hlen. lia. }
    destruct Hp as [p Hp].
    unfold bind, try_except_ValueError, lift. rewrite Hidx.
    rewrite (getitem_nat _ _ _ Hp). simpl.
    eexists p, _. split; [reflexivity|]. split.
    + intros h uid' [= <-] Hfirst'.
      assert (uid' = uid) as -> by by eapply first_at_unique.
      exact Hp.
    + intros Hout. by destruct (Hout hotkey eq_refl).
  - unfold bind, try_except_ValueError, lift.
    rewrite (list_index_out _ _ Hreg). simpl.
    eexists 0%Q, _. split; [reflexivity|]. split; [|done].
    intros h uid [= <-] [Hu _]. destruct Hreg. by eapply list_elem_of_lookup_2.
Qed.

Lemma priority_is_first_stake_witness :
  exists p st',
    miner.priority miner3 (caller_of "bob") [] = (Ok p, st')
    /\ (forall hotkey uid,
          miner.caller (caller_of "bob") = Some hotkey ->
          first_at (hotkeys (miner.metagraph miner3)) hotkey uid ->
          bt.S (miner.metagraph miner3) !! uid = Some p)
    /\ ((forall hotkey,
           miner.caller (caller_of "bob") = Some hotkey ->
           hotkey ∉ hotkeys (miner.metagraph miner3)) ->
        p = 0%Q).
Proof.
  apply (priority_is_first_stake miner3 (caller_of "bob") []). reflexivity.
Defined.

Example run_priority :
  (miner.priority miner3 (caller_of "bob") []).1 = Ok (2000 # 1)%Q
  /\ (miner.priority miner3 (caller_of "dave") []).1 = Ok 0%Q
  /\ (miner.priority miner3 None []).1 = Ok 0%Q.
Proof. vm_compute. repeat split. Qed.

(** X24: the simulated transport answers in time what the miner answers:
    every response of [MockDendrite.forward] that shows status 200 carries
    the [dummy_output] that [Miner.forward] sets on the same message. *)
Theorem mock_answers_like_miner
    pre deser self synapse timeout axons run_async w sy0 x :
  preprocess_contract pre ->
  synapses w !! synapse = Some sy0 -> dummy_input sy0 = Some x ->
  exists rs w' wm sym,
    forward pre deser self synapse timeout false axons run_async false w
    = (Ok rs, w')
    /\ miner.forward synapse w = (Ok synapse, wm)
    /\ synapses wm !! synapse = Some sym
    /\ Forall (fun r =>
         answers_200 w' r = true ->
         exists s sy,
           r = RSynapse s /\ synapses w' !! s = Some sy
           /\ dummy_output sy = dummy_output sym) rs.
Proof.
  intros Hpre Hsy0 Hx.
  destruct (query_all_axons_classified pre deser self synapse timeout
              false axons w sy0 x Hpre Hsy0 Hx)
    as (tasks & w1 & rs & w' & _ & Hrun & _ & Hrs & Hclass & _).
  exists rs, w', (store_synapse synapse (set_dummy_output (x * 2) sy0) w),
    (set_dummy_output (x * 2) sy0).
  split; [exact Hrun|]. split; [|split].
  - unfold miner.forward, bind, read_synapse. rewrite Hsy0, Hx.
    unfold set_output, bind, read_synapse, write_synapse. by rewrite Hsy0, Hx.
  - simpl. apply lookup_insert_eq.
  - subst rs. apply Forall_fmap. eapply Forall_impl; [exact Hclass|].
    intros t (sy & ti & e & Hsy & Hti & _ & Hlate & Hok). simpl.
    unfold answers_200, status_in.
    rewrite (response_status_code_run _ _ _ _ Hsy Hti). simpl.
    intros H200. apply bool_decide_eq_true in H200.
    exists (task_s t), sy. split; [done|]. split; [exact Hsy|].
    destruct (Qle_bool timeout e) eqn:Hle.
    + apply Qle_bool_iff in Hle. destruct (Hlate Hle) as (H408 & _). congruence.
    + destruct Hok as (_ & _ & Hout).
      { intros Hc. apply Qle_bool_iff in Hc. congruence. }
      rewrite Hout. f_equal. lia.
Qed.

Lemma mock_answers_like_miner_witness :
  exists rs w' wm sym,
    forward dendrite_preprocess dummy_deserialize mock01 1%positive (1 # 10)%Q
      false [axon_up; axon_down] true false
      (net0 [0; 0; (1 # 20); (1 # 2)]%Q [(1 # 2); (1 # 50)]%Q) = (Ok rs, w')
    /\ miner.forward 1%positive
         (net0 [0; 0; (1 # 20); (1 # 2)]%Q [(1 # 2); (1 # 50)]%Q)
       = (Ok 1%positive, wm)
    /\ synapses wm !! 1%positive = Some sym
    /\ Forall (fun r =>
         answers_200 w' r = true ->
         exists s sy,
           r = RSynapse s /\ synapses w' !! s = Some sy
           /\ dummy_output sy = dummy_output sym) rs.
Proof.
  apply (mock_answers_like_miner dendrite_preprocess dummy_deserialize
           mock01 1%positive (1 # 10)%Q [axon_up; axon_down] true
           (net0 [0; 0; (1 # 20); (1 # 2)]%Q [(1 # 2); (1 # 50)]%Q) dummy42 42).
  - exact dendrite_preprocess_contract.
  - vm_compute. reflexivity.
  - reflexivity.
Defined.

(** ** The round of the API client *)

Lemma new_dummy_spec x w :
  exists s w1 sy,
    new_dummy x w = (Ok s, w1)
    /\ synapses w1 !! s = Some sy /\ dummy_input sy = Some x.
Proof.
  unfold new_dummy, bind, new_terminal. simpl.
  eexists _, _, _. split; [reflexivity|].
  split; [apply lookup_insert_eq|reflexivity].
Qed.

(** X25: the round of the API client on the simulated transport (prepare a
    [Dummy] message for [x], send it without deserializing, process the
    responses) always succeeds, from any store and for any peers, and yields
    at most one value per peer, each equal to twice [x]. *)
Theorem dummy_api_round_trip self axons x timeout w :
  exists outs w',
    (let! synapse := prepare_synapse x in
     let! responses := mock_call self axons synapse false timeout in
     process_responses responses) w
    = (Ok outs, w')
    /\ Forall (fun v => v = 2 * x) outs
    /\ (length outs <= length axons)%nat.
Proof.
  destruct (new_dummy_spec x w) as (s & w1 & sy0 & Hnew & Hsy0 & Hx).
  destruct (query_all_axons_classified dendrite_preprocess dummy_deserialize self s
              timeout false axons w1 sy0 x dendrite_preprocess_contract Hsy0 Hx)
    as (tasks & w2 & rs & w' & _ & Hrun & Hlen & Hrs & Hclass & _).
  destruct (process_classified timeout x w' tasks Hclass []) as (outs & Hp & Hall & Hl).
  exists outs, w'. split; [|split; [exact Hall|lia]].
  unfold prepare_synapse. erewrite bind_ok by exact Hnew.
  erewrite bind_ok by exact Hrun.
  subst rs. exact Hp.
Qed.

Example run_dummy_api :
  ((let! synapse := prepare_synapse 21 in
    let! responses :=
      mock_call mock01 [axon_up; axon_down; axon_up] synapse false (1 # 10)%Q in
    process_responses responses)
     (empty_net [0; 0; 0; (1 # 20); (1 # 20); (1 # 2)]%Q
        [(1 # 20); (1 # 2); (1 # 20)]%Q)).1
  = Ok [42; 42].
Proof. vm_compute. reflexivity. Qed.

(** ** The comparison helper of the tests *)

(** X26: on integers [CLOSE_IN_VALUE(value, tolerance) == other] holds
    exactly when [other] is within [tolerance] of [value]; the second
    alternative of the test adds nothing, and with a negative tolerance
    nothing compares equal. *)
Theorem close_in_value_eq_iff self other :
  helpers.__eq__ self other = true
  <-> Z.abs (helpers.value self - other) <= helpers.tolerance self.
Proof.
  unfold helpers.__eq__.
  rewrite orb_true_iff, !andb_true_iff, !Z.leb_le. lia.
Qed.

(** ** A late unit on a message of the base class *)

(** X27: a unit that reaches the timeout on a message of the base class
    [bt.Synapse], which declares no [dummy_output], fails with the
    [ValueError] of the refused assignment before any status is recorded:
    the message and its [dendrite] object stay as they were, and only the
    reading of the clock is consumed. *)
Theorem late_unit_on_base_message_fails deser timeout deserialize t w sy :
  synapses w !! task_s t = Some sy ->
  dummy_input sy = None ->
  (timeout <= hd 0 (clock w) - task_start_time t)%Q ->
  exists msg w',
    single_axon_response_resume deser timeout deserialize t w
    = (Raise (ValueError msg), w')
    /\ synapses w' = synapses w
    /\ terminals w' = terminals w
    /\ clock w' = tl (clock w)
    /\ draws w' = draws w.
Proof.
  intros Hsy Hx Hle. apply Qle_bool_iff in Hle.
  eexists _, _. split; [by apply (resume_refused _ _ _ _ _ sy)|]. done.
Qed.

Lemma late_unit_on_base_message_fails_witness :
  exists msg w',
    single_axon_response_resume dummy_deserialize (1 # 10)%Q false
      {| task_index := 0; task_s := 1%positive; task_start_time := 0%Q;
         task_process_time := (1 # 2)%Q |}
      (new_synapse (empty_net [(1 # 2)%Q] [])).2
    = (Raise (ValueError msg), w')
    /\ synapses w' = synapses (new_synapse (empty_net [(1 # 2)%Q] [])).2
    /\ terminals w' = terminals (new_synapse (empty_net [(1 # 2)%Q] [])).2
    /\ clock w' = tl (clock (new_synapse (empty_net [(1 # 2)%Q] [])).2)
    /\ draws w' = draws (new_synapse (empty_net [(1 # 2)%Q] [])).2.
Proof.
  apply (late_unit_on_base_message_fails dummy_deserialize (1 # 10)%Q false
           {| task_index := 0; task_s := 1%positive; task_start_time := 0%Q;
              task_process_time := (1 # 2)%Q |}
           (new_synapse (empty_net [(1 # 2)%Q] [])).2
           {| dummy_input := None; dummy_output := None; synapse.timeout := None;
              dendrite := 1%positive; axon := 2%positive |}).
  - vm_compute. reflexivity.
  - reflexivity.
  - vm_compute. discriminate.
Defined.
